(** * Depth-of-Market viewer: order-book replica and trade-flow aggregation

    A shallow embedding of [dom_viewer/datafeed/orderbook.py],
    [dom_viewer/engine/flows.py], the message handlers, the start of [run]
    and the publishing step of [dom_viewer/datafeed/binance_client.py], and
    the poll and the quantity texts of [dom_viewer/ui/dom_window.py].

    Numbers are the program's own: a Python [float] is an IEEE-754 binary64
    value, here Rocq's primitive [float]; a Python [int] is a [Z].  A Python
    [dict] is an insertion-ordered association list whose keys are compared
    with [==].  Methods that mutate [self] take the state and return the new
    one; a method that can raise returns a [result]; a reading of a clock
    is an argument of the method that takes it.

    The feed carries decimal prices and quantities, never NaN.  Where a NaN
    would matter the model says so: dict keys are found by [==] alone, and
    [sorted] is an insertion sort, which is CPython's result whenever no NaN
    is among the elements. *)

From Stdlib Require Import ZArith List Bool Lia Permutation Sorted String.
From Stdlib Require Import Floats.
Import ListNotations.

Set Implicit Arguments.
Set Warnings "-inexact-float".

(** ** Exceptions *)

Inductive exn : Set :=
| ZeroDivisionError
| ValueError
| OverflowError
| Full
| Empty.

Inductive result (A : Type) : Type :=
| Ok (a : A)
| Raise (e : exn).

Arguments Ok {A} a.
Arguments Raise {A} e.

Definition bind {A B : Type} (r : result A) (k : A -> result B) : result B :=
  match r with
  | Ok a => k a
  | Raise e => Raise e
  end.

Notation "x <- r ;; k" := (bind r (fun x => k))
  (at level 61, r at next level, right associativity).

(** ** Python's float *)

Module PyFloat.

Open Scope float_scope.

(** [bool(x)]: every float but the two zeros is true, NaN included. *)
Definition truthy (x : float) : bool := negb (x =? 0).

(** [a or b] on floats. *)
Definition or_else (a b : float) : float := if truthy a then a else b.

(** [max(a, b)]: the builtin keeps its first argument unless the second
    compares greater. *)
Definition max (a b : float) : float := if a <? b then b else a.

(** The float of an integer of magnitude below [2^53], where every integer
    is a float. *)
Definition of_small_int (i : Z) : float :=
  match i with
  | Z0 => 0
  | Zpos _ => of_uint63 (Uint63.of_Z i)
  | Zneg p => - of_uint63 (Uint63.of_Z (Zpos p))
  end.

(** [float(i)] for an [int], the conversion done when an [int] meets a
    [float] in arithmetic: rounded to nearest, ties to even, and
    [OverflowError] when the integer is beyond the floats. *)
Definition of_int (i : Z) : result float :=
  match binary_normalize prec emax i 0 false with
  | S754_infinity _ => Raise OverflowError
  | f => Ok (SF2Prim f)
  end.

(** [x < n] for a float and an [int]: Python compares the two exactly. *)
Definition lt_int (x : float) (n : Z) : bool :=
  match Prim2SF x with
  | S754_nan => false
  | S754_infinity s => s
  | S754_zero _ => (0 <? n)%Z
  | S754_finite s m e =>
      let v := if s then Zneg m else Zpos m in
      if (0 <=? e)%Z then (v * 2 ^ e <? n)%Z else (v <? n * 2 ^ (- e))%Z
  end.

(** [int(x)]: truncation toward zero; NaN and the infinities raise. *)
Definition to_int (x : float) : result Z :=
  match Prim2SF x with
  | S754_nan => Raise ValueError
  | S754_infinity _ => Raise OverflowError
  | S754_zero _ => Ok 0%Z
  | S754_finite s m e =>
      let n := (if 0 <=? e then Zpos m * 2 ^ e else Zpos m / 2 ^ (- e))%Z in
      Ok (if s then (- n)%Z else n)
  end.

(** C's [copysign(0.0, v)]. *)
Definition copysign_zero (v : float) : float :=
  if get_sign v then neg_zero else zero.

(** C's [fmod]: the exact remainder of the truncated quotient, with the
    sign of [x]. *)
Definition fmod (x y : float) : float :=
  match Prim2SF x, Prim2SF y with
  | S754_nan, _ | _, S754_nan => nan
  | S754_infinity _, _ => nan
  | _, S754_zero _ => nan
  | S754_zero _, _ => x
  | S754_finite _ _ _, S754_infinity _ => x
  | S754_finite sx mx ex, S754_finite _ my ey =>
      let e := Z.min ex ey in
      let r := ((Zpos mx * 2 ^ (ex - e)) mod (Zpos my * 2 ^ (ey - e)))%Z in
      match r with
      | Zpos p => SF2Prim (S754_finite sx p e)
      | _ => if sx then neg_zero else zero
      end
  end.

(** C's [floor]. *)
Definition floor (x : float) : float :=
  match Prim2SF x with
  | S754_finite s m e =>
      if (0 <=? e)%Z then x
      else
        let q := (Zpos m / 2 ^ (- e))%Z in
        let exact := (Zpos m mod 2 ^ (- e) =? 0)%Z in
        if s then - of_small_int (if exact then q else q + 1)
        else of_small_int q
  | _ => x
  end.

(** [x // y], after CPython's [float_floor_div] and [_float_div_mod]. *)
Definition floordiv (x y : float) : result float :=
  if y =? 0 then Raise ZeroDivisionError
  else
    let md := fmod x y in
    let div := (x - md) / y in
    let div :=
      if truthy md
      then if xorb (y <? 0) (md <? 0) then div - 1 else div
      else div in
    if truthy div
    then
      let fl := floor div in
      Ok (if 0.5 <? div - fl then fl + 1 else fl)
    else Ok (copysign_zero (x / y)).

(** [x / y]: a divisor equal to zero raises. *)
Definition truediv (x y : float) : result float :=
  if y =? 0 then Raise ZeroDivisionError else Ok (x / y).

(** The character of a decimal digit. *)
Definition digit (k : Z) : Ascii.ascii := Ascii.ascii_of_nat (48 + Z.to_nat k).

(** [str(n)] for an [int] that is not negative: its decimal digits, put
    in front of [acc] from the last one up; [rounds] bounds their number. *)
Fixpoint digits_before (rounds : nat) (n : Z) (acc : string) : string :=
  match rounds with
  | O => acc
  | S rounds =>
      let acc := String (digit (n mod 10)) acc in
      if (n <? 10)%Z then acc else digits_before rounds (n / 10)%Z acc
  end.

Definition decimal (n : Z) : string :=
  digits_before (S (Z.to_nat (Z.log2 n))) n "".

Fixpoint zeros (k : nat) : string :=
  match k with
  | O => ""
  | S k => String (digit 0) (zeros k)
  end.

(** The integer [n] read as a number with [digits] decimals: [1234] with
    two decimals is ["12.34"]. *)
Definition decimal_point (digits : nat) (n : Z) : string :=
  let scale := (10 ^ Z.of_nat digits)%Z in
  let whole := decimal (n / scale)%Z in
  match digits with
  | O => whole
  | S _ =>
      let part := decimal (n mod scale)%Z in
      (whole ++ "." ++ zeros (digits - String.length part) ++ part)%string
  end.

(** [format(x, '.Nf')], the conversion behind [f"{x:.Nf}"]: the decimal
    that is nearest to the float with [digits] decimals, ties to the even
    last digit, with the sign of the float, negative zero included. *)
Definition format_fixed (digits : nat) (x : float) : string :=
  match Prim2SF x with
  | S754_nan => "nan"
  | S754_infinity s => if s then "-inf" else "inf"
  | S754_zero s => ((if s then "-" else "") ++ decimal_point digits 0)%string
  | S754_finite s m e =>
      let scale := (10 ^ Z.of_nat digits)%Z in
      let n :=
        if (0 <=? e)%Z then (Zpos m * 2 ^ e * scale)%Z
        else
          let num := (Zpos m * scale)%Z in
          let den := (2 ^ (- e))%Z in
          let q := (num / den)%Z in
          let r := (num mod den)%Z in
          if (den <? 2 * r)%Z || ((2 * r =? den)%Z && Z.odd q)
          then (q + 1)%Z else q in
      ((if s then "-" else "") ++ decimal_point digits n)%string
  end.

End PyFloat.

Open Scope float_scope.

(** ** Python's dict

    Entries are kept in insertion order.  A lookup returns the first entry
    whose stored key compares equal to the probe; assignment to a key that is
    present replaces the value and keeps the stored key and its position;
    a new key goes to the end.  CPython also finds a key through the very
    object stored, which differs from [==] for a NaN only: here a NaN key
    is never found. *)

Module PyDict.
Section Dict.

Variables K V : Type.
Variable keq : K -> K -> bool.

Definition dict := list (K * V).

(** [d.get(k)] *)
Fixpoint get (d : dict) (k : K) : option V :=
  match d with
  | [] => None
  | (k', v) :: d' => if keq k' k then Some v else get d' k
  end.

(** [d.get(k, dflt)] *)
Definition get_default (d : dict) (k : K) (dflt : V) : V :=
  match get d k with
  | Some v => v
  | None => dflt
  end.

(** [k in d] *)
Definition contains (d : dict) (k : K) : bool :=
  match get d k with
  | Some _ => true
  | None => false
  end.

(** [d[k] = v] *)
Fixpoint setitem (d : dict) (k : K) (v : V) : dict :=
  match d with
  | [] => [(k, v)]
  | (k', v') :: d' =>
      if keq k' k then (k', v) :: d' else (k', v') :: setitem d' k v
  end.

(** [d.pop(k, None)], the dictionary that is left *)
Fixpoint pop (d : dict) (k : K) : dict :=
  match d with
  | [] => []
  | (k', v') :: d' => if keq k' k then d' else (k', v') :: pop d' k
  end.

Definition keys (d : dict) : list K := map fst d.

End Dict.
End PyDict.

(** A dict keyed by floats. *)
Definition fdict (V : Type) : Type := PyDict.dict float V.

Definition fget {V} (d : fdict V) (k : float) : option V := PyDict.get PrimFloat.eqb d k.
Definition fget_default {V} (d : fdict V) (k : float) (dflt : V) : V :=
  PyDict.get_default PrimFloat.eqb d k dflt.
Definition fcontains {V} (d : fdict V) (k : float) : bool := PyDict.contains PrimFloat.eqb d k.
Definition fsetitem {V} (d : fdict V) (k : float) (v : V) : fdict V :=
  PyDict.setitem PrimFloat.eqb d k v.
Definition fpop {V} (d : fdict V) (k : float) : fdict V := PyDict.pop PrimFloat.eqb d k.

(** ** Python's sorted and range

    [sorted] is stable and asks only for [<].  It is modelled as a stable
    insertion sort, which returns what CPython's sort returns whenever [<]
    is a strict weak order on the elements (for floats: no NaN among them).
    With [reverse=True] CPython reverses the list, sorts it and reverses the
    result. *)

Section Sorted.

Variable A : Type.
Variable lt : A -> A -> bool.

Fixpoint insert_sorted (x : A) (l : list A) : list A :=
  match l with
  | [] => [x]
  | y :: l' => if lt x y then x :: l else y :: insert_sorted x l'
  end.

Definition sorted (l : list A) : list A :=
  fold_left (fun acc x => insert_sorted x acc) l [].

Definition sorted_reverse (l : list A) : list A :=
  rev (sorted (rev l)).

End Sorted.

(** [range(lo, hi)] *)
Definition range (lo hi : Z) : list Z :=
  map (fun k => (lo + Z.of_nat k)%Z) (seq 0 (Z.to_nat (hi - lo))).

(** [range(start, stop, -1)] *)
Definition range_down (start stop : Z) : list Z :=
  map (fun k => (start - Z.of_nat k)%Z) (seq 0 (Z.to_nat (start - stop))).

(** The exceptions of a subscript: [d[k]] on a key that is absent and
    [l[i]] out of range.  A subscript returns [inr] of the item or [inl]
    of the exception. *)
Inductive lookup_error : Set :=
| KeyError
| IndexError.

(** [l[i]] on a list; a negative index counts from the end. *)
Definition list_getitem {A : Type} (l : list A) (i : Z) : lookup_error + A :=
  let n := Z.of_nat (List.length l) in
  let j := if (i <? 0)%Z then (i + n)%Z else i in
  if (j <? 0)%Z then inl IndexError
  else
    match nth_error l (Z.to_nat j) with
    | Some x => inr x
    | None => inl IndexError
    end.

(** [d[k]] on a dict keyed by floats. *)
Definition fgetitem {V : Type} (d : fdict V) (k : float) : lookup_error + V :=
  match fget d k with
  | Some v => inr v
  | None => inl KeyError
  end.

(** ** types.py *)

Record PriceLevel : Set := mkPriceLevel {
  pl_price : float;
  pl_bid_qty : float;
  pl_ask_qty : float
}.

Record BinnedLevel : Set := mkBinnedLevel {
  bin_price : float;
  bid_qty : float;
  ask_qty : float
}.

Record FlowLevel : Set := mkFlowLevel {
  price : float;
  bid_resting_qty : float;
  ask_resting_qty : float;
  bid_traded_qty : float;
  ask_traded_qty : float;
  delta_qty : float
}.

Record Trade : Set := mkTrade {
  trade_price : float;
  trade_qty : float;
  is_buyer_maker : bool;
  timestamp_ms : Z
}.

Record DOMSnapshot : Set := mkDOMSnapshot {
  snap_symbol : string;
  snap_best_bid : float;
  snap_best_ask : float;
  snap_mid_price : float;
  spread_bps : float;
  levels : list FlowLevel;
  snap_timestamp_ms : Z;
  updates_per_sec : float
}.

(** ** datafeed/orderbook.py *)

Module OrderBook.

(** The REST snapshot [{lastUpdateId, bids, asks}] and the depth update
    [{U, u, b, a}], each price and quantity already through [float(...)].
    A key that the code reads with [update.get] may be absent. *)
Record snapshot_data := mkSnapshotData {
  lastUpdateId : Z;
  snap_bids : list (float * float);
  snap_asks : list (float * float)
}.

Record update_data := mkUpdate {
  upd_U : option Z;
  upd_u : Z;
  upd_b : option (list (float * float));
  upd_a : option (list (float * float))
}.

(** The object's slots; the two wall-clock stamps ([_last_sort_time],
    [_update_start_time]) are written for the rate display only and are
    left out. *)
Record t := mk {
  symbol : string;
  bids : fdict float;
  asks : fdict float;
  last_update_id : Z;
  _bid_prices_sorted : list float;
  _ask_prices_sorted : list float;
  _dirty : bool;
  _update_count : Z
}.

Definition __init__ (sym : string) : t :=
  {| symbol := sym; bids := []; asks := []; last_update_id := 0;
     _bid_prices_sorted := []; _ask_prices_sorted := [];
     _dirty := true; _update_count := 0 |}.

Definition _ensure_sorted (self : t) : t :=
  if negb (_dirty self) then self
  else
    {| symbol := symbol self; bids := bids self; asks := asks self;
       last_update_id := last_update_id self;
       _bid_prices_sorted := sorted_reverse PrimFloat.ltb (PyDict.keys (bids self));
       _ask_prices_sorted := sorted PrimFloat.ltb (PyDict.keys (asks self));
       _dirty := false; _update_count := _update_count self |}.

(** One iteration of a loading loop: [if qty > 0: side[price] = qty]. *)
Definition load_entry (side : fdict float) (e : float * float) : fdict float :=
  let (price, qty) := e in
  if 0 <? qty then fsetitem side price qty else side.

Definition load_snapshot (self : t) (data : snapshot_data) : t :=
  _ensure_sorted
    {| symbol := symbol self;
       bids := fold_left load_entry (snap_bids data) [];
       asks := fold_left load_entry (snap_asks data) [];
       last_update_id := lastUpdateId data;
       _bid_prices_sorted := _bid_prices_sorted self;
       _ask_prices_sorted := _ask_prices_sorted self;
       _dirty := true; _update_count := _update_count self |}.

(** One iteration of an update loop:
    [if qty == 0: side.pop(price, None) else: side[price] = qty]. *)
Definition update_entry (side : fdict float) (e : float * float) : fdict float :=
  let (price, qty) := e in
  if qty =? 0 then fpop side price else fsetitem side price qty.

Definition first_id (update : update_data) : Z :=
  match upd_U update with
  | Some i => i
  | None => upd_u update
  end.

Definition changes (l : option (list (float * float))) : list (float * float) :=
  match l with
  | Some c => c
  | None => []
  end.

Definition apply_update (self : t) (update : update_data) : bool * t :=
  let last_id := upd_u update in
  if (last_update_id self + 1 <? first_id update)%Z then (false, self)
  else if (last_id <=? last_update_id self)%Z then (true, self)
  else
    (true,
     {| symbol := symbol self;
        bids := fold_left update_entry (changes (upd_b update)) (bids self);
        asks := fold_left update_entry (changes (upd_a update)) (asks self);
        last_update_id := last_id;
        _bid_prices_sorted := _bid_prices_sorted self;
        _ask_prices_sorted := _ask_prices_sorted self;
        _dirty := true;
        _update_count := (_update_count self + 1)%Z |}).

(** The properties read the cache after refreshing it, so each returns the
    value and the object as it is left. *)
Definition best_bid (self : t) : float * t :=
  let self := _ensure_sorted self in
  (match _bid_prices_sorted self with
   | p :: _ => p
   | [] => 0
   end, self).

Definition best_ask (self : t) : float * t :=
  let self := _ensure_sorted self in
  (match _ask_prices_sorted self with
   | p :: _ => p
   | [] => 0
   end, self).

Definition mid_price (self : t) : float * t :=
  let (bb, self) := best_bid self in
  let (ba, self) := best_ask self in
  (if (0 <? bb) && (0 <? ba) then (bb + ba) / 2 else PyFloat.or_else bb ba,
   self).

(** The two loops of [get_ladder]: for each index the price is read from
    the cache, its quantity from the side, and a row is appended to
    [result]. *)
Fixpoint ladder_rows (row : float -> float -> PriceLevel) (cache : list float)
    (side : fdict float) (indices : list Z) (result : list PriceLevel)
  : lookup_error + list PriceLevel :=
  match indices with
  | [] => inr result
  | i :: rest =>
      match list_getitem cache i with
      | inl e => inl e
      | inr price =>
          match fgetitem side price with
          | inl e => inl e
          | inr qty => ladder_rows row cache side rest (result ++ [row price qty])
          end
      end
  end.

Definition get_ladder (self : t) (levels : Z)
  : (lookup_error + list PriceLevel) * t :=
  let self := _ensure_sorted self in
  let ask_count := Z.min levels (Z.of_nat (List.length (_ask_prices_sorted self))) in
  let bid_count := Z.min levels (Z.of_nat (List.length (_bid_prices_sorted self))) in
  (match ladder_rows (fun price qty => mkPriceLevel price 0 qty)
           (_ask_prices_sorted self) (asks self)
           (range_down (ask_count - 1) (-1)) [] with
   | inl e => inl e
   | inr result =>
       ladder_rows (fun price qty => mkPriceLevel price qty 0)
         (_bid_prices_sorted self) (bids self) (range 0 bid_count) result
   end, self).

(** [(price // bin_size) * bin_size + bin_size / 2] *)
Definition bin_center_of (price bin_size : float) : result float :=
  q <- PyFloat.floordiv price bin_size ;;
  Ok (q * bin_size + bin_size / 2).

(** The pre-allocation loop:
    [bins[center_bin + i * bin_size] = [0.0, 0.0]] for each [i]. *)
Fixpoint allocate (center_bin bin_size : float) (indices : list Z)
    (bins : fdict (float * float)) : result (fdict (float * float)) :=
  match indices with
  | [] => Ok bins
  | i :: rest =>
      f <- PyFloat.of_int i ;;
      allocate center_bin bin_size rest
        (fsetitem bins (center_bin + f * bin_size) (0, 0))
  end.

Definition allocate_bins (center_bin bin_size : float) (levels : Z)
  : result (fdict (float * float)) :=
  allocate center_bin bin_size (range (- levels) (levels + 1)) [].

(** [bins[c][0] += qty] and [bins[c][1] += qty] on a key that is present. *)
Definition add_bid (bins : fdict (float * float)) (c qty : float) :=
  match fget bins c with
  | Some (b, a) => fsetitem bins c (b + qty, a)
  | None => bins
  end.

Definition add_ask (bins : fdict (float * float)) (c qty : float) :=
  match fget bins c with
  | Some (b, a) => fsetitem bins c (b, a + qty)
  | None => bins
  end.

(** The two aggregation loops over [side.items()]. *)
Fixpoint aggregate (add : fdict (float * float) -> float -> float -> fdict (float * float))
    (bin_size : float) (side : list (float * float)) (bins : fdict (float * float))
  : result (fdict (float * float)) :=
  match side with
  | [] => Ok bins
  | (price, qty) :: rest =>
      c <- bin_center_of price bin_size ;;
      aggregate add bin_size rest (if fcontains bins c then add bins c qty else bins)
  end.

(** [<] on the items [(bin_center, [bid_qty, ask_qty])] that [sorted]
    compares: tuples and lists compare at the first position where the
    elements differ. *)
Definition item_lt (x y : float * (float * float)) : bool :=
  let '(k1, (b1, a1)) := x in
  let '(k2, (b2, a2)) := y in
  if k1 =? k2
  then if b1 =? b2 then (if a1 =? a2 then false else a1 <? a2) else b1 <? b2
  else k1 <? k2.

Definition get_binned_ladder (self : t) (bin_size : float) (levels : Z)
  : result (list BinnedLevel) * t :=
  let self := _ensure_sorted self in
  let (mid, self) := mid_price self in
  (if mid =? 0 then Ok []
   else
     center_bin <- bin_center_of mid bin_size ;;
     bins <- allocate_bins center_bin bin_size levels ;;
     bins <- aggregate add_bid bin_size (bids self) bins ;;
     bins <- aggregate add_ask bin_size (asks self) bins ;;
     Ok (map (fun it => let '(p, (b, a)) := it in mkBinnedLevel p b a)
           (sorted_reverse item_lt bins)),
   self).

(** [elapsed] is [time.perf_counter() - self._update_start_time]: the
    reading of the clock less the stamp taken when the counters were last
    started. *)
Definition get_updates_per_sec (self : t) (elapsed : float) : result float :=
  if elapsed <? 0.001 then Ok 0
  else
    n <- PyFloat.of_int (_update_count self) ;;
    PyFloat.truediv n elapsed.

End OrderBook.

(** ** engine/flows.py *)

Module FlowEngine.

Definition DEFAULT_WINDOW_SEC : float := 60.

(** A history entry [(timestamp_ms, bin_price, qty, is_bid)]. *)
Definition entry : Set := (Z * float * float * bool)%type.

Record t := mk {
  window_sec : float;
  bin_size : float;
  _trades : list entry;
  _bid_volume : fdict float;
  _ask_volume : fdict float;
  _last_cleanup_time : float;
  _cleanup_interval : float
}.

Definition __init__ (bin_size window_sec : float) : t :=
  {| window_sec := window_sec; bin_size := bin_size; _trades := [];
     _bid_volume := []; _ask_volume := [];
     _last_cleanup_time := 0; _cleanup_interval := 1 |}.

Definition _price_to_bin (self : t) (price : float) : result float :=
  q <- PyFloat.floordiv price (bin_size self) ;;
  Ok (q * bin_size self + bin_size self / 2).

(** The subtraction of one expired entry from a side's map:
    [vol[bin] = max(0.0, vol.get(bin, 0.0) - qty)], then
    [vol.pop(bin, None)] when the value read back, which is the value just
    stored, equals [0.0].  The key is looked up by [==], as everywhere in
    this model.  CPython finds a key by identity first, and the bin of a
    history entry is the very object [process_trade] stored as the key; so
    for a NaN bin, which equals nothing, the code still reaches its key
    and removes it, while this definition appends an item.  The two agree
    on every bin that is not NaN, and the properties of the clean-up's
    dictionaries assume a history without NaN bins. *)
Definition subtract (vol : fdict float) (bin qty : float) : fdict float :=
  let v := PyFloat.max 0 (fget_default vol bin 0 - qty) in
  let vol := fsetitem vol bin v in
  if v =? 0 then fpop vol bin else vol.

(** The [while] loop of [_cleanup_expired]; it pops from the left, so it
    is a recursion on the history. *)
Fixpoint expire (cutoff_ms : Z) (trades : list entry)
    (bid_volume ask_volume : fdict float)
  : list entry * fdict float * fdict float :=
  match trades with
  | [] => ([], bid_volume, ask_volume)
  | (ts_ms, bin, qty, is_bid) :: rest =>
      if (ts_ms <? cutoff_ms)%Z
      then
        if is_bid
        then expire cutoff_ms rest (subtract bid_volume bin qty) ask_volume
        else expire cutoff_ms rest bid_volume (subtract ask_volume bin qty)
      else (trades, bid_volume, ask_volume)
  end.

Definition _cleanup_expired (self : t) (now_ms : Z) : result t :=
  w <- PyFloat.to_int (window_sec self * 1000) ;;
  let cutoff_ms := (now_ms - w)%Z in
  let '(trades, bv, av) :=
    expire cutoff_ms (_trades self) (_bid_volume self) (_ask_volume self) in
  Ok {| window_sec := window_sec self; bin_size := bin_size self;
        _trades := trades; _bid_volume := bv; _ask_volume := av;
        _last_cleanup_time := _last_cleanup_time self;
        _cleanup_interval := _cleanup_interval self |}.

Definition set_last_cleanup_time (self : t) (now : float) : t :=
  {| window_sec := window_sec self; bin_size := bin_size self;
     _trades := _trades self; _bid_volume := _bid_volume self;
     _ask_volume := _ask_volume self;
     _last_cleanup_time := now;
     _cleanup_interval := _cleanup_interval self |}.

(** [now] is the reading of [time.perf_counter()] taken inside the call.
    An exception leaves the method before or during the clean-up; the
    result then carries the exception only. *)
Definition process_trade (self : t) (trade : Trade) (now : float) : result t :=
  bin_price <- _price_to_bin self (trade_price trade) ;;
  let is_bid := negb (is_buyer_maker trade) in
  let bv :=
    if is_bid
    then fsetitem (_bid_volume self) bin_price
           (fget_default (_bid_volume self) bin_price 0 + trade_qty trade)
    else _bid_volume self in
  let av :=
    if is_bid
    then _ask_volume self
    else fsetitem (_ask_volume self) bin_price
           (fget_default (_ask_volume self) bin_price 0 + trade_qty trade) in
  let self :=
    {| window_sec := window_sec self; bin_size := bin_size self;
       _trades := _trades self ++ [(timestamp_ms trade, bin_price, trade_qty trade, is_bid)];
       _bid_volume := bv; _ask_volume := av;
       _last_cleanup_time := _last_cleanup_time self;
       _cleanup_interval := _cleanup_interval self |} in
  if _cleanup_interval self <? now - _last_cleanup_time self
  then
    self <- _cleanup_expired self (timestamp_ms trade) ;;
    Ok (set_last_cleanup_time self now)
  else Ok self.

Definition get_flow_at_bin (self : t) (bin_price : float) : float * float * float :=
  let bid := fget_default (_bid_volume self) bin_price 0 in
  let ask := fget_default (_ask_volume self) bin_price 0 in
  (bid, ask, bid - ask).

Definition merge_with_book (self : t) (binned_levels : list BinnedLevel)
  : list FlowLevel :=
  map (fun level =>
         let bid_traded := fget_default (_bid_volume self) (bin_price level) 0 in
         let ask_traded := fget_default (_ask_volume self) (bin_price level) 0 in
         let delta := bid_traded - ask_traded in
         {| price := bin_price level;
            bid_resting_qty := bid_qty level;
            ask_resting_qty := ask_qty level;
            bid_traded_qty := bid_traded;
            ask_traded_qty := ask_traded;
            delta_qty := delta |})
      binned_levels.

Definition clear (self : t) : t :=
  {| window_sec := window_sec self; bin_size := bin_size self;
     _trades := []; _bid_volume := []; _ask_volume := [];
     _last_cleanup_time := _last_cleanup_time self;
     _cleanup_interval := _cleanup_interval self |}.

End FlowEngine.

(** ** queue.Queue

    The calls the client makes are the non-blocking ones: each returns at
    once or raises [Full] or [Empty].  The renderer runs on another thread
    and only ever takes from the front; [taken k] is the queue after it has
    taken up to [k] items between two calls of the producer. *)

Module Queue.
Section Queue.

Variable A : Type.

Record t := mk {
  maxsize : Z;
  items : list A
}.

Definition qsize (q : t) : Z := Z.of_nat (List.length (items q)).

Definition full (q : t) : bool :=
  (0 <? maxsize q)%Z && (maxsize q <=? qsize q)%Z.

Definition put_nowait (q : t) (x : A) : result t :=
  if full q then Raise Full
  else Ok {| maxsize := maxsize q; items := items q ++ [x] |}.

Definition get_nowait (q : t) : result (A * t) :=
  match items q with
  | [] => Raise Empty
  | x :: rest => Ok (x, {| maxsize := maxsize q; items := rest |})
  end.

Definition taken (k : nat) (q : t) : t :=
  {| maxsize := maxsize q; items := skipn k (items q) |}.

End Queue.
End Queue.

(** ** datafeed/binance_client.py *)

Module BinanceClient.

Record t := mk {
  symbol : string;
  bin_size : float;
  levels : Z;
  snapshot_interval_ms : Z;
  orderbook : OrderBook.t;
  flows : FlowEngine.t;
  _snapshot_loaded : bool;
  _buffered_updates : list OrderBook.update_data;
  _last_snapshot_time : float;
  _update_count : Z;
  _update_count_last : Z;
  _rate_calc_time : float;
  _updates_per_sec : float;
  snapshot_queue : Queue.t DOMSnapshot
}.

(** [rate_calc_time] is the reading of [time.perf_counter()] in the
    constructor; symbols are taken already in upper case. *)
Definition __init__ (sym : string) (bin_size : float) (levels : Z)
    (flow_window_sec : float) (snapshot_interval_ms : Z)
    (rate_calc_time : float) : t :=
  {| symbol := sym; bin_size := bin_size; levels := levels;
     snapshot_interval_ms := snapshot_interval_ms;
     orderbook := OrderBook.__init__ sym;
     flows := FlowEngine.__init__ bin_size flow_window_sec;
     _snapshot_loaded := false; _buffered_updates := [];
     _last_snapshot_time := 0;
     _update_count := 0; _update_count_last := 0;
     _rate_calc_time := rate_calc_time; _updates_per_sec := 0;
     snapshot_queue := {| Queue.maxsize := 5; Queue.items := [] |} |}.

(** Lines 164-182: the artifact built from the book and the flows, and
    the book as the queries leave it.  [wall_ms] is
    [int(time.time() * 1000)]. *)
Definition build_snapshot (self : t) (wall_ms : Z)
  : result DOMSnapshot * OrderBook.t :=
  let (binned, ob) :=
    OrderBook.get_binned_ladder (orderbook self) (bin_size self) (levels self) in
  match binned with
  | Raise e => (Raise e, ob)
  | Ok binned =>
      let flow_levels := FlowEngine.merge_with_book (flows self) binned in
      let (best_bid, ob) := OrderBook.best_bid ob in
      let (best_ask, ob) := OrderBook.best_ask ob in
      let (mid, ob) := OrderBook.mid_price ob in
      let spread := if 0 <? mid then (best_ask - best_bid) / mid * 10000 else 0 in
      (Ok (mkDOMSnapshot (symbol self) best_bid best_ask mid spread
             flow_levels wall_ms (_updates_per_sec self)), ob)
  end.

(** Lines 186-194: [put_nowait]; on [Full], [get_nowait] and [put_nowait]
    again, any exception of the two swallowed.  The renderer may take
    [k1] items after the failed put and [k2] after the get. *)
Definition put_drop_oldest (q : Queue.t DOMSnapshot) (snapshot : DOMSnapshot)
    (k1 k2 : nat) : Queue.t DOMSnapshot :=
  match Queue.put_nowait q snapshot with
  | Ok q' => q'
  | Raise _ =>
      let q := Queue.taken k1 q in
      match Queue.get_nowait q with
      | Raise _ => q
      | Ok (_, q) =>
          let q := Queue.taken k2 q in
          match Queue.put_nowait q snapshot with
          | Ok q' => q'
          | Raise _ => q
          end
      end
  end.

Definition with_push (self : t) (now : float) (rate : float)
    (count_last : Z) (rate_time : float) (ob : OrderBook.t)
    (q : Queue.t DOMSnapshot) : t :=
  {| symbol := symbol self; bin_size := bin_size self; levels := levels self;
     snapshot_interval_ms := snapshot_interval_ms self;
     orderbook := ob; flows := flows self;
     _snapshot_loaded := _snapshot_loaded self;
     _buffered_updates := _buffered_updates self;
     _last_snapshot_time := now;
     _update_count := _update_count self;
     _update_count_last := count_last;
     _rate_calc_time := rate_time;
     _updates_per_sec := rate;
     snapshot_queue := q |}.

(** [now] is the reading of [time.perf_counter()]; the result is the
    client as the call leaves it and the exception, if one escaped. *)
Definition _maybe_push_snapshot (self : t) (now : float) (wall_ms : Z)
    (k1 k2 : nat) : t * option exn :=
  let elapsed_ms := (now - _last_snapshot_time self) * 1000 in
  if PyFloat.lt_int elapsed_ms (snapshot_interval_ms self) then (self, None)
  else
    let rate_elapsed := now - _rate_calc_time self in
    let refresh := 1 <=? rate_elapsed in
    let count := PyFloat.of_int (_update_count self - _update_count_last self) in
    match refresh, count with
    | true, Raise e =>
        (with_push self now (_updates_per_sec self) (_update_count_last self)
           (_rate_calc_time self) (orderbook self) (snapshot_queue self), Some e)
    | _, _ =>
        let rate :=
          match refresh, count with
          | true, Ok n => n / rate_elapsed
          | _, _ => _updates_per_sec self
          end in
        let count_last :=
          if refresh then _update_count self else _update_count_last self in
        let rate_time := if refresh then now else _rate_calc_time self in
        let self := with_push self now rate count_last rate_time
                      (orderbook self) (snapshot_queue self) in
        let (snapshot, ob) := build_snapshot self wall_ms in
        match snapshot with
        | Raise e =>
            (with_push self now rate count_last rate_time ob (snapshot_queue self),
             Some e)
        | Ok snapshot =>
            (with_push self now rate count_last rate_time ob
               (put_drop_oldest (snapshot_queue self) snapshot k1 k2), None)
        end
    end.

(** [_process_depth_update], without its debug prints. *)
Definition _process_depth_update (self : t) (data : OrderBook.update_data) : t :=
  if negb (_snapshot_loaded self)
  then
    {| symbol := symbol self; bin_size := bin_size self; levels := levels self;
       snapshot_interval_ms := snapshot_interval_ms self;
       orderbook := orderbook self; flows := flows self;
       _snapshot_loaded := _snapshot_loaded self;
       _buffered_updates := _buffered_updates self ++ [data];
       _last_snapshot_time := _last_snapshot_time self;
       _update_count := _update_count self;
       _update_count_last := _update_count_last self;
       _rate_calc_time := _rate_calc_time self;
       _updates_per_sec := _updates_per_sec self;
       snapshot_queue := snapshot_queue self |}
  else
    let (applied, ob) := OrderBook.apply_update (orderbook self) data in
    {| symbol := symbol self; bin_size := bin_size self; levels := levels self;
       snapshot_interval_ms := snapshot_interval_ms self;
       orderbook := ob; flows := flows self;
       _snapshot_loaded := _snapshot_loaded self;
       _buffered_updates := _buffered_updates self;
       _last_snapshot_time := _last_snapshot_time self;
       _update_count := if applied then (_update_count self + 1)%Z else _update_count self;
       _update_count_last := _update_count_last self;
       _rate_calc_time := _rate_calc_time self;
       _updates_per_sec := _updates_per_sec self;
       snapshot_queue := snapshot_queue self |}.

(** The trade message [{p, q, m, T}], price and quantity already through
    [float(...)]. *)
Record trade_data := mkTradeData {
  msg_p : float;
  msg_q : float;
  msg_m : bool;
  msg_T : Z
}.

Definition with_flows (self : t) (fl : FlowEngine.t) : t :=
  {| symbol := symbol self; bin_size := bin_size self; levels := levels self;
     snapshot_interval_ms := snapshot_interval_ms self;
     orderbook := orderbook self; flows := fl;
     _snapshot_loaded := _snapshot_loaded self;
     _buffered_updates := _buffered_updates self;
     _last_snapshot_time := _last_snapshot_time self;
     _update_count := _update_count self;
     _update_count_last := _update_count_last self;
     _rate_calc_time := _rate_calc_time self;
     _updates_per_sec := _updates_per_sec self;
     snapshot_queue := snapshot_queue self |}.

(** [now] is the clock reading [process_trade] takes. *)
Definition _process_trade (self : t) (data : trade_data) (now : float) : result t :=
  let trade := mkTrade (msg_p data) (msg_q data) (msg_m data) (msg_T data) in
  fl <- FlowEngine.process_trade (flows self) trade now ;;
  Ok (with_flows self fl).

(** [run] up to its message loop (lines 205-219): the snapshot fetched over
    REST is loaded, the updates buffered so far are applied in arrival
    order, whatever [apply_update] answers, the buffer is cleared, and the
    time of the last publication is set to [now], the clock read once the
    socket is open. *)
Definition run_start (self : t) (snapshot_data : OrderBook.snapshot_data)
    (now : float) : t :=
  let ob := OrderBook.load_snapshot (orderbook self) snapshot_data in
  let ob :=
    fold_left (fun ob update => snd (OrderBook.apply_update ob update))
      (_buffered_updates self) ob in
  {| symbol := symbol self; bin_size := bin_size self; levels := levels self;
     snapshot_interval_ms := snapshot_interval_ms self;
     orderbook := ob; flows := flows self;
     _snapshot_loaded := true;
     _buffered_updates := [];
     _last_snapshot_time := now;
     _update_count := _update_count self;
     _update_count_last := _update_count_last self;
     _rate_calc_time := _rate_calc_time self;
     _updates_per_sec := _updates_per_sec self;
     snapshot_queue := snapshot_queue self |}.

(** The renderer's side of the shared queue: up to [k] artifacts taken
    from the front. *)
Definition with_taken (self : t) (k : nat) : t :=
  {| symbol := symbol self; bin_size := bin_size self; levels := levels self;
     snapshot_interval_ms := snapshot_interval_ms self;
     orderbook := orderbook self; flows := flows self;
     _snapshot_loaded := _snapshot_loaded self;
     _buffered_updates := _buffered_updates self;
     _last_snapshot_time := _last_snapshot_time self;
     _update_count := _update_count self;
     _update_count_last := _update_count_last self;
     _rate_calc_time := _rate_calc_time self;
     _updates_per_sec := _updates_per_sec self;
     snapshot_queue := Queue.taken k (snapshot_queue self) |}.

End BinanceClient.

(** ** ui/dom_window.py

    The window polls the queue it shares with the client.  The queue is
    passed to the call and returned by it; no artifact is published while
    the call runs. *)

Module DOMWindow.

Definition format_qty (qty : float) : string :=
  if 1000 <=? qty then (PyFloat.format_fixed 1 (qty / 1000) ++ "K")%string
  else if 1 <=? qty then PyFloat.format_fixed 1 qty
  else if 0 <? qty then PyFloat.format_fixed 2 qty
  else "".

(** The text [_update_display] writes in the delta cell of a row (its
    column 8). *)
Definition delta_text (delta_qty : float) : string :=
  if 0 <? delta_qty then ("+" ++ format_qty delta_qty)%string
  else if delta_qty <? 0 then format_qty delta_qty
  else "".

Record t := mk {
  _last_snapshot : option DOMSnapshot
}.

(** The loop [while True: latest = get_nowait()] that [Empty] ends.  One
    more round than there are artifacts is enough for it to end. *)
Fixpoint drain (rounds : nat) (q : Queue.t DOMSnapshot) (latest : option DOMSnapshot)
  : Queue.t DOMSnapshot * option DOMSnapshot :=
  match rounds with
  | O => (q, latest)
  | S rounds =>
      match Queue.get_nowait q with
      | Raise _ => (q, latest)
      | Ok (x, q) => drain rounds q (Some x)
      end
  end.

(** [_poll_snapshots]: a [DOMSnapshot] is a tuple of eight fields, hence
    true, so [if latest:] asks whether anything was taken.  What
    [_update_display] then draws is not part of the state kept here. *)
Definition _poll_snapshots (self : t) (q : Queue.t DOMSnapshot)
  : t * Queue.t DOMSnapshot :=
  let (q, latest) := drain (S (List.length (Queue.items q))) q None in
  match latest with
  | Some snap => ({| _last_snapshot := Some snap |}, q)
  | None => (self, q)
  end.

End DOMWindow.

(** ** Vocabulary of the properties *)

(** The books a client can hold: the constructor's, and what loading,
    updating and querying make of them. *)
Inductive reachable : OrderBook.t -> Prop :=
| reach_init sym : reachable (OrderBook.__init__ sym)
| reach_load self data :
    reachable self -> reachable (OrderBook.load_snapshot self data)
| reach_apply self update :
    reachable self -> reachable (snd (OrderBook.apply_update self update))
| reach_query self :
    reachable self -> reachable (OrderBook._ensure_sorted self).

(** A clean cache holds the sorted keys. *)
Definition cache_ok (self : OrderBook.t) : Prop :=
  OrderBook._dirty self = false ->
  OrderBook._bid_prices_sorted self
  = sorted_reverse PrimFloat.ltb (PyDict.keys (OrderBook.bids self))
  /\ OrderBook._ask_prices_sorted self
     = sorted PrimFloat.ltb (PyDict.keys (OrderBook.asks self)).

(** The head of a price list, [0.0] when there is none. *)
Definition head_or_zero (l : list float) : float :=
  match l with
  | p :: _ => p
  | [] => 0
  end.

(** No stored key compares equal to a later one. *)
Inductive uniq {K : Type} (keq : K -> K -> bool) : list K -> Prop :=
| uniq_nil : uniq keq []
| uniq_cons k ks :
    (forall k', In k' ks -> keq k k' = false) -> uniq keq ks -> uniq keq (k :: ks).

(** The resting orders of one side that [get_binned_ladder] adds to the
    bin stored under [k]: those whose bin centre compares equal to [k]. *)
Definition in_bin (bin_size k : float) (e : float * float) : bool :=
  match OrderBook.bin_center_of (fst e) bin_size with
  | Ok c => k =? c
  | Raise _ => false
  end.

(** [sum(...)] of floats, left to right from [start]. *)
Definition fsum (start : float) (l : list float) : float :=
  fold_left PrimFloat.add l start.

(** The rows the two aggregation loops make of the allocated bins: under
    each key, the left-to-right sums of the bid and of the ask quantities
    that fall in its bin. *)
Definition binned_rows (bin_size : float) (bids asks : list (float * float))
    (bins : fdict (float * float)) : list (float * (float * float)) :=
  map (fun e =>
         (fst e,
          (fsum 0 (map snd (filter (in_bin bin_size (fst e)) bids)),
           fsum 0 (map snd (filter (in_bin bin_size (fst e)) asks)))))
      bins.

(** An item of [bins] as the level built from it. *)
Definition to_level (it : float * (float * float)) : BinnedLevel :=
  let '(p, (b, a)) := it in mkBinnedLevel p b a.

(** Sortedness for a boolean [<]: no later element is below an earlier
    one. *)
Definition not_above {A : Type} (lt : A -> A -> bool) (a b : A) : Prop :=
  lt b a = false.

(** The item stored under key [k] when the values are given by [g]. *)
Definition row (g : float -> float * float) (k : float) : float * (float * float) :=
  (k, g k).

(** The centres [get_binned_ladder] allocates, in allocation order. *)
Fixpoint centers_of (center_bin bin_size : float) (indices : list Z)
  : result (list float) :=
  match indices with
  | [] => Ok []
  | i :: rest =>
      f <- PyFloat.of_int i ;;
      cs <- centers_of center_bin bin_size rest ;;
      Ok (center_bin + f * bin_size :: cs)
  end.

Definition centers (center_bin bin_size : float) (levels : Z) : result (list float) :=
  centers_of center_bin bin_size (range (- levels) (levels + 1)).

(** The timestamp of a history entry. *)
Definition entry_time (e : FlowEngine.entry) : Z := fst (fst (fst e)).



(** The order of binary64 values, read off their specification: every
    value but NaN has a key, and [<] and [==] on floats are the
    lexicographic order and the equality of the keys. *)
Definition sf_key (x : spec_float) : option (Z * Z * Z) :=
  match x with
  | S754_nan => None
  | S754_zero _ => Some (0, 0, 0)%Z
  | S754_infinity s => Some (if s then (-2)%Z else 2%Z, 0%Z, 0%Z)
  | S754_finite s m e =>
      Some (if s then ((-1)%Z, (- e)%Z, Zneg m) else (1%Z, e, Zpos m))
  end.

Definition fkey (x : float) : option (Z * Z * Z) := sf_key (Prim2SF x).

Definition lex3 (a b : Z * Z * Z) : comparison :=
  let '(a1, a2, a3) := a in
  let '(b1, b2, b3) := b in
  match (a1 ?= b1)%Z with
  | Eq => match (a2 ?= b2)%Z with Eq => (a3 ?= b3)%Z | c => c end
  | c => c
  end.

Definition lex_lt (a b : Z * Z * Z) : Prop :=
  let '(a1, a2, a3) := a in
  let '(b1, b2, b3) := b in
  (a1 < b1 \/ (a1 = b1 /\ (a2 < b2 \/ (a2 = b2 /\ a3 < b3))))%Z.

(** The last change an update carries for the price [p], if any. *)
Fixpoint last_change (entries : list (float * float)) (p : float) : option float :=
  match entries with
  | [] => None
  | (price, qty) :: rest =>
      match last_change rest p with
      | Some q => Some q
      | None => if price =? p then Some qty else None
      end
  end.

(** The last entry of a snapshot for the price [p] among those the loading
    loop keeps, if any. *)
Fixpoint last_positive (entries : list (float * float)) (p : float) : option float :=
  match entries with
  | [] => None
  | (price, qty) :: rest =>
      match last_positive rest p with
      | Some q => Some q
      | None => if (0 <? qty) && (price =? p) then Some qty else None
      end
  end.

(** The bin and the side of a history entry
    [(timestamp_ms, bin_price, qty, is_bid)]. *)
Definition entry_bin (e : FlowEngine.entry) : float := snd (fst (fst e)).
Definition entry_is_bid (e : FlowEngine.entry) : bool := snd e.

(** Whether one of the entries is on the given side at a bin that equals
    [p]. *)
Definition touches (is_bid : bool) (p : float) (entries : list FlowEngine.entry)
  : bool :=
  existsb (fun e => Bool.eqb (entry_is_bid e) is_bid && (entry_bin e =? p)) entries.

(** The flow engines a client can hold: the constructor's, and what
    trades, clean-ups and [clear] make of them. *)
Inductive flow_reachable : FlowEngine.t -> Prop :=
| flow_init bin_size window_sec :
    flow_reachable (FlowEngine.__init__ bin_size window_sec)
| flow_trade self trade now self' :
    flow_reachable self ->
    FlowEngine.process_trade self trade now = Ok self' -> flow_reachable self'
| flow_cleanup self now_ms self' :
    flow_reachable self ->
    FlowEngine._cleanup_expired self now_ms = Ok self' -> flow_reachable self'
| flow_clear self :
    flow_reachable self -> flow_reachable (FlowEngine.clear self).

(** The clients a feed can hold: the constructor's, and what the start of
    [run], the depth and trade messages, the publications and the
    renderer's takes make of them. *)
Inductive client_reachable : BinanceClient.t -> Prop :=
| client_init sym bin_size levels flow_window_sec snapshot_interval_ms rate_calc_time :
    client_reachable
      (BinanceClient.__init__ sym bin_size levels flow_window_sec
         snapshot_interval_ms rate_calc_time)
| client_start self data now :
    client_reachable self -> client_reachable (BinanceClient.run_start self data now)
| client_depth self data :
    client_reachable self ->
    client_reachable (BinanceClient._process_depth_update self data)
| client_trade self data now self' :
    client_reachable self ->
    BinanceClient._process_trade self data now = Ok self' -> client_reachable self'
| client_push self now wall_ms k1 k2 :
    client_reachable self ->
    client_reachable (fst (BinanceClient._maybe_push_snapshot self now wall_ms k1 k2))
| client_take self k :
    client_reachable self -> client_reachable (BinanceClient.with_taken self k).

(** The artifact a client builds (lines 164-182) when the ladder of its
    book is [binned], the wall clock reads [wall_ms] and the rate to
    report is [rate]. *)
Definition artifact (self : BinanceClient.t) (binned : list BinnedLevel)
    (wall_ms : Z) (rate : float) : DOMSnapshot :=
  let book := BinanceClient.orderbook self in
  let best_bid := fst (OrderBook.best_bid book) in
  let best_ask := fst (OrderBook.best_ask book) in
  let mid := fst (OrderBook.mid_price book) in
  mkDOMSnapshot (BinanceClient.symbol self) best_bid best_ask mid
    (if 0 <? mid then (best_ask - best_bid) / mid * 10000 else 0)
    (FlowEngine.merge_with_book (BinanceClient.flows self) binned)
    wall_ms rate.

(** * Properties *)

(** ** Order and equality of floats *)

Lemma SFcompare_key (x y : spec_float) :
  SFcompare x y =
  match sf_key x, sf_key y with
  | Some a, Some b => Some (lex3 a b)
  | _, _ => None
  end.
Proof.
  destruct x as [sx|sx| |sx mx ex], y as [sy|sy| |sy my ey]; try reflexivity;
    try (destruct sx; reflexivity); try (destruct sy; reflexivity);
    try (destruct sx, sy; reflexivity).
  destruct sx, sy; simpl; try reflexivity.
  destruct (Z.compare_spec ex ey), (Z.compare_spec (- ex) (- ey)); try lia; reflexivity.
Qed.

Lemma lex3_Lt a b : lex3 a b = Lt <-> lex_lt a b.
Proof.
  destruct a as [[a1 a2] a3], b as [[b1 b2] b3]; simpl.
  destruct (Z.compare_spec a1 b1), (Z.compare_spec a2 b2), (Z.compare_spec a3 b3);
    split; intros H'; try discriminate; try lia; try reflexivity.
Qed.

Lemma lex3_Eq a b : lex3 a b = Eq <-> a = b.
Proof.
  destruct a as [[a1 a2] a3], b as [[b1 b2] b3]; simpl.
  destruct (Z.compare_spec a1 b1), (Z.compare_spec a2 b2), (Z.compare_spec a3 b3);
    split; intros H'; try discriminate; try congruence; try reflexivity;
    try (injection H'; lia).
Qed.

Lemma feqb_key x y :
  (x =? y) = true <-> exists k, fkey x = Some k /\ fkey y = Some k.
Proof.
  rewrite eqb_spec. unfold SFeqb, fkey. rewrite SFcompare_key.
  destruct (sf_key (Prim2SF x)) as [a|], (sf_key (Prim2SF y)) as [b|];
    try (split; [discriminate | intros (k & H1 & H2); discriminate]).
  split.
  - intros H. destruct (lex3 a b) eqn:E; try discriminate.
    apply lex3_Eq in E. subst. eauto.
  - intros (k & H1 & H2). injection H1 as ->. injection H2 as ->.
    replace (lex3 k k) with Eq; [reflexivity|]. symmetry. now apply lex3_Eq.
Qed.

Lemma fltb_key x y :
  (x <? y) = true <-> exists a b, fkey x = Some a /\ fkey y = Some b /\ lex_lt a b.
Proof.
  rewrite ltb_spec. unfold SFltb, fkey. rewrite SFcompare_key.
  destruct (sf_key (Prim2SF x)) as [a|], (sf_key (Prim2SF y)) as [b|];
    try (split; [discriminate | intros (k & k' & H1 & H2 & _); discriminate]).
  split.
  - intros H. destruct (lex3 a b) eqn:E; try discriminate.
    apply lex3_Lt in E. eauto.
  - intros (k & k' & H1 & H2 & H3). injection H1 as ->. injection H2 as ->.
    apply lex3_Lt in H3. now rewrite H3.
Qed.

Lemma feqb_sym x y : (x =? y) = (y =? x).
Proof.
  apply eq_true_iff_eq. rewrite !feqb_key.
  split; intros (k & H1 & H2); eauto.
Qed.

Lemma feqb_trans x y z : (x =? y) = true -> (y =? z) = true -> (x =? z) = true.
Proof.
  rewrite !feqb_key. intros (k & H1 & H2) (k' & H3 & H4).
  rewrite H2 in H3. injection H3 as ->. eauto.
Qed.

Lemma fltb_trans x y z : (x <? y) = true -> (y <? z) = true -> (x <? z) = true.
Proof.
  rewrite !fltb_key. intros (a & b & H1 & H2 & H3) (b' & c & H4 & H5 & H6).
  rewrite H2 in H4. injection H4 as <-. exists a, c. repeat split; trivial.
  destruct a as [[a1 a2] a3], b as [[b1 b2] b3], c as [[c1 c2] c3]; simpl in *. lia.
Qed.

Lemma fltb_neq x y : (x <? y) = true -> (x =? y) = false.
Proof.
  intros H. apply not_true_is_false. intros E.
  apply fltb_key in H. apply feqb_key in E.
  destruct H as (a & b & H1 & H2 & H3), E as (k & H4 & H5).
  rewrite H1 in H4. rewrite H2 in H5. injection H4 as ->. injection H5 as ->.
  destruct k as [[k1 k2] k3]; simpl in *. lia.
Qed.

Lemma fleb_key x y :
  (x <=? y) = true <->
  exists a b, fkey x = Some a /\ fkey y = Some b /\ (lex_lt a b \/ a = b).
Proof.
  rewrite leb_spec. unfold SFleb, fkey. rewrite SFcompare_key.
  destruct (sf_key (Prim2SF x)) as [a|], (sf_key (Prim2SF y)) as [b|];
    try (split; [discriminate | intros (k & k' & H1 & H2 & _); discriminate]).
  split.
  - intros H. destruct (lex3 a b) eqn:E; try discriminate.
    + apply lex3_Eq in E. eauto 6.
    + apply lex3_Lt in E. eauto 6.
  - intros (k & k' & H1 & H2 & [H3 | H3]); injection H1 as ->; injection H2 as ->.
    + apply lex3_Lt in H3. now rewrite H3.
    + apply lex3_Eq in H3. now rewrite H3.
Qed.

(** A quantity that is at least zero and does not equal zero is greater
    than zero. *)
Lemma fleb_neq_ltb x y : (x <=? y) = true -> (y =? x) = false -> (x <? y) = true.
Proof.
  intros Hle Hne. apply fleb_key in Hle.
  destruct Hle as (a & b & Ha & Hb & [Hlt | ->]).
  - apply fltb_key. eauto 6.
  - assert (E : (y =? x) = true) by (apply feqb_key; eauto). congruence.
Qed.

Lemma feqb_refl_key x : (x =? x) = true <-> exists a, fkey x = Some a.
Proof.
  rewrite feqb_key. split.
  - intros (k & H & _). eauto.
  - intros (a & H). eauto.
Qed.

Lemma fltb_asym x y : (x <? y) = true -> (y <? x) = false.
Proof.
  intros H. apply not_true_is_false. intros H'.
  apply fltb_key in H. apply fltb_key in H'.
  destruct H as (a & b & H1 & H2 & H3), H' as (b' & a' & H4 & H5 & H6).
  rewrite H1 in H5. rewrite H2 in H4. injection H4 as <-. injection H5 as <-.
  destruct a as [[a1 a2] a3], b as [[b1 b2] b3]; simpl in *. lia.
Qed.

Lemma fltb_total x y :
  (x =? x) = true -> (y =? y) = true ->
  (x =? y) = false -> (y <? x) = false -> (x <? y) = true.
Proof.
  intros Hx Hy Hne Hge.
  apply feqb_refl_key in Hx. apply feqb_refl_key in Hy.
  destruct Hx as [a Ha], Hy as [b Hb].
  apply fltb_key. exists a, b. repeat split; trivial.
  assert (Hab : a <> b).
  { intros ->. assert (E : (x =? y) = true) by (apply feqb_key; eauto). congruence. }
  assert (Hba : ~ lex_lt b a).
  { intros Hlt. assert (E : (y <? x) = true) by (apply fltb_key; eauto 6). congruence. }
  destruct a as [[a1 a2] a3], b as [[b1 b2] b3]; simpl in *.
  assert (a1 <> b1 \/ a2 <> b2 \/ a3 <> b3)%Z.
  { destruct (Z.eq_dec a1 b1), (Z.eq_dec a2 b2), (Z.eq_dec a3 b3); subst; auto;
      now contradict Hab. }
  lia.
Qed.

(** ** Dictionaries *)

Section DictLaws.

Variables K V : Type.
Variable keq : K -> K -> bool.
Hypothesis keq_sym : forall x y, keq x y = keq y x.
Hypothesis keq_trans : forall x y z, keq x y = true -> keq y z = true -> keq x z = true.

Lemma get_none (d : PyDict.dict K V) (k : K) :
  PyDict.get keq d k = None <->
  (forall k', In k' (PyDict.keys d) -> keq k' k = false).
Proof.
  induction d as [|[k0 v0] d IH]; simpl.
  - split; [intros _ k' [] | reflexivity].
  - destruct (keq k0 k) eqn:E.
    + split; [discriminate|]. intros H. rewrite (H k0) in E; [discriminate | now left].
    + rewrite IH. split.
      * intros H k' [<- | Hin]; [assumption | now apply H].
      * intros H k' Hin. apply H. now right.
Qed.

Lemma setitem_absent (d : PyDict.dict K V) (k : K) (v : V) :
  PyDict.get keq d k = None -> PyDict.setitem keq d k v = d ++ [(k, v)].
Proof.
  induction d as [|[k0 v0] d IH]; simpl; [reflexivity|].
  destruct (keq k0 k); [discriminate|]. intros H. now rewrite IH.
Qed.

Lemma keys_setitem_present (d : PyDict.dict K V) (k : K) (v v0 : V) :
  PyDict.get keq d k = Some v0 ->
  PyDict.keys (PyDict.setitem keq d k v) = PyDict.keys d.
Proof.
  induction d as [|[k0 v1] d IH]; simpl; [discriminate|].
  destruct (keq k0 k); [reflexivity|]. intros H.
  unfold PyDict.keys in *. simpl. f_equal. now apply IH.
Qed.

Lemma uniq_snoc (ks : list K) (k : K) :
  uniq keq ks -> (forall k', In k' ks -> keq k' k = false) -> uniq keq (ks ++ [k]).
Proof.
  induction 1 as [|k0 ks Hk0 Hu IH]; intros Hk; simpl.
  - constructor; [intros k' [] | constructor].
  - constructor.
    + intros k' Hin. apply in_app_or in Hin. destruct Hin as [Hin | [<- | []]].
      * now apply Hk0.
      * apply Hk. now left.
    + apply IH. intros k' Hin. apply Hk. now right.
Qed.

Lemma uniq_keys_setitem (d : PyDict.dict K V) (k : K) (v : V) :
  uniq keq (PyDict.keys d) -> uniq keq (PyDict.keys (PyDict.setitem keq d k v)).
Proof.
  intros Hu. destruct (PyDict.get keq d k) as [v0|] eqn:E.
  - now rewrite (keys_setitem_present _ _ v E).
  - rewrite (setitem_absent _ _ v E). unfold PyDict.keys. rewrite map_app. simpl.
    apply uniq_snoc; [assumption|]. now apply get_none.
Qed.

Lemma in_setitem (d : PyDict.dict K V) (k0 : K) (v0 : V) (e : K * V) :
  In e (PyDict.setitem keq d k0 v0) -> snd e = v0 \/ In e d.
Proof.
  induction d as [|[k1 v1] d IH]; simpl.
  - intros [<- | []]. now left.
  - destruct (keq k1 k0); simpl.
    + intros [<- | H]; [now left | right; now right].
    + intros [<- | H]; [right; now left|].
      destruct (IH H) as [Hv | Hin]; [now left | right; now right].
Qed.

Lemma in_pop (d : PyDict.dict K V) (k0 : K) (e : K * V) :
  In e (PyDict.pop keq d k0) -> In e d.
Proof.
  induction d as [|[k1 v1] d IH]; simpl; [easy|].
  destruct (keq k1 k0); simpl.
  - intros H. now right.
  - intros [<- | H]; [now left | right; now apply IH].
Qed.

(** Under unique keys, updating the entry found for [c] updates every
    entry whose key equals [c]: there is at most one. *)
Lemma update_found_map (f : V -> V) (d : PyDict.dict K V) (c : K) :
  uniq keq (PyDict.keys d) ->
  match PyDict.get keq d c with
  | Some v => PyDict.setitem keq d c (f v)
  | None => d
  end
  = map (fun e => (fst e, if keq (fst e) c then f (snd e) else snd e)) d.
Proof.
  induction d as [|[k0 v0] d IH]; simpl; [reflexivity|].
  intros Hu. inversion Hu as [|k1 ks Hk0 Hu' Heq]; subst.
  destruct (keq k0 c) eqn:E.
  - simpl. rewrite ?E. f_equal.
    rewrite <- (map_id d) at 1. apply map_ext_in.
    intros [k' v'] Hin. simpl.
    destruct (keq k' c) eqn:E'; [|reflexivity].
    assert (Hkk : keq k0 k' = true).
    { apply keq_trans with c; [assumption|]. now rewrite keq_sym. }
    rewrite Hk0 in Hkk; [discriminate|]. now apply (in_map fst d (k', v')).
  - rewrite <- (IH Hu').
    destruct (PyDict.get keq d c); simpl; now rewrite ?E.
Qed.

(** Allocating fresh keys one after another. *)
Lemma fold_setitem_fresh (v0 : V) (ks2 ks1 : list K) :
  uniq keq (ks1 ++ ks2) ->
  fold_left (fun d k => PyDict.setitem keq d k v0) ks2 (map (fun k => (k, v0)) ks1)
  = map (fun k => (k, v0)) (ks1 ++ ks2).
Proof.
  revert ks1. induction ks2 as [|k ks2 IH]; intros ks1 Hu; simpl.
  - now rewrite app_nil_r.
  - rewrite setitem_absent.
    + replace (map (fun k1 => (k1, v0)) ks1 ++ [(k, v0)])
        with (map (fun k1 => (k1, v0)) (ks1 ++ [k])) by (now rewrite map_app).
      rewrite IH; rewrite <- app_assoc; [reflexivity | assumption].
    + apply get_none. intros k' Hin.
      unfold PyDict.keys in Hin. rewrite map_map in Hin. simpl in Hin. rewrite map_id in Hin.
      clear IH. induction ks1 as [|k1 ks1 IH1]; [destruct Hin|].
      simpl in Hu. inversion Hu as [|k2 ks Hk1 Hu' Heq]; subst.
      destruct Hin as [<- | Hin].
      * apply Hk1. apply in_or_app. right. now left.
      * now apply IH1.
Qed.

(** Whatever the keys, allocation leaves unique keys and the initial value
    everywhere. *)
Lemma fold_setitem_uniq (v0 : V) (ks : list K) (d : PyDict.dict K V) :
  uniq keq (PyDict.keys d) -> Forall (fun e => snd e = v0) d ->
  uniq keq (PyDict.keys (fold_left (fun d k => PyDict.setitem keq d k v0) ks d))
  /\ Forall (fun e => snd e = v0) (fold_left (fun d k => PyDict.setitem keq d k v0) ks d).
Proof.
  revert d. induction ks as [|k ks IH]; intros d Hu Hv; simpl; [now split|].
  apply IH.
  - now apply uniq_keys_setitem.
  - clear IH Hu. induction d as [|[k0 v1] d IHd]; simpl.
    + now repeat constructor.
    + inversion Hv; subst. destruct (keq k0 k); constructor; auto.
Qed.

End DictLaws.

(** ** Sorting rearranges *)

Section SortedLaws.

Variable A : Type.
Variable lt : A -> A -> bool.

Lemma insert_sorted_perm (x : A) (l : list A) :
  Permutation (insert_sorted lt x l) (x :: l).
Proof.
  induction l as [|y l IH]; simpl.
  - apply Permutation_refl.
  - destruct (lt x y).
    + apply Permutation_refl.
    + apply perm_trans with (y :: x :: l).
      * now apply perm_skip.
      * apply perm_swap.
Qed.

Lemma fold_insert_perm (l acc : list A) :
  Permutation (fold_left (fun acc x => insert_sorted lt x acc) l acc) (l ++ acc).
Proof.
  revert acc. induction l as [|x l IH]; intros acc; simpl.
  - apply Permutation_refl.
  - eapply perm_trans; [apply IH|].
    apply perm_trans with (l ++ x :: acc).
    + apply Permutation_app_head, insert_sorted_perm.
    + apply Permutation_sym, Permutation_middle.
Qed.

Lemma sorted_perm (l : list A) : Permutation (sorted lt l) l.
Proof.
  unfold sorted. eapply perm_trans; [apply fold_insert_perm|].
  rewrite app_nil_r. apply Permutation_refl.
Qed.

Lemma sorted_reverse_perm (l : list A) : Permutation (sorted_reverse lt l) l.
Proof.
  unfold sorted_reverse.
  eapply perm_trans; [apply Permutation_sym, Permutation_rev|].
  eapply perm_trans; [apply sorted_perm|].
  apply Permutation_sym, Permutation_rev.
Qed.

End SortedLaws.

Lemma sorted_nil_inv (A : Type) (lt : A -> A -> bool) (l : list A) :
  sorted lt l = [] -> l = [].
Proof.
  intros H. apply Permutation_nil. rewrite <- H.
  apply sorted_perm.
Qed.

Lemma sorted_reverse_nil_inv (A : Type) (lt : A -> A -> bool) (l : list A) :
  sorted_reverse lt l = [] -> l = [].
Proof.
  intros H. apply Permutation_nil. rewrite <- H.
  apply sorted_reverse_perm.
Qed.

(** ** Sorted output *)

Section SortedOrder.

Variable A : Type.
Variable lt : A -> A -> bool.
Hypothesis lt_trans : forall x y z, lt x y = true -> lt y z = true -> lt x z = true.
Hypothesis lt_asym : forall x y, lt x y = true -> lt y x = false.

Lemma insert_sorted_in (x y : A) (l : list A) :
  In y (insert_sorted lt x l) -> y = x \/ In y l.
Proof.
  intros H. apply (Permutation_in y (insert_sorted_perm lt x l)) in H.
  destruct H as [<- | H]; auto.
Qed.

Lemma insert_sorted_strongly (x : A) (l : list A) :
  StronglySorted (not_above lt) l -> StronglySorted (not_above lt) (insert_sorted lt x l).
Proof.
  induction 1 as [|y l Hs IH Hy]; simpl.
  - constructor; constructor.
  - destruct (lt x y) eqn:E.
    + constructor; [constructor; assumption|].
      constructor; [now apply lt_asym|].
      apply Forall_forall. intros z Hz. rewrite Forall_forall in Hy.
      unfold not_above. destruct (lt z x) eqn:E'; [|reflexivity].
      rewrite <- (Hy z Hz). symmetry. eapply lt_trans; eassumption.
    + constructor; [assumption|].
      apply Forall_forall. intros z Hz. apply insert_sorted_in in Hz.
      destruct Hz as [-> | Hz]; [exact E|].
      rewrite Forall_forall in Hy. now apply Hy.
Qed.

Lemma fold_insert_strongly (l acc : list A) :
  StronglySorted (not_above lt) acc ->
  StronglySorted (not_above lt) (fold_left (fun acc x => insert_sorted lt x acc) l acc).
Proof.
  revert acc. induction l as [|x l IH]; intros acc Hacc; simpl; [assumption|].
  apply IH. now apply insert_sorted_strongly.
Qed.

Lemma sorted_strongly (l : list A) : StronglySorted (not_above lt) (sorted lt l).
Proof. apply fold_insert_strongly. constructor. Qed.

End SortedOrder.

Lemma StronglySorted_rev (A : Type) (R : A -> A -> Prop) (l : list A) :
  StronglySorted R l -> StronglySorted (fun a b => R b a) (rev l).
Proof.
  induction 1 as [|a l Hs IH Ha]; simpl; [constructor|].
  clear Hs. apply Forall_rev in Ha. revert IH Ha.
  generalize (rev l) as r. induction r as [|b r IHr]; intros Hr Ha; simpl.
  - constructor; constructor.
  - inversion Hr; subst. inversion Ha; subst.
    constructor; [now apply IHr|].
    apply Forall_app. split; [assumption | now constructor].
Qed.

Section UniqLaws.

Variable K : Type.
Variable keq : K -> K -> bool.
Hypothesis keq_sym : forall x y, keq x y = keq y x.

Lemma uniq_perm (l l' : list K) : Permutation l l' -> uniq keq l -> uniq keq l'.
Proof.
  induction 1 as [|x l l' Hp IH|x y l|l l' l'' _ IH1 _ IH2]; intros Hu.
  - constructor.
  - inversion Hu; subst. constructor; [|now apply IH].
    intros k' Hin. apply H1. now apply (Permutation_in k' (Permutation_sym Hp)).
  - inversion Hu as [|? ? Hy Hu']; subst. inversion Hu' as [|? ? Hx Hu'']; subst.
    constructor.
    + intros k' [<- | Hin]; [|now apply Hx].
      rewrite keq_sym. apply Hy. now left.
    + constructor; [|assumption]. intros k' Hin. apply Hy. now right.
  - auto.
Qed.

End UniqLaws.

(** ** The sequencing contract of [apply_update] *)

Lemma apply_update_gap (self : OrderBook.t) (update : OrderBook.update_data) :
  (OrderBook.last_update_id self + 1 < OrderBook.first_id update)%Z ->
  OrderBook.apply_update self update = (false, self).
Proof.
  intros Hgap. unfold OrderBook.apply_update.
  apply Z.ltb_lt in Hgap. rewrite Hgap. reflexivity.
Qed.

(** C1: an update whose first id is beyond [last_update_id + 1] is refused:
    [apply_update] returns [False] and the object it leaves is the object it
    was given, so the bids, the asks and [last_update_id] are untouched. *)
Theorem apply_update_gap_rejected
    (self : OrderBook.t) (update : OrderBook.update_data) :
  (OrderBook.last_update_id self + 1 < OrderBook.first_id update)%Z ->
  fst (OrderBook.apply_update self update) = false
  /\ snd (OrderBook.apply_update self update) = self
  /\ OrderBook.bids (snd (OrderBook.apply_update self update)) = OrderBook.bids self
  /\ OrderBook.asks (snd (OrderBook.apply_update self update)) = OrderBook.asks self
  /\ OrderBook.last_update_id (snd (OrderBook.apply_update self update))
     = OrderBook.last_update_id self.
Proof.
  intros Hgap. rewrite (apply_update_gap self update Hgap). repeat split.
Qed.

Lemma apply_update_gap_rejected_witness :
  let book :=
    OrderBook.load_snapshot (OrderBook.__init__ "BNBUSDT")
      (OrderBook.mkSnapshotData 100 [(99, 5)] [(101, 3)]) in
  let diff :=
    OrderBook.mkUpdate (Some 105%Z) 106 (Some [(99, 0)]) (Some [(101, 1)]) in
  (OrderBook.last_update_id book + 1 < OrderBook.first_id diff)%Z
  /\ fst (OrderBook.apply_update book diff) = false
  /\ snd (OrderBook.apply_update book diff) = book.
Proof.
  intros book diff.
  assert (Hgap : (OrderBook.last_update_id book + 1 < OrderBook.first_id diff)%Z)
    by reflexivity.
  destruct (apply_update_gap_rejected book diff Hgap) as (Hret & Hsame & _).
  exact (conj Hgap (conj Hret Hsame)).
Defined.

Lemma apply_update_stale (self : OrderBook.t) (update : OrderBook.update_data) :
  (OrderBook.upd_u update <= OrderBook.last_update_id self)%Z ->
  (OrderBook.first_id update <= OrderBook.last_update_id self + 1)%Z ->
  OrderBook.apply_update self update = (true, self).
Proof.
  intros Hstale Hseq. unfold OrderBook.apply_update.
  destruct (Z.ltb_spec (OrderBook.last_update_id self + 1) (OrderBook.first_id update));
    [lia|].
  destruct (Z.leb_spec (OrderBook.upd_u update) (OrderBook.last_update_id self));
    [reflexivity | lia].
Qed.

Lemma apply_update_twice (self : OrderBook.t) (update : OrderBook.update_data) :
  snd (OrderBook.apply_update (snd (OrderBook.apply_update self update)) update)
  = snd (OrderBook.apply_update self update).
Proof.
  unfold OrderBook.apply_update at 2 3.
  destruct (Z.ltb_spec (OrderBook.last_update_id self + 1) (OrderBook.first_id update))
    as [Hgap | Hseq].
  - simpl. rewrite apply_update_gap by assumption. reflexivity.
  - destruct (Z.leb_spec (OrderBook.upd_u update) (OrderBook.last_update_id self))
      as [Hstale | Hnew].
    + simpl. rewrite apply_update_stale by assumption. reflexivity.
    + simpl. rewrite apply_update_stale; simpl; [reflexivity | lia | lia].
Qed.

(** C2: an update whose last id is not beyond [last_update_id] (and whose
    first id leaves no gap) is answered [True] and changes nothing; hence
    applying any update a second time, straight after the first, leaves the
    object as the first application left it. *)
Theorem apply_update_stale_idempotent
    (self : OrderBook.t) (update : OrderBook.update_data) :
  ((OrderBook.upd_u update <= OrderBook.last_update_id self)%Z ->
   (OrderBook.first_id update <= OrderBook.last_update_id self + 1)%Z ->
   OrderBook.apply_update self update = (true, self))
  /\ snd (OrderBook.apply_update (snd (OrderBook.apply_update self update)) update)
     = snd (OrderBook.apply_update self update).
Proof.
  split.
  - apply apply_update_stale.
  - apply apply_update_twice.
Qed.

Lemma apply_update_stale_idempotent_witness :
  let book :=
    OrderBook.load_snapshot (OrderBook.__init__ "BNBUSDT")
      (OrderBook.mkSnapshotData 100 [(99, 5)] [(101, 3)]) in
  let stale :=
    OrderBook.mkUpdate (Some 98%Z) 100 (Some [(99, 0)]) (Some [(101, 1)]) in
  let fresh :=
    OrderBook.mkUpdate (Some 101%Z) 102 (Some [(99, 0); (98, 4)]) (Some [(101, 1)]) in
  OrderBook.apply_update book stale = (true, book)
  /\ fst (OrderBook.apply_update book fresh) = true
  /\ OrderBook.bids (snd (OrderBook.apply_update book fresh)) = [(98, 4)]
  /\ snd (OrderBook.apply_update (snd (OrderBook.apply_update book fresh)) fresh)
     = snd (OrderBook.apply_update book fresh).
Proof.
  intros book stale fresh.
  destruct (apply_update_stale_idempotent book stale) as (Hstale & _).
  destruct (apply_update_stale_idempotent book fresh) as (_ & Htwice).
  split.
  - apply Hstale; vm_compute; discriminate.
  - split; [reflexivity|]. split; [reflexivity | exact Htwice].
Defined.

(** ** The sorted-key cache *)

Lemma ensure_sorted_idem (self : OrderBook.t) :
  OrderBook._ensure_sorted (OrderBook._ensure_sorted self)
  = OrderBook._ensure_sorted self.
Proof.
  unfold OrderBook._ensure_sorted.
  destruct (OrderBook._dirty self) eqn:Hd; simpl.
  - reflexivity.
  - now rewrite Hd.
Qed.

Lemma ensure_sorted_cache_ok (self : OrderBook.t) :
  cache_ok self -> cache_ok (OrderBook._ensure_sorted self).
Proof.
  intros Hok. unfold OrderBook._ensure_sorted.
  destruct (OrderBook._dirty self) eqn:Hd; simpl.
  - intros _. simpl. split; reflexivity.
  - exact Hok.
Qed.

Lemma reachable_cache_ok (self : OrderBook.t) : reachable self -> cache_ok self.
Proof.
  induction 1 as [sym | self data _ _ | self update _ IH | self _ IH].
  - intros Hd. discriminate Hd.
  - intros _. simpl. split; reflexivity.
  - unfold OrderBook.apply_update.
    destruct (_ <? _)%Z; [exact IH|].
    destruct (_ <=? _)%Z; [exact IH|].
    intros Hd. discriminate Hd.
  - now apply ensure_sorted_cache_ok.
Qed.

(** What a refreshed cache holds. *)
Lemma ensure_sorted_spec (self : OrderBook.t) :
  cache_ok self ->
  OrderBook.bids (OrderBook._ensure_sorted self) = OrderBook.bids self
  /\ OrderBook.asks (OrderBook._ensure_sorted self) = OrderBook.asks self
  /\ OrderBook._bid_prices_sorted (OrderBook._ensure_sorted self)
     = sorted_reverse PrimFloat.ltb (PyDict.keys (OrderBook.bids self))
  /\ OrderBook._ask_prices_sorted (OrderBook._ensure_sorted self)
     = sorted PrimFloat.ltb (PyDict.keys (OrderBook.asks self)).
Proof.
  intros Hok. unfold OrderBook._ensure_sorted.
  destruct (OrderBook._dirty self) eqn:Hd; simpl.
  - repeat split.
  - destruct (Hok Hd) as [Hb Ha]. repeat split; assumption.
Qed.

Lemma best_bid_spec (self : OrderBook.t) :
  cache_ok self ->
  OrderBook.best_bid self
  = (head_or_zero (sorted_reverse PrimFloat.ltb (PyDict.keys (OrderBook.bids self))),
     OrderBook._ensure_sorted self).
Proof.
  intros Hok. unfold OrderBook.best_bid.
  destruct (ensure_sorted_spec Hok) as (_ & _ & Hb & _). now rewrite Hb.
Qed.

Lemma best_ask_spec (self : OrderBook.t) :
  cache_ok self ->
  OrderBook.best_ask self
  = (head_or_zero (sorted PrimFloat.ltb (PyDict.keys (OrderBook.asks self))),
     OrderBook._ensure_sorted self).
Proof.
  intros Hok. unfold OrderBook.best_ask.
  destruct (ensure_sorted_spec Hok) as (_ & _ & _ & Ha). now rewrite Ha.
Qed.

Lemma mid_price_spec (self : OrderBook.t) :
  cache_ok self ->
  OrderBook.mid_price self
  = (let bb := fst (OrderBook.best_bid self) in
     let ba := fst (OrderBook.best_ask self) in
     if (0 <? bb) && (0 <? ba) then (bb + ba) / 2 else PyFloat.or_else bb ba,
     OrderBook._ensure_sorted self).
Proof.
  intros Hok. unfold OrderBook.mid_price.
  rewrite (best_bid_spec Hok).
  rewrite (best_ask_spec (ensure_sorted_cache_ok Hok)).
  rewrite (best_ask_spec Hok).
  destruct (ensure_sorted_spec Hok) as (_ & Ha & _). rewrite Ha.
  rewrite ensure_sorted_idem. reflexivity.
Qed.

(** ** Best prices and the mid price *)

Lemma best_bid_empty (self : OrderBook.t) :
  cache_ok self -> OrderBook.bids self = [] -> fst (OrderBook.best_bid self) = 0.
Proof.
  intros Hok Hb. rewrite (best_bid_spec Hok), Hb. reflexivity.
Qed.

Lemma best_ask_empty (self : OrderBook.t) :
  cache_ok self -> OrderBook.asks self = [] -> fst (OrderBook.best_ask self) = 0.
Proof.
  intros Hok Ha. rewrite (best_ask_spec Hok), Ha. reflexivity.
Qed.

Lemma best_bid_in (self : OrderBook.t) :
  cache_ok self -> OrderBook.bids self <> [] ->
  In (fst (OrderBook.best_bid self)) (PyDict.keys (OrderBook.bids self)).
Proof.
  intros Hok Hne. rewrite (best_bid_spec Hok). simpl.
  destruct (sorted_reverse ltb (PyDict.keys (OrderBook.bids self))) as [|p l] eqn:E.
  - apply sorted_reverse_nil_inv in E. destruct (OrderBook.bids self); [easy | discriminate].
  - simpl. apply (Permutation_in p (sorted_reverse_perm ltb _)). rewrite E. now left.
Qed.

Lemma best_ask_in (self : OrderBook.t) :
  cache_ok self -> OrderBook.asks self <> [] ->
  In (fst (OrderBook.best_ask self)) (PyDict.keys (OrderBook.asks self)).
Proof.
  intros Hok Hne. rewrite (best_ask_spec Hok). simpl.
  destruct (sorted ltb (PyDict.keys (OrderBook.asks self))) as [|p l] eqn:E.
  - apply sorted_nil_inv in E. destruct (OrderBook.asks self); [easy | discriminate].
  - simpl. apply (Permutation_in p (sorted_perm ltb _)). rewrite E. now left.
Qed.

Lemma mid_price_empty (self : OrderBook.t) :
  cache_ok self -> OrderBook.bids self = [] -> OrderBook.asks self = [] ->
  OrderBook.mid_price self = (0, OrderBook._ensure_sorted self).
Proof.
  intros Hok Hb Ha. rewrite (mid_price_spec Hok).
  rewrite (best_bid_empty Hok Hb), (best_ask_empty Hok Ha). reflexivity.
Qed.

Lemma get_binned_ladder_empty (self : OrderBook.t) (bin_size : float) (levels : Z) :
  cache_ok self -> OrderBook.bids self = [] -> OrderBook.asks self = [] ->
  OrderBook.get_binned_ladder self bin_size levels
  = (Ok [], OrderBook._ensure_sorted self).
Proof.
  intros Hok Hb Ha. unfold OrderBook.get_binned_ladder.
  destruct (ensure_sorted_spec Hok) as (Hb' & Ha' & _).
  rewrite (mid_price_empty (ensure_sorted_cache_ok Hok)) by congruence.
  rewrite ensure_sorted_idem. reflexivity.
Qed.

(** C8 (amended): on every reachable book, [mid_price] is the average of
    the best bid and the best ask when both sides are non-empty and both
    best prices are greater than zero; with no bids it is the best ask;
    with bids and no asks it is the best bid (or [0.0] when the best bid
    equals zero); with neither it is [0.0].  Whenever the best prices are
    not both greater than zero it is the best bid unless that equals zero,
    and the best ask then. *)
Theorem mid_price_cases (self : OrderBook.t) :
  reachable self ->
  let bb := fst (OrderBook.best_bid self) in
  let ba := fst (OrderBook.best_ask self) in
  let mid := fst (OrderBook.mid_price self) in
  (OrderBook.bids self <> [] -> OrderBook.asks self <> [] ->
   (0 <? bb) = true -> (0 <? ba) = true -> mid = (bb + ba) / 2)
  /\ (OrderBook.bids self = [] -> OrderBook.asks self <> [] -> mid = ba)
  /\ (OrderBook.bids self <> [] -> OrderBook.asks self = [] ->
      mid = bb \/ ((bb =? 0) = true /\ mid = 0))
  /\ (OrderBook.bids self = [] -> OrderBook.asks self = [] -> mid = 0)
  /\ ((0 <? bb) && (0 <? ba) = false -> mid = if bb =? 0 then ba else bb).
Proof.
  intros Hreach bb ba mid.
  pose proof (reachable_cache_ok Hreach) as Hok.
  assert (Hmid : mid = if (0 <? bb) && (0 <? ba)
                       then (bb + ba) / 2 else PyFloat.or_else bb ba).
  { unfold mid. now rewrite (mid_price_spec Hok). }
  split; [|split; [|split; [|split]]].
  - intros _ _ Hbb Hba. now rewrite Hmid, Hbb, Hba.
  - intros Hb _. rewrite Hmid. unfold bb. now rewrite (best_bid_empty Hok Hb).
  - intros _ Ha. rewrite Hmid. unfold ba. rewrite (best_ask_empty Hok Ha).
    replace (0 <? 0) with false by reflexivity. rewrite andb_false_r.
    unfold PyFloat.or_else, PyFloat.truthy.
    destruct (bb =? 0) eqn:E; simpl; [right | left]; auto.
  - intros Hb Ha. unfold mid. now rewrite (mid_price_empty Hok Hb Ha).
  - intros Hguard. rewrite Hmid, Hguard. unfold PyFloat.or_else, PyFloat.truthy.
    now destruct (bb =? 0).
Qed.

Lemma mid_price_cases_witness :
  let book :=
    OrderBook.load_snapshot (OrderBook.__init__ "BNBUSDT")
      (OrderBook.mkSnapshotData 1000 [(99, 5); (98.5, 1)] [(101, 3); (102, 7)]) in
  reachable book /\ fst (OrderBook.mid_price book) = 100.
Proof.
  intros book.
  assert (Hreach : reachable book) by (apply reach_load, reach_init).
  split; [exact Hreach|].
  destruct (mid_price_cases Hreach) as (Havg & _).
  rewrite Havg; [reflexivity | discriminate | discriminate | reflexivity | reflexivity].
Defined.

(** C8 as stated fails: with a bid resting at price [0.0] both sides are
    non-empty, yet [mid_price] is the best ask and not the average. *)
Lemma mid_price_average_counterexample :
  let book :=
    OrderBook.load_snapshot (OrderBook.__init__ "BNBUSDT")
      (OrderBook.mkSnapshotData 1000 [(0, 1)] [(2, 1)]) in
  reachable book
  /\ OrderBook.bids book <> [] /\ OrderBook.asks book <> []
  /\ fst (OrderBook.best_bid book) = 0
  /\ fst (OrderBook.best_ask book) = 2
  /\ fst (OrderBook.mid_price book) = 2
  /\ fst (OrderBook.mid_price book)
     <> (fst (OrderBook.best_bid book) + fst (OrderBook.best_ask book)) / 2.
Proof.
  intros book.
  split; [apply reach_load, reach_init|].
  split; [discriminate|]. split; [discriminate|].
  split; [reflexivity|]. split; [reflexivity|]. split; [reflexivity|].
  intros H. apply (f_equal (fun v => v =? 2)) in H.
  vm_compute in H. discriminate H.
Qed.

(** ** The empty book *)

(** C10: on a reachable book, [best_bid] (resp. [best_ask]) is [0.0] when
    there are no bids (resp. asks); when there are neither, [mid_price] is
    [0.0] and [get_binned_ladder] returns the empty list whatever the bin
    size and the number of levels, so the artifact a client builds from such
    a book has zero best prices, zero mid and spread, and no levels. *)
Theorem empty_book_sentinels (self : OrderBook.t) :
  reachable self ->
  (OrderBook.bids self = [] -> fst (OrderBook.best_bid self) = 0)
  /\ (OrderBook.asks self = [] -> fst (OrderBook.best_ask self) = 0)
  /\ (OrderBook.bids self = [] -> OrderBook.asks self = [] ->
      fst (OrderBook.mid_price self) = 0
      /\ (forall bin_size levels,
            fst (OrderBook.get_binned_ladder self bin_size levels) = Ok [])
      /\ (forall client wall_ms,
            BinanceClient.orderbook client = self ->
            fst (BinanceClient.build_snapshot client wall_ms)
            = Ok (mkDOMSnapshot (BinanceClient.symbol client) 0 0 0 0 [] wall_ms
                    (BinanceClient._updates_per_sec client)))).
Proof.
  intros Hreach. pose proof (reachable_cache_ok Hreach) as Hok.
  split; [|split].
  - now apply best_bid_empty.
  - now apply best_ask_empty.
  - intros Hb Ha. split; [|split].
    + now rewrite (mid_price_empty Hok Hb Ha).
    + intros bin_size levels. now rewrite (get_binned_ladder_empty _ _ Hok Hb Ha).
    + intros client wall_ms Hclient. unfold BinanceClient.build_snapshot.
      rewrite Hclient, (get_binned_ladder_empty _ _ Hok Hb Ha).
      pose proof (ensure_sorted_cache_ok Hok) as Hok'.
      destruct (ensure_sorted_spec Hok) as (Hb' & Ha' & _).
      rewrite (best_bid_spec Hok'), Hb', Hb, ensure_sorted_idem.
      rewrite (best_ask_spec Hok'), Ha', Ha, ensure_sorted_idem.
      rewrite (mid_price_empty Hok') by congruence.
      reflexivity.
Qed.

Lemma empty_book_sentinels_witness :
  let client := BinanceClient.__init__ "BNBUSDT" 1 25 60 100 0 in
  reachable (BinanceClient.orderbook client)
  /\ fst (OrderBook.best_bid (BinanceClient.orderbook client)) = 0
  /\ fst (OrderBook.best_ask (BinanceClient.orderbook client)) = 0
  /\ fst (BinanceClient.build_snapshot client 1700000000000)
     = Ok (mkDOMSnapshot "BNBUSDT" 0 0 0 0 [] 1700000000000 0).
Proof.
  intros client.
  assert (Hreach : reachable (BinanceClient.orderbook client)) by apply reach_init.
  destruct (empty_book_sentinels Hreach) as (Hbid & Hask & Hboth).
  destruct (Hboth eq_refl eq_refl) as (_ & _ & Hsnap).
  split; [exact Hreach|].
  split; [exact (Hbid eq_refl)|].
  split; [exact (Hask eq_refl)|].
  exact (Hsnap client 1700000000000%Z eq_refl).
Defined.

(** ** Quantities in the book *)

Lemma load_entries_positive (entries : list (float * float)) (side : fdict float) :
  Forall (fun e => (0 <? snd e) = true) side ->
  Forall (fun e => (0 <? snd e) = true) (fold_left OrderBook.load_entry entries side).
Proof.
  revert side. induction entries as [|[p q] entries IH]; intros side Hside; simpl;
    [assumption|].
  apply IH. destruct (0 <? q) eqn:Hq; [|assumption].
  apply Forall_forall. intros e Hin. apply in_setitem in Hin.
  destruct Hin as [-> | Hin]; [assumption|].
  rewrite Forall_forall in Hside. now apply Hside.
Qed.

(** What [load_snapshot] guarantees: every quantity loaded is greater than
    zero. *)
Lemma load_snapshot_positive (self : OrderBook.t) (data : OrderBook.snapshot_data) :
  Forall (fun e => (0 <? snd e) = true) (OrderBook.bids (OrderBook.load_snapshot self data))
  /\ Forall (fun e => (0 <? snd e) = true)
       (OrderBook.asks (OrderBook.load_snapshot self data)).
Proof.
  split; apply load_entries_positive; constructor.
Qed.

Lemma update_entries_nonzero (entries : list (float * float)) (side : fdict float) :
  Forall (fun e => (snd e =? 0) = false) side ->
  Forall (fun e => (snd e =? 0) = false) (fold_left OrderBook.update_entry entries side).
Proof.
  revert side. induction entries as [|[p q] entries IH]; intros side Hside; simpl;
    [assumption|].
  apply IH. rewrite Forall_forall in Hside. apply Forall_forall. intros e Hin.
  destruct (q =? 0) eqn:Hq.
  - apply in_pop in Hin. now apply Hside.
  - apply in_setitem in Hin. destruct Hin as [-> | Hin]; [assumption | now apply Hside].
Qed.

(** What the code guarantees on every reachable book: no key holds a
    quantity equal to zero. *)
Lemma reachable_nonzero (self : OrderBook.t) :
  reachable self ->
  Forall (fun e => (snd e =? 0) = false) (OrderBook.bids self)
  /\ Forall (fun e => (snd e =? 0) = false) (OrderBook.asks self).
Proof.
  assert (Hpos : forall side : fdict float,
             Forall (fun e => (0 <? snd e) = true) side ->
             Forall (fun e => (snd e =? 0) = false) side).
  { intros side H. eapply Forall_impl; [|exact H]. intros e He. cbv beta in *.
    rewrite feqb_sym. now apply fltb_neq. }
  induction 1 as [sym | self data _ _ | self update _ IH | self _ IH].
  - split; constructor.
  - destruct (load_snapshot_positive self data). split; now apply Hpos.
  - unfold OrderBook.apply_update.
    destruct (_ <? _)%Z; [exact IH|]. destruct (_ <=? _)%Z; [exact IH|].
    destruct IH as [Hb Ha]. split; now apply update_entries_nonzero.
  - unfold OrderBook._ensure_sorted. destruct (negb _); [exact IH|]. exact IH.
Qed.

Lemma update_entries_positive (entries : list (float * float)) (side : fdict float) :
  Forall (fun e => (0 <=? snd e) = true) entries ->
  Forall (fun e => (0 <? snd e) = true) side ->
  Forall (fun e => (0 <? snd e) = true) (fold_left OrderBook.update_entry entries side).
Proof.
  revert side. induction entries as [|[p q] entries IH]; intros side Hent Hside; simpl;
    [assumption|].
  inversion Hent as [|? ? Hq Hent']; subst. cbn [snd] in Hq.
  apply IH; [assumption|].
  rewrite Forall_forall in Hside. apply Forall_forall. intros e Hin.
  destruct (q =? 0) eqn:Hq0.
  - apply in_pop in Hin. now apply Hside.
  - apply in_setitem in Hin. destruct Hin as [-> | Hin]; [|now apply Hside].
    now apply fleb_neq_ltb.
Qed.

(** On a book whose quantities are all greater than zero, an update whose
    quantities are all at least zero leaves every quantity greater than
    zero: the invariant can only be broken by a negative quantity. *)
Lemma apply_update_positive (self : OrderBook.t) (update : OrderBook.update_data) :
  Forall (fun e => (0 <=? snd e) = true) (OrderBook.changes (OrderBook.upd_b update)) ->
  Forall (fun e => (0 <=? snd e) = true) (OrderBook.changes (OrderBook.upd_a update)) ->
  Forall (fun e => (0 <? snd e) = true) (OrderBook.bids self) ->
  Forall (fun e => (0 <? snd e) = true) (OrderBook.asks self) ->
  Forall (fun e => (0 <? snd e) = true)
    (OrderBook.bids (snd (OrderBook.apply_update self update)))
  /\ Forall (fun e => (0 <? snd e) = true)
       (OrderBook.asks (snd (OrderBook.apply_update self update))).
Proof.
  intros Hb Ha Hbids Hasks. unfold OrderBook.apply_update.
  destruct (_ <? _)%Z; [now split|]. destruct (_ <=? _)%Z; [now split|].
  split; now apply update_entries_positive.
Qed.

(** C5: the invariant fails on the update path.  [load_snapshot] keeps an
    entry only when [qty > 0], but [apply_update] tests [qty == 0] alone, so
    a diff carrying a negative quantity stores it: after the update below
    the reachable book holds the bid [99.0 -> -1.0], a quantity [<= 0]. *)
Theorem negative_quantity_is_stored :
  let book0 :=
    OrderBook.load_snapshot (OrderBook.__init__ "BNBUSDT")
      (OrderBook.mkSnapshotData 1000 [(99, 5)] [(101, 3)]) in
  let diff := OrderBook.mkUpdate (Some 1001%Z) 1001 (Some [(99, -1)]) (Some []) in
  let book := snd (OrderBook.apply_update book0 diff) in
  reachable book
  /\ fst (OrderBook.apply_update book0 diff) = true
  /\ OrderBook.bids book = [(99, -1)]
  /\ (-1 <=? 0) = true.
Proof.
  intros book0 diff book. split.
  - apply reach_apply, reach_load, reach_init.
  - repeat split.
Qed.

(** ** The binned ladder *)

Lemma bin_center_of_ok (price bin_size : float) :
  (bin_size =? 0) = false -> exists c, OrderBook.bin_center_of price bin_size = Ok c.
Proof.
  intros Hbs. unfold OrderBook.bin_center_of, PyFloat.floordiv. rewrite Hbs.
  destruct (PyFloat.truthy _); simpl; eauto.
Qed.

Lemma bin_center_of_nonzero (price bin_size c : float) :
  OrderBook.bin_center_of price bin_size = Ok c -> (bin_size =? 0) = false.
Proof.
  unfold OrderBook.bin_center_of, PyFloat.floordiv.
  destruct (bin_size =? 0); [discriminate | reflexivity].
Qed.

Lemma fsum_filter_cons (P : float * float -> bool) (e : float * float)
    (l : list (float * float)) (b : float) :
  fsum b (map snd (filter P (e :: l)))
  = fsum (if P e then b + snd e else b) (map snd (filter P l)).
Proof. simpl. destruct (P e); reflexivity. Qed.

(** One pass of an aggregation loop adds, to every allocated bin, the
    quantities of the orders whose centre equals its key. *)
Lemma aggregate_bids (bin_size : float) (side : list (float * float))
    (bins : fdict (float * float)) :
  (bin_size =? 0) = false -> uniq PrimFloat.eqb (PyDict.keys bins) ->
  OrderBook.aggregate OrderBook.add_bid bin_size side bins
  = Ok (map (fun e =>
               (fst e,
                (fsum (fst (snd e)) (map snd (filter (in_bin bin_size (fst e)) side)),
                 snd (snd e))))
          bins).
Proof.
  intros Hbs. revert bins. induction side as [|[p q] side IH]; intros bins Hu.
  - simpl. f_equal. rewrite <- (map_id bins) at 1. apply map_ext.
    now intros [k [b a]].
  - cbn [OrderBook.aggregate].
    destruct (bin_center_of_ok p Hbs) as [c Hc]. rewrite Hc. cbn [bind].
    assert (Hstep : (if fcontains bins c then OrderBook.add_bid bins c q else bins)
                    = map (fun e => (fst e, if fst e =? c
                                            then (fst (snd e) + q, snd (snd e))
                                            else snd e)) bins).
    { rewrite <- (update_found_map feqb_sym feqb_trans
                    (fun v => (fst v + q, snd v)) bins c Hu).
      unfold fcontains, PyDict.contains, OrderBook.add_bid, fget, fsetitem.
      destruct (PyDict.get PrimFloat.eqb bins c) as [[b a]|]; reflexivity. }
    rewrite Hstep, IH.
    + f_equal. rewrite map_map. apply map_ext. intros [k [b a]]. cbn [fst snd].
      rewrite fsum_filter_cons.
      assert (Hin : in_bin bin_size k (p, q) = (k =? c))
        by (unfold in_bin; cbn [fst]; now rewrite Hc).
      rewrite Hin. destruct (k =? c); reflexivity.
    + unfold PyDict.keys. rewrite map_map. cbn [fst]. exact Hu.
Qed.

Lemma aggregate_asks (bin_size : float) (side : list (float * float))
    (bins : fdict (float * float)) :
  (bin_size =? 0) = false -> uniq PrimFloat.eqb (PyDict.keys bins) ->
  OrderBook.aggregate OrderBook.add_ask bin_size side bins
  = Ok (map (fun e =>
               (fst e,
                (fst (snd e),
                 fsum (snd (snd e)) (map snd (filter (in_bin bin_size (fst e)) side)))))
          bins).
Proof.
  intros Hbs. revert bins. induction side as [|[p q] side IH]; intros bins Hu.
  - simpl. f_equal. rewrite <- (map_id bins) at 1. apply map_ext.
    now intros [k [b a]].
  - cbn [OrderBook.aggregate].
    destruct (bin_center_of_ok p Hbs) as [c Hc]. rewrite Hc. cbn [bind].
    assert (Hstep : (if fcontains bins c then OrderBook.add_ask bins c q else bins)
                    = map (fun e => (fst e, if fst e =? c
                                            then (fst (snd e), snd (snd e) + q)
                                            else snd e)) bins).
    { rewrite <- (update_found_map feqb_sym feqb_trans
                    (fun v => (fst v, snd v + q)) bins c Hu).
      unfold fcontains, PyDict.contains, OrderBook.add_ask, fget, fsetitem.
      destruct (PyDict.get PrimFloat.eqb bins c) as [[b a]|]; reflexivity. }
    rewrite Hstep, IH.
    + f_equal. rewrite map_map. apply map_ext. intros [k [b a]]. cbn [fst snd].
      rewrite fsum_filter_cons.
      assert (Hin : in_bin bin_size k (p, q) = (k =? c))
        by (unfold in_bin; cbn [fst]; now rewrite Hc).
      rewrite Hin. destruct (k =? c); reflexivity.
    + unfold PyDict.keys. rewrite map_map. cbn [fst]. exact Hu.
Qed.

(** The allocation loop stores the centres one after another. *)
Lemma allocate_centers (center_bin bin_size : float) (indices : list Z)
    (bins : fdict (float * float)) :
  OrderBook.allocate center_bin bin_size indices bins
  = (cs <- centers_of center_bin bin_size indices ;;
     Ok (fold_left (fun d k => PyDict.setitem PrimFloat.eqb d k (0, 0)) cs bins)).
Proof.
  revert bins. induction indices as [|i rest IH]; intros bins; simpl; [reflexivity|].
  destruct (PyFloat.of_int i) as [f|e]; simpl; [|reflexivity].
  rewrite IH. destruct (centers_of center_bin bin_size rest); reflexivity.
Qed.

Lemma allocate_bins_uniq (center_bin bin_size : float) (levels : Z)
    (bins : fdict (float * float)) :
  OrderBook.allocate_bins center_bin bin_size levels = Ok bins ->
  uniq PrimFloat.eqb (PyDict.keys bins) /\ Forall (fun e => snd e = (0, 0)) bins.
Proof.
  unfold OrderBook.allocate_bins. rewrite allocate_centers.
  destruct (centers_of center_bin bin_size _) as [cs|e]; simpl; [|discriminate].
  intros H. injection H as <-. apply fold_setitem_uniq; constructor.
Qed.

Lemma mid_price_ensure_sorted (self : OrderBook.t) :
  cache_ok self ->
  OrderBook.mid_price (OrderBook._ensure_sorted self) = OrderBook.mid_price self.
Proof.
  intros Hok. pose proof (ensure_sorted_cache_ok Hok) as Hok'.
  destruct (ensure_sorted_spec Hok) as (Hb & Ha & _).
  rewrite (mid_price_spec Hok'), (mid_price_spec Hok).
  rewrite (best_bid_spec Hok'), (best_ask_spec Hok'), (best_bid_spec Hok),
    (best_ask_spec Hok), Hb, Ha, ensure_sorted_idem.
  reflexivity.
Qed.

Lemma get_binned_ladder_spec (self : OrderBook.t) (bin_size : float) (levels : Z) :
  cache_ok self ->
  fst (OrderBook.get_binned_ladder self bin_size levels)
  = let mid := fst (OrderBook.mid_price self) in
    if mid =? 0 then Ok []
    else
      match OrderBook.bin_center_of mid bin_size with
      | Raise e => Raise e
      | Ok center_bin =>
          match OrderBook.allocate_bins center_bin bin_size levels with
          | Raise e => Raise e
          | Ok bins =>
              Ok (map to_level
                    (sorted_reverse OrderBook.item_lt
                       (binned_rows bin_size (OrderBook.bids self)
                          (OrderBook.asks self) bins)))
          end
      end.
Proof.
  intros Hok. unfold OrderBook.get_binned_ladder.
  rewrite (mid_price_ensure_sorted Hok).
  rewrite (mid_price_spec Hok). cbn [fst snd].
  set (mid := if (0 <? _) && _ then _ else PyFloat.or_else _ _).
  destruct (mid =? 0); [reflexivity|].
  destruct (OrderBook.bin_center_of mid bin_size) as [cb|e] eqn:Hcb; [|reflexivity].
  cbn [bind].
  pose proof (bin_center_of_nonzero _ _ Hcb) as Hbs.
  destruct (OrderBook.allocate_bins cb bin_size levels) as [bins|e] eqn:Halloc;
    [|reflexivity].
  cbn [bind].
  destruct (allocate_bins_uniq _ _ _ Halloc) as [Hu Hz].
  destruct (ensure_sorted_spec Hok) as (Hb & Ha & _). rewrite Hb, Ha.
  rewrite (aggregate_bids _ _ Hbs Hu). cbn [bind].
  rewrite aggregate_asks; [|assumption|].
  - cbn [bind]. f_equal. f_equal. f_equal. unfold binned_rows.
    rewrite map_map. apply map_ext_in. intros [k [b a]] Hin. cbn [fst snd].
    rewrite Forall_forall in Hz. specialize (Hz _ Hin). cbn [snd] in Hz.
    injection Hz as -> ->. reflexivity.
  - unfold PyDict.keys. rewrite map_map. cbn [fst]. exact Hu.
Qed.

(** ** Every order in exactly one bin *)

Section Partition.

Variables A K : Type.
Variable keq : K -> K -> bool.
Variable m : K -> A -> bool.
Hypothesis m_once : forall k k' e, m k e = true -> m k' e = true -> keq k k' = true.





End Partition.










(** ** Sorting the bins is sorting their keys *)

Section RowSort.

Variable g : float -> float * float.

Lemma item_lt_row (x y : float) :
  (x =? y) = false -> OrderBook.item_lt (row g x) (row g y) = (x <? y).
Proof.
  intros H. unfold OrderBook.item_lt, row. destruct (g x), (g y). now rewrite H.
Qed.

Lemma insert_rows (x : float) (acc : list float) :
  (forall y, In y acc -> (x =? y) = false) ->
  insert_sorted OrderBook.item_lt (row g x) (map (row g) acc)
  = map (row g) (insert_sorted PrimFloat.ltb x acc).
Proof.
  induction acc as [|y acc IH]; intros H; cbn [map insert_sorted]; [reflexivity|].
  rewrite item_lt_row by (apply H; now left).
  destruct (x <? y); cbn [map]; [reflexivity|].
  rewrite IH; [reflexivity|]. intros z Hz. apply H. now right.
Qed.

Lemma fold_insert_rows (p acc : list float) :
  uniq PrimFloat.eqb p ->
  (forall x y, In x p -> In y acc -> (x =? y) = false) ->
  fold_left (fun acc x => insert_sorted OrderBook.item_lt x acc) (map (row g) p) (map (row g) acc)
  = map (row g) (fold_left (fun acc x => insert_sorted PrimFloat.ltb x acc) p acc).
Proof.
  revert acc. induction p as [|x p IH]; intros acc Hu Hacc; cbn [map fold_left];
    [reflexivity|].
  rewrite insert_rows by (intros y Hy; apply Hacc; [now left | assumption]).
  inversion Hu as [|? ? Hx Hu']; subst.
  apply IH; [assumption|].
  intros x' y Hx' Hy. apply insert_sorted_in in Hy. destruct Hy as [-> | Hy].
  - rewrite feqb_sym. now apply Hx.
  - apply Hacc; [now right | assumption].
Qed.

Lemma sorted_reverse_rows (ks : list float) :
  uniq PrimFloat.eqb ks ->
  sorted_reverse OrderBook.item_lt (map (row g) ks)
  = map (row g) (sorted_reverse PrimFloat.ltb ks).
Proof.
  intros Hu. unfold sorted_reverse, sorted.
  rewrite <- map_rev.
  change (@nil (float * (float * float))) with (map (row g) []).
  rewrite (@fold_insert_rows (rev ks) []).
  - now rewrite map_rev.
  - apply (uniq_perm feqb_sym (Permutation_rev ks) Hu).
  - intros x y _ [].
Qed.

End RowSort.

(** The keys come out in strictly descending order when no two of them are
    equal and none is NaN. *)
Lemma sorted_reverse_descending (ks : list float) :
  uniq PrimFloat.eqb ks ->
  Forall (fun k => (k =? k) = true) ks ->
  StronglySorted (fun a b => (b <? a) = true) (sorted_reverse PrimFloat.ltb ks).
Proof.
  intros Hu Hnan. unfold sorted_reverse.
  apply StronglySorted_rev with (R := fun a b => (a <? b) = true).
  assert (Hperm : Permutation (rev ks) (sorted PrimFloat.ltb (rev ks)))
    by apply Permutation_sym, sorted_perm.
  assert (Hu' : uniq PrimFloat.eqb (sorted PrimFloat.ltb (rev ks))).
  { apply (uniq_perm feqb_sym Hperm).
    apply (uniq_perm feqb_sym (Permutation_rev ks) Hu). }
  assert (Hnan' : Forall (fun k => (k =? k) = true) (sorted PrimFloat.ltb (rev ks))).
  { apply Forall_forall. intros k Hk. rewrite Forall_forall in Hnan. apply Hnan.
    apply in_rev. now apply (Permutation_in k (Permutation_sym Hperm)). }
  pose proof (@sorted_strongly float PrimFloat.ltb fltb_trans fltb_asym (rev ks)) as Hs.
  revert Hs Hu' Hnan'. generalize (sorted PrimFloat.ltb (rev ks)) as s.
  induction s as [|a s IH]; intros Hs Hu' Hnan'; [constructor|].
  inversion Hs as [|? ? Hs' Ha]; subst. inversion Hu' as [|? ? Hua Hus]; subst.
  inversion Hnan' as [|? ? Hna Hns]; subst.
  constructor; [now apply IH|].
  apply Forall_forall. intros b Hb.
  rewrite Forall_forall in Ha, Hns.
  apply fltb_total; auto. apply (Ha b Hb).
Qed.

(** ** The levels of the binned ladder *)

Lemma length_range (lo hi : Z) : List.length (range lo hi) = Z.to_nat (hi - lo).
Proof. unfold range. now rewrite length_map, length_seq. Qed.

Lemma centers_of_length (center_bin bin_size : float) (indices : list Z)
    (cs : list float) :
  centers_of center_bin bin_size indices = Ok cs ->
  List.length cs = List.length indices.
Proof.
  revert cs. induction indices as [|i rest IH]; intros cs; simpl.
  - intros H. now injection H as <-.
  - destruct (PyFloat.of_int i); simpl; [|discriminate].
    destruct (centers_of center_bin bin_size rest) as [cs'|]; simpl; [|discriminate].
    intros H. injection H as <-. simpl. f_equal. now apply IH.
Qed.

Lemma allocate_bins_fresh (center_bin bin_size : float) (levels : Z)
    (cs : list float) :
  centers center_bin bin_size levels = Ok cs ->
  uniq PrimFloat.eqb cs ->
  OrderBook.allocate_bins center_bin bin_size levels
  = Ok (map (fun k => (k, (0, 0))) cs).
Proof.
  intros Hcs Hu. unfold OrderBook.allocate_bins. rewrite allocate_centers.
  unfold centers in Hcs. rewrite Hcs. cbn [bind]. f_equal.
  apply (@fold_setitem_fresh float (float * float) PrimFloat.eqb (0, 0) cs []).
  exact Hu.
Qed.

(** C7 (amended): on a reachable book with a mid price other than zero,
    when the centre of the mid's bin is computed without error (the bin size
    is not zero) and the [2*levels+1] allocated centres
    [center_bin + i*bin_size], [i] from [-levels] to [levels], are pairwise
    different binary64 values, none of them NaN, [get_binned_ladder] returns
    exactly [2*levels+1] levels whose centres are those values, in strictly
    descending order; each level's quantities are the sums of the
    quantities of every resting order whose bin centre equals the level's
    centre, and orders whose centre is not allocated are left out without
    error. *)
Theorem binned_ladder_levels (self : OrderBook.t) (bin_size : float)
    (levels : Z) (center_bin : float) (cs : list float) :
  reachable self ->
  (fst (OrderBook.mid_price self) =? 0) = false ->
  OrderBook.bin_center_of (fst (OrderBook.mid_price self)) bin_size = Ok center_bin ->
  centers center_bin bin_size levels = Ok cs ->
  uniq PrimFloat.eqb cs ->
  Forall (fun c => (c =? c) = true) cs ->
  exists binned,
    fst (OrderBook.get_binned_ladder self bin_size levels) = Ok binned
    /\ List.length binned = Z.to_nat (2 * levels + 1)
    /\ Permutation (map bin_price binned) cs
    /\ StronglySorted (fun a b => (b <? a) = true) (map bin_price binned)
    /\ Forall (fun lvl =>
                 bid_qty lvl
                 = fsum 0 (map snd (filter (in_bin bin_size (bin_price lvl))
                                      (OrderBook.bids self)))
                 /\ ask_qty lvl
                    = fsum 0 (map snd (filter (in_bin bin_size (bin_price lvl))
                                         (OrderBook.asks self))))
              binned.
Proof.
  intros Hreach Hmid Hcb Hcs Hu Hnan. pose proof (reachable_cache_ok Hreach) as Hok.
  rewrite (get_binned_ladder_spec _ _ Hok). cbv zeta. rewrite Hmid, Hcb.
  rewrite (allocate_bins_fresh _ _ _ Hcs Hu).
  eexists. split; [reflexivity|].
  unfold binned_rows. rewrite map_map. cbn [fst].
  set (g := fun k : float =>
              (fsum 0 (map snd (filter (in_bin bin_size k) (OrderBook.bids self))),
               fsum 0 (map snd (filter (in_bin bin_size k) (OrderBook.asks self))))).
  change (map _ cs) with (map (row g) cs).
  rewrite (@sorted_reverse_rows g cs Hu).
  set (s := sorted_reverse PrimFloat.ltb cs).
  assert (Hperm : Permutation s cs) by apply sorted_reverse_perm.
  assert (Hkeys : map bin_price (map to_level (map (row g) s)) = s).
  { rewrite !map_map. rewrite <- (map_id s) at 2. apply map_ext. reflexivity. }
  split; [|split; [|split]].
  - rewrite !length_map, (Permutation_length Hperm).
    rewrite (centers_of_length _ _ _ Hcs), length_range. f_equal. lia.
  - now rewrite Hkeys.
  - rewrite Hkeys. now apply sorted_reverse_descending.
  - apply Forall_forall. intros lvl Hin. rewrite map_map in Hin.
    apply in_map_iff in Hin. destruct Hin as (k & <- & _). split; reflexivity.
Qed.

Lemma binned_ladder_levels_witness :
  let book :=
    OrderBook.load_snapshot (OrderBook.__init__ "BNBUSDT")
      (OrderBook.mkSnapshotData 1000 [(99.5, 2); (98.7, 1); (10, 4)] [(101, 3)]) in
  reachable book
  /\ exists binned,
       fst (OrderBook.get_binned_ladder book 1 1) = Ok binned
       /\ List.length binned = 3%nat
       /\ Permutation (map bin_price binned) [99.5; 100.5; 101.5]
       /\ StronglySorted (fun a b => (b <? a) = true) (map bin_price binned).
Proof.
  intros book.
  assert (Hreach : reachable book) by (apply reach_load, reach_init).
  assert (Hmid : (fst (OrderBook.mid_price book) =? 0) = false) by reflexivity.
  assert (Hcb : OrderBook.bin_center_of (fst (OrderBook.mid_price book)) 1 = Ok 100.5)
    by (vm_compute; reflexivity).
  assert (Hcs : centers 100.5 1 1 = Ok [99.5; 100.5; 101.5])
    by (vm_compute; reflexivity).
  assert (Hu : uniq PrimFloat.eqb [99.5; 100.5; 101.5]).
  { repeat constructor; intros k' Hin; simpl in Hin;
      repeat (destruct Hin as [<- | Hin]; [vm_compute; reflexivity|]);
      destruct Hin. }
  assert (Hnan : Forall (fun c => (c =? c) = true) [99.5; 100.5; 101.5])
    by (repeat constructor).
  destruct (@binned_ladder_levels book 1 1%Z 100.5 _ Hreach Hmid Hcb Hcs Hu Hnan)
    as (binned & Hret & Hlen & Hperm & Hsorted & _).
  split; [exact Hreach|]. exists binned.
  split; [exact Hret|]. split; [exact Hlen|]. split; [exact Hperm | exact Hsorted].
Defined.

(** C7 as stated fails: with one bid at 1e17 the mid price is not zero, yet
    for bin size 1.0 and 1 level the three centres computed are the same
    float (1e17 + 0.5 and 1e17 +- 1.0 all round to 1e17), the dict holds one
    key and one level is returned, not three; and with bin size 0.0 the
    call raises ZeroDivisionError instead of returning levels. *)
Lemma binned_ladder_count_counterexample :
  let book :=
    OrderBook.load_snapshot (OrderBook.__init__ "BNBUSDT")
      (OrderBook.mkSnapshotData 1000 [(1e17, 1)] []) in
  reachable book
  /\ (fst (OrderBook.mid_price book) =? 0) = false
  /\ fst (OrderBook.get_binned_ladder book 1 1) = Ok [mkBinnedLevel 1e17 1 0]
  /\ (forall binned,
        fst (OrderBook.get_binned_ladder book 1 1) = Ok binned ->
        List.length binned <> Z.to_nat (2 * 1 + 1))
  /\ fst (OrderBook.get_binned_ladder book 0 1) = Raise ZeroDivisionError.
Proof.
  intros book.
  assert (Hret : fst (OrderBook.get_binned_ladder book 1 1) = Ok [mkBinnedLevel 1e17 1 0])
    by (vm_compute; reflexivity).
  split; [apply reach_load, reach_init|].
  split; [reflexivity|]. split; [exact Hret|]. split.
  - intros binned H. rewrite Hret in H. injection H as <-. discriminate.
  - vm_compute. reflexivity.
Qed.

(** ** The rolling window of the flow engine *)

(** Eviction itself is right: on a history in non-decreasing timestamp
    order the clean-up leaves exactly the entries not older than the
    cut-off. *)
Lemma expire_history (cutoff_ms : Z) (trades : list FlowEngine.entry)
    (bv av : fdict float) :
  StronglySorted (fun a b => (entry_time a <= entry_time b)%Z) trades ->
  fst (fst (FlowEngine.expire cutoff_ms trades bv av))
  = filter (fun e => (cutoff_ms <=? entry_time e)%Z) trades.
Proof.
  intros Hs. revert bv av. induction Hs as [|[[[ts bin] qty] is_bid] rest Hs IH Hhd];
    intros bv av; simpl; [reflexivity|].
  unfold entry_time at 1. cbn [fst].
  destruct (Z.ltb_spec ts cutoff_ms) as [Hold | Hin].
  - destruct (Z.leb_spec cutoff_ms ts); [lia|].
    destruct is_bid; apply IH.
  - destruct (Z.leb_spec cutoff_ms ts); [|lia]. cbn [fst]. f_equal.
    symmetry. rewrite <- (filter_ext_in (fun _ => true)).
    + clear. induction rest; simpl; congruence.
    + intros e He. rewrite Forall_forall in Hhd. specialize (Hhd e He).
      unfold entry_time in Hhd at 1. cbn [fst] in Hhd.
      symmetry. apply Z.leb_le. lia.
Qed.

Lemma cleanup_expired_history (self self' : FlowEngine.t) (now_ms w : Z) :
  StronglySorted (fun a b => (entry_time a <= entry_time b)%Z) (FlowEngine._trades self) ->
  PyFloat.to_int (FlowEngine.window_sec self * 1000) = Ok w ->
  FlowEngine._cleanup_expired self now_ms = Ok self' ->
  FlowEngine._trades self'
  = filter (fun e => (now_ms - w <=? entry_time e)%Z) (FlowEngine._trades self).
Proof.
  intros Hs Hw. unfold FlowEngine._cleanup_expired. rewrite Hw. cbn [bind].
  rewrite <- (expire_history (now_ms - w) (FlowEngine._bid_volume self)
                (FlowEngine._ask_volume self) Hs).
  destruct (FlowEngine.expire _ _ _ _) as [[trades bv] av].
  intros H. injection H as <-. reflexivity.
Qed.

(** One trade of quantity 5 on the bid side at [t = 0], window 60 s: a
    clean-up at 59.9 s keeps it and the bin holds 5; a clean-up at 60.1 s
    evicts it and removes the bin's key. *)
Lemma single_trade_window (now : float) :
  (1 <? now - 0) = false ->
  exists flows,
    FlowEngine.process_trade (FlowEngine.__init__ 1 60) (mkTrade 100 5 false 0) now
    = Ok flows
    /\ (exists kept, FlowEngine._cleanup_expired flows 59900 = Ok kept
          /\ FlowEngine._bid_volume kept = [(100.5, 5)])
    /\ (exists evicted, FlowEngine._cleanup_expired flows 60100 = Ok evicted
          /\ FlowEngine._bid_volume evicted = []
          /\ FlowEngine._trades evicted = []).
Proof.
  intros Hnow. unfold FlowEngine.process_trade.
  replace (FlowEngine._price_to_bin (FlowEngine.__init__ 1 60)
             (trade_price (mkTrade 100 5 false 0))) with (Ok 100.5)
    by (vm_compute; reflexivity).
  cbn [bind FlowEngine._cleanup_interval FlowEngine._last_cleanup_time
       FlowEngine.__init__].
  rewrite Hnow. eexists. split; [reflexivity|]. split.
  - eexists. split; vm_compute; reflexivity.
  - eexists. split; [vm_compute; reflexivity|]. split; reflexivity.
Qed.

(** C3: the totals drift.  Two bid-side trades of 0.1 and 0.2 in the same
    bin at [t = 0] (no clean-up between them), then a trade elsewhere at
    [t = 60001] whose call runs the clean-up: both entries are evicted, but
    the bin's key stays, holding [0.1 + 0.2 - 0.1 - 0.2 = 2^-55] in
    binary64 instead of being removed at zero.  A direct [_cleanup_expired]
    at 60001 ms leaves the same residue with an empty history. *)
Theorem expired_volume_residue :
  let flows0 := FlowEngine.__init__ 1 60 in
  exists flows1 flows2 flows3 cleaned,
    FlowEngine.process_trade flows0 (mkTrade 100 0.1 false 0) 0.5 = Ok flows1
    /\ FlowEngine.process_trade flows1 (mkTrade 100 0.2 false 0) 0.6 = Ok flows2
    /\ FlowEngine.process_trade flows2 (mkTrade 200 1 false 60001) 61 = Ok flows3
    /\ FlowEngine._trades flows3 = [(60001%Z, 200.5, 1, true)]
    /\ FlowEngine._bid_volume flows3 = [(100.5, 0x1p-55); (200.5, 1)]
    /\ FlowEngine._cleanup_expired flows2 60001 = Ok cleaned
    /\ FlowEngine._trades cleaned = []
    /\ FlowEngine._bid_volume cleaned = [(100.5, 0x1p-55)]
    /\ fcontains (FlowEngine._bid_volume cleaned) 100.5 = true
    /\ (0 <? fget_default (FlowEngine._bid_volume cleaned) 100.5 0) = true.
Proof.
  intros flows0. do 4 eexists.
  split; [vm_compute; reflexivity|].
  split; [vm_compute; reflexivity|].
  split; [vm_compute; reflexivity|].
  split; [reflexivity|].
  split; [reflexivity|].
  split; [vm_compute; reflexivity|].
  repeat split.
Qed.

(** ** The end-to-end scenario *)






(** ** The bounded output channel *)

Lemma put_nowait_room (A : Type) (q : Queue.t A) (x : A) :
  (Queue.qsize q < Queue.maxsize q)%Z ->
  Queue.put_nowait q x
  = Ok {| Queue.maxsize := Queue.maxsize q; Queue.items := Queue.items q ++ [x] |}.
Proof.
  intros Hroom. unfold Queue.put_nowait, Queue.full.
  destruct (Z.leb_spec (Queue.maxsize q) (Queue.qsize q)); [lia|].
  now rewrite andb_false_r.
Qed.

Lemma put_nowait_full (A : Type) (q : Queue.t A) (x : A) :
  (0 < Queue.maxsize q)%Z -> (Queue.maxsize q <= Queue.qsize q)%Z ->
  Queue.put_nowait q x = Raise Full.
Proof.
  intros Hpos Hfull. unfold Queue.put_nowait, Queue.full.
  destruct (Z.ltb_spec 0 (Queue.maxsize q)); [|lia].
  destruct (Z.leb_spec (Queue.maxsize q) (Queue.qsize q)); [reflexivity | lia].
Qed.

Lemma put_drop_oldest_room (q : Queue.t DOMSnapshot) (snapshot : DOMSnapshot)
    (k1 k2 : nat) :
  (Queue.qsize q < Queue.maxsize q)%Z ->
  BinanceClient.put_drop_oldest q snapshot k1 k2
  = {| Queue.maxsize := Queue.maxsize q; Queue.items := Queue.items q ++ [snapshot] |}.
Proof.
  intros Hroom. unfold BinanceClient.put_drop_oldest.
  now rewrite (put_nowait_room _ _ Hroom).
Qed.

Lemma put_drop_oldest_full (q : Queue.t DOMSnapshot) (snapshot : DOMSnapshot)
    (k1 k2 : nat) :
  (0 < Queue.maxsize q)%Z -> Queue.qsize q = Queue.maxsize q ->
  BinanceClient.put_drop_oldest q snapshot k1 k2
  = match skipn k1 (Queue.items q) with
    | [] => {| Queue.maxsize := Queue.maxsize q; Queue.items := [] |}
    | _ :: rest =>
        {| Queue.maxsize := Queue.maxsize q;
           Queue.items := skipn k2 rest ++ [snapshot] |}
    end.
Proof.
  intros Hpos Hfull. unfold BinanceClient.put_drop_oldest.
  rewrite (put_nowait_full _ _ Hpos) by lia.
  unfold Queue.get_nowait, Queue.taken. cbn [Queue.items Queue.maxsize].
  destruct (skipn k1 (Queue.items q)) as [|oldest rest] eqn:Hskip; [reflexivity|].
  cbn [Queue.items Queue.maxsize].
  rewrite put_nowait_room; [reflexivity|].
  unfold Queue.qsize in *. cbn [Queue.items Queue.maxsize].
  assert (Hlen : (List.length (oldest :: rest) <= List.length (Queue.items q))%nat).
  { rewrite <- Hskip, length_skipn. lia. }
  pose proof (length_skipn k2 rest) as Hk2. simpl in Hlen. lia.
Qed.

Lemma put_drop_oldest_bound (q : Queue.t DOMSnapshot) (snapshot : DOMSnapshot)
    (k1 k2 : nat) :
  (0 < Queue.maxsize q)%Z -> (Queue.qsize q <= Queue.maxsize q)%Z ->
  Queue.maxsize (BinanceClient.put_drop_oldest q snapshot k1 k2) = Queue.maxsize q
  /\ (Queue.qsize (BinanceClient.put_drop_oldest q snapshot k1 k2) <= Queue.maxsize q)%Z.
Proof.
  intros Hpos Hbound.
  destruct (Z.ltb_spec (Queue.qsize q) (Queue.maxsize q)) as [Hroom | Hfull].
  - rewrite (put_drop_oldest_room _ _ _ _ Hroom). cbn [Queue.maxsize]. split; [reflexivity|].
    unfold Queue.qsize in *. cbn [Queue.items]. rewrite length_app. simpl. lia.
  - assert (Hexact : Queue.qsize q = Queue.maxsize q) by lia.
    rewrite (put_drop_oldest_full _ _ k1 k2 Hpos Hexact).
    destruct (skipn k1 (Queue.items q)) as [|oldest rest] eqn:Hskip;
      cbn [Queue.maxsize]; (split; [reflexivity|]).
    + unfold Queue.qsize. simpl. lia.
    + pose proof (length_skipn k1 (Queue.items q)) as Hs. rewrite Hskip in Hs.
      unfold Queue.qsize in *. cbn [Queue.items].
      rewrite length_app, length_skipn. simpl in *. lia.
Qed.

(** The queue a call of [_maybe_push_snapshot] leaves: the one it found
    (too early, or an exception while building), or the one the publishing
    step makes of it. *)
Lemma maybe_push_snapshot_queue (self : BinanceClient.t) (now : float) (wall_ms : Z)
    (k1 k2 : nat) :
  let q := BinanceClient.snapshot_queue self in
  let q' := BinanceClient.snapshot_queue
              (fst (BinanceClient._maybe_push_snapshot self now wall_ms k1 k2)) in
  q' = q \/ exists snapshot, q' = BinanceClient.put_drop_oldest q snapshot k1 k2.
Proof.
  intros q q'. subst q q'. unfold BinanceClient._maybe_push_snapshot.
  destruct (PyFloat.lt_int _ (BinanceClient.snapshot_interval_ms self));
    [now left|].
  destruct (1 <=? now - BinanceClient._rate_calc_time self);
    destruct (PyFloat.of_int
                (BinanceClient._update_count self
                 - BinanceClient._update_count_last self)%Z);
    cbn [fst BinanceClient.snapshot_queue BinanceClient.with_push];
    try (now left);
    match goal with
    | |- context [BinanceClient.build_snapshot ?c ?w] =>
        destruct (BinanceClient.build_snapshot c w) as [[snapshot|err] ob]
    end; cbn [fst BinanceClient.snapshot_queue BinanceClient.with_push];
    solve [now left | right; now exists snapshot].
Qed.

(** ** Lookups after the changes of a dictionary *)

Section DictLookup.

Variables K V : Type.
Variable keq : K -> K -> bool.
Hypothesis keq_sym : forall x y, keq x y = keq y x.
Hypothesis keq_trans : forall x y z, keq x y = true -> keq y z = true -> keq x z = true.

Lemma keq_left (a b c : K) : keq a b = true -> keq a c = keq b c.
Proof.
  intros Hab. destruct (keq b c) eqn:E.
  - now apply keq_trans with b.
  - destruct (keq a c) eqn:E'; [|reflexivity].
    rewrite <- E. symmetry. apply keq_trans with a; [now rewrite keq_sym | assumption].
Qed.

Lemma get_setitem (d : PyDict.dict K V) (k0 k : K) (v : V) :
  PyDict.get keq (PyDict.setitem keq d k0 v) k
  = if keq k0 k then Some v else PyDict.get keq d k.
Proof.
  induction d as [|[k' v'] d IH]; simpl; [reflexivity|].
  destruct (keq k' k0) eqn:E; simpl.
  - rewrite (@keq_left _ _ k E). now destruct (keq k0 k).
  - rewrite IH. destruct (keq k' k) eqn:E'; [|reflexivity].
    destruct (keq k0 k) eqn:E''; [|reflexivity].
    rewrite keq_sym in E''. rewrite (keq_trans E' E'') in E. discriminate.
Qed.

Lemma get_pop (d : PyDict.dict K V) (k0 k : K) :
  uniq keq (PyDict.keys d) ->
  PyDict.get keq (PyDict.pop keq d k0) k
  = if keq k0 k then None else PyDict.get keq d k.
Proof.
  induction d as [|[k' v'] d IH]; simpl; intros Hu.
  - now destruct (keq k0 k).
  - inversion Hu as [|? ? Hk' Hu']; subst.
    destruct (keq k' k0) eqn:E; simpl.
    + rewrite (@keq_left _ _ k E). destruct (keq k0 k) eqn:E'; [|reflexivity].
      apply get_none. intros k'' Hin.
      destruct (keq k'' k) eqn:E''; [|reflexivity].
      rewrite <- (Hk' k'' Hin). symmetry.
      apply keq_trans with k0; [assumption|].
      apply keq_trans with k; [assumption | now rewrite keq_sym].
    + rewrite (IH Hu'). destruct (keq k' k) eqn:E'; [|reflexivity].
      destruct (keq k0 k) eqn:E''; [|reflexivity].
      rewrite keq_sym in E''. rewrite (keq_trans E' E'') in E. discriminate.
Qed.

Lemma in_keys_pop (d : PyDict.dict K V) (k0 k : K) :
  In k (PyDict.keys (PyDict.pop keq d k0)) -> In k (PyDict.keys d).
Proof.
  unfold PyDict.keys. intros H. apply in_map_iff in H. destruct H as (e & <- & Hin).
  apply in_map. now apply in_pop in Hin.
Qed.

Lemma uniq_keys_pop (d : PyDict.dict K V) (k0 : K) :
  uniq keq (PyDict.keys d) -> uniq keq (PyDict.keys (PyDict.pop keq d k0)).
Proof.
  induction d as [|[k' v'] d IH]; simpl; intros Hu; [constructor|].
  inversion Hu as [|? ? Hk' Hu']; subst.
  destruct (keq k' k0); [assumption|].
  simpl. constructor; [|now apply IH].
  intros k'' Hin. apply Hk'. now apply in_keys_pop in Hin.
Qed.

(** Under unique keys the entry stored for a key is the one a lookup
    finds. *)
Lemma get_in (d : PyDict.dict K V) (k : K) (v : V) :
  uniq keq (PyDict.keys d) -> In (k, v) d -> keq k k = true ->
  PyDict.get keq d k = Some v.
Proof.
  induction d as [|[k' v'] d IH]; simpl; intros Hu Hin Hk; [destruct Hin|].
  inversion Hu as [|? ? Hk' Hu']; subst.
  destruct Hin as [Heq | Hin].
  - injection Heq as -> ->. now rewrite Hk.
  - rewrite (Hk' k); [now apply IH|].
    now apply (in_map fst d (k, v)).
Qed.

Lemma get_some_in (d : PyDict.dict K V) (k : K) (v : V) :
  PyDict.get keq d k = Some v -> exists k', In (k', v) d /\ keq k' k = true.
Proof.
  induction d as [|[k' v'] d IH]; simpl; [discriminate|].
  destruct (keq k' k) eqn:E.
  - intros H. injection H as ->. exists k'. split; [now left | assumption].
  - intros H. destruct (IH H) as (k'' & Hin & Hk). exists k''. split; [now right | assumption].
Qed.

End DictLookup.

(** ** What the loading and the update loops leave *)

Lemma update_entry_uniq (side : fdict float) (e : float * float) :
  uniq PrimFloat.eqb (PyDict.keys side) ->
  uniq PrimFloat.eqb (PyDict.keys (OrderBook.update_entry side e)).
Proof.
  intros Hu. destruct e as [p q]. unfold OrderBook.update_entry.
  destruct (q =? 0).
  - now apply uniq_keys_pop.
  - now apply uniq_keys_setitem.
Qed.

Lemma update_entries_uniq (entries : list (float * float)) (side : fdict float) :
  uniq PrimFloat.eqb (PyDict.keys side) ->
  uniq PrimFloat.eqb (PyDict.keys (fold_left OrderBook.update_entry entries side)).
Proof.
  revert side. induction entries as [|e entries IH]; intros side Hu; simpl; [assumption|].
  apply IH. now apply update_entry_uniq.
Qed.

Lemma load_entries_uniq (entries : list (float * float)) (side : fdict float) :
  uniq PrimFloat.eqb (PyDict.keys side) ->
  uniq PrimFloat.eqb (PyDict.keys (fold_left OrderBook.load_entry entries side)).
Proof.
  revert side. induction entries as [|[p q] entries IH]; intros side Hu; simpl; [assumption|].
  apply IH. destruct (0 <? q); [|assumption].
  now apply uniq_keys_setitem.
Qed.

(** No price is stored twice in a reachable book. *)
Lemma reachable_uniq (self : OrderBook.t) :
  reachable self ->
  uniq PrimFloat.eqb (PyDict.keys (OrderBook.bids self))
  /\ uniq PrimFloat.eqb (PyDict.keys (OrderBook.asks self)).
Proof.
  induction 1 as [sym | self data _ _ | self update _ IH | self _ IH].
  - split; constructor.
  - split; apply load_entries_uniq; constructor.
  - unfold OrderBook.apply_update.
    destruct (_ <? _)%Z; [exact IH|]. destruct (_ <=? _)%Z; [exact IH|].
    destruct IH as [Hb Ha]. split; now apply update_entries_uniq.
  - unfold OrderBook._ensure_sorted. destruct (negb _); exact IH.
Qed.

Lemma update_entries_get (entries : list (float * float)) (side : fdict float)
    (p : float) :
  uniq PrimFloat.eqb (PyDict.keys side) ->
  fget (fold_left OrderBook.update_entry entries side) p
  = match last_change entries p with
    | Some q => if q =? 0 then None else Some q
    | None => fget side p
    end.
Proof.
  revert side. induction entries as [|[price qty] entries IH]; intros side Hu;
    [reflexivity|].
  cbn [fold_left last_change]. rewrite IH by now apply update_entry_uniq.
  destruct (last_change entries p) as [q|]; [reflexivity|].
  unfold OrderBook.update_entry, fget, fpop, fsetitem.
  destruct (qty =? 0) eqn:Hq.
  - rewrite (@get_pop _ _ _ feqb_sym feqb_trans) by assumption.
    destruct (price =? p); [now rewrite Hq | reflexivity].
  - rewrite (@get_setitem _ _ _ feqb_sym feqb_trans).
    destruct (price =? p); [now rewrite Hq | reflexivity].
Qed.

Lemma load_entries_get (entries : list (float * float)) (side : fdict float)
    (p : float) :
  fget (fold_left OrderBook.load_entry entries side) p
  = match last_positive entries p with
    | Some q => Some q
    | None => fget side p
    end.
Proof.
  revert side. induction entries as [|[price qty] entries IH]; intros side;
    [reflexivity|].
  cbn [fold_left last_positive]. rewrite IH.
  destruct (last_positive entries p) as [q|]; [reflexivity|].
  unfold OrderBook.load_entry, fget, fsetitem.
  destruct (0 <? qty); simpl; [|reflexivity].
  rewrite (@get_setitem _ _ _ feqb_sym feqb_trans). now destruct (price =? p).
Qed.

(** ** The book after a snapshot and after an update *)

(** X1: an update that is applied (no gap, last id beyond the book's)
    is answered [True], moves [last_update_id] to its last id and leaves,
    at every price, the quantity of the last change it carries for that
    price, no entry when that quantity equals zero, and the entry the book
    had when it carries none. *)
Theorem apply_update_last_change
    (self : OrderBook.t) (update : OrderBook.update_data) (p : float) :
  reachable self ->
  (OrderBook.first_id update <= OrderBook.last_update_id self + 1)%Z ->
  (OrderBook.last_update_id self < OrderBook.upd_u update)%Z ->
  let book := snd (OrderBook.apply_update self update) in
  fst (OrderBook.apply_update self update) = true
  /\ OrderBook.last_update_id book = OrderBook.upd_u update
  /\ fget (OrderBook.bids book) p
     = match last_change (OrderBook.changes (OrderBook.upd_b update)) p with
       | Some q => if q =? 0 then None else Some q
       | None => fget (OrderBook.bids self) p
       end
  /\ fget (OrderBook.asks book) p
     = match last_change (OrderBook.changes (OrderBook.upd_a update)) p with
       | Some q => if q =? 0 then None else Some q
       | None => fget (OrderBook.asks self) p
       end.
Proof.
  intros Hreach Hseq Hnew book. subst book.
  destruct (reachable_uniq Hreach) as [Hb Ha].
  unfold OrderBook.apply_update.
  destruct (Z.ltb_spec (OrderBook.last_update_id self + 1) (OrderBook.first_id update));
    [lia|].
  destruct (Z.leb_spec (OrderBook.upd_u update) (OrderBook.last_update_id self));
    [lia|].
  cbn [fst snd OrderBook.bids OrderBook.asks OrderBook.last_update_id].
  split; [reflexivity|]. split; [reflexivity|].
  split; now apply update_entries_get.
Qed.

Lemma apply_update_last_change_witness :
  let book :=
    OrderBook.load_snapshot (OrderBook.__init__ "BNBUSDT")
      (OrderBook.mkSnapshotData 100 [(99, 5); (98, 1)] [(101, 3)]) in
  let diff :=
    OrderBook.mkUpdate (Some 101%Z) 102
      (Some [(99, 2); (98, 0); (99, 4)]) (Some [(102, 7)]) in
  let book' := snd (OrderBook.apply_update book diff) in
  fget (OrderBook.bids book') 99 = Some 4
  /\ fget (OrderBook.bids book') 98 = None
  /\ fget (OrderBook.asks book') 101 = Some 3
  /\ fget (OrderBook.asks book') 102 = Some 7.
Proof.
  intros book diff book'.
  assert (Hreach : reachable book) by (apply reach_load, reach_init).
  assert (Hseq : (OrderBook.first_id diff <= OrderBook.last_update_id book + 1)%Z)
    by (vm_compute; discriminate).
  assert (Hnew : (OrderBook.last_update_id book < OrderBook.upd_u diff)%Z)
    by reflexivity.
  split; [|split; [|split]].
  - destruct (@apply_update_last_change book diff 99 Hreach Hseq Hnew) as (_ & _ & H & _).
    exact H.
  - destruct (@apply_update_last_change book diff 98 Hreach Hseq Hnew) as (_ & _ & H & _).
    exact H.
  - destruct (@apply_update_last_change book diff 101 Hreach Hseq Hnew) as (_ & _ & _ & H).
    exact H.
  - destruct (@apply_update_last_change book diff 102 Hreach Hseq Hnew) as (_ & _ & _ & H).
    exact H.
Defined.

(** X2: [load_snapshot] forgets the book it is given: whatever it held,
    afterwards [last_update_id] is the snapshot's, the cache is clean, and
    at every price each side holds the quantity of the last entry of the
    snapshot for that price among those with [qty > 0], and no entry when
    there is none.  An entry with [qty <= 0] erases nothing. *)
Theorem load_snapshot_last_positive
    (self : OrderBook.t) (data : OrderBook.snapshot_data) (p : float) :
  let book := OrderBook.load_snapshot self data in
  OrderBook.last_update_id book = OrderBook.lastUpdateId data
  /\ OrderBook._dirty book = false
  /\ fget (OrderBook.bids book) p = last_positive (OrderBook.snap_bids data) p
  /\ fget (OrderBook.asks book) p = last_positive (OrderBook.snap_asks data) p.
Proof.
  intros book. subst book. unfold OrderBook.load_snapshot, OrderBook._ensure_sorted.
  cbn [OrderBook._dirty negb OrderBook.bids OrderBook.asks OrderBook.last_update_id].
  split; [reflexivity|]. split; [reflexivity|].
  rewrite !load_entries_get.
  split; [destruct (last_positive (OrderBook.snap_bids data) p)
         | destruct (last_positive (OrderBook.snap_asks data) p)]; reflexivity.
Qed.

(** X3: [apply_update] never moves [last_update_id] backwards; when it
    answers [True] the book is at least at the update's last id; when it
    answers [False] the book is the one it was given. *)
Theorem last_update_id_monotone (self : OrderBook.t) (update : OrderBook.update_data) :
  let r := OrderBook.apply_update self update in
  (OrderBook.last_update_id self <= OrderBook.last_update_id (snd r))%Z
  /\ (fst r = true -> (OrderBook.upd_u update <= OrderBook.last_update_id (snd r))%Z)
  /\ (fst r = false -> snd r = self).
Proof.
  intros r. subst r. unfold OrderBook.apply_update.
  destruct (Z.ltb_spec (OrderBook.last_update_id self + 1) (OrderBook.first_id update)).
  - cbn [fst snd]. split; [lia|]. split; [discriminate | reflexivity].
  - destruct (Z.leb_spec (OrderBook.upd_u update) (OrderBook.last_update_id self));
      cbn [fst snd OrderBook.last_update_id]; (split; [lia|]);
      (split; [intros _; lia | discriminate]).
Qed.

Lemma replay_gap (us : list OrderBook.update_data) (self : OrderBook.t) (i : Z) :
  (OrderBook.last_update_id self + 1 < i)%Z ->
  Forall (fun u => (i <= OrderBook.first_id u)%Z) us ->
  fold_left (fun ob u => snd (OrderBook.apply_update ob u)) us self = self.
Proof.
  intros Hgap. induction 1 as [|u us Hu _ IH]; simpl; [reflexivity|].
  rewrite apply_update_gap by lia. exact IH.
Qed.

(** X4: a gap freezes the book.  Once an update is refused for a gap,
    every later update whose first id is not below the refused one's is
    refused as well: applied one after another they leave the book as it
    was, until a snapshot is loaded. *)
Theorem gap_freezes_book
    (self : OrderBook.t) (update : OrderBook.update_data)
    (later : list OrderBook.update_data) :
  (OrderBook.last_update_id self + 1 < OrderBook.first_id update)%Z ->
  Forall (fun u => (OrderBook.first_id update <= OrderBook.first_id u)%Z) later ->
  fold_left (fun ob u => snd (OrderBook.apply_update ob u)) (update :: later) self = self
  /\ Forall (fun u => fst (OrderBook.apply_update self u) = false) (update :: later).
Proof.
  intros Hgap Hlater. split.
  - apply replay_gap with (i := OrderBook.first_id update); [assumption|].
    constructor; [lia | assumption].
  - constructor.
    + now rewrite apply_update_gap.
    + eapply Forall_impl; [|exact Hlater]. intros u Hu. cbv beta in Hu.
      rewrite apply_update_gap by lia. reflexivity.
Qed.

Lemma gap_freezes_book_witness :
  let book :=
    OrderBook.load_snapshot (OrderBook.__init__ "BNBUSDT")
      (OrderBook.mkSnapshotData 100 [(99, 5)] [(101, 3)]) in
  let lost := OrderBook.mkUpdate (Some 103%Z) 104 (Some [(99, 1)]) (Some []) in
  let next := OrderBook.mkUpdate (Some 105%Z) 106 (Some [(98, 2)]) (Some [(101, 0)]) in
  fold_left (fun ob u => snd (OrderBook.apply_update ob u)) [lost; next] book = book.
Proof.
  intros book lost next.
  assert (Hgap : (OrderBook.last_update_id book + 1 < OrderBook.first_id lost)%Z)
    by reflexivity.
  assert (Hlater : Forall (fun u => (OrderBook.first_id lost <= OrderBook.first_id u)%Z)
                     [next])
    by (constructor; [vm_compute; discriminate | constructor]).
  exact (proj1 (@gap_freezes_book book lost [next] Hgap Hlater)).
Defined.

(** ** The best prices are the extreme prices *)

Lemma fltb_irrefl x : (x <? x) = false.
Proof.
  destruct (x <? x) eqn:E; [|reflexivity]. now rewrite (fltb_asym E) in E.
Qed.

(** Between two floats that are not NaN, [x <= y] unless [y < x]. *)
Lemma fleb_of_not_ltb x y :
  (x =? x) = true -> (y =? y) = true -> (y <? x) = false -> (x <=? y) = true.
Proof.
  intros Hx Hy Hlt. apply fleb_key.
  destruct (x =? y) eqn:E.
  - apply feqb_key in E. destruct E as (k & H1 & H2). eauto 6.
  - pose proof (fltb_total Hx Hy E Hlt) as H. apply fltb_key in H.
    destruct H as (a & b & H1 & H2 & H3). eauto 6.
Qed.

Lemma sorted_head_least (l : list float) (h : float) (t : list float) (k : float) :
  sorted PrimFloat.ltb l = h :: t -> In k l -> (k <? h) = false.
Proof.
  intros E Hin.
  pose proof (@sorted_strongly float PrimFloat.ltb fltb_trans fltb_asym l) as Hs.
  rewrite E in Hs. inversion Hs as [|? ? _ Hall]; subst.
  apply (Permutation_in k (Permutation_sym (sorted_perm PrimFloat.ltb l))) in Hin.
  rewrite E in Hin. destruct Hin as [<- | Hin]; [apply fltb_irrefl|].
  rewrite Forall_forall in Hall. exact (Hall k Hin).
Qed.

Lemma sorted_reverse_head_greatest (l : list float) (h : float) (t : list float)
    (k : float) :
  sorted_reverse PrimFloat.ltb l = h :: t -> In k l -> (h <? k) = false.
Proof.
  intros E Hin.
  pose proof (@sorted_strongly float PrimFloat.ltb fltb_trans fltb_asym (rev l)) as Hs.
  apply StronglySorted_rev in Hs. fold (sorted_reverse PrimFloat.ltb l) in Hs.
  rewrite E in Hs. inversion Hs as [|? ? _ Hall]; subst.
  apply (Permutation_in k (Permutation_sym (sorted_reverse_perm PrimFloat.ltb l))) in Hin.
  rewrite E in Hin. destruct Hin as [<- | Hin]; [apply fltb_irrefl|].
  rewrite Forall_forall in Hall. exact (Hall k Hin).
Qed.

(** X5: on a reachable book with bids, none at a NaN price, [best_bid] is
    a price of the bids and no bid price is above it, whatever updates
    came since the cache was last sorted. *)
Theorem best_bid_is_highest (self : OrderBook.t) :
  reachable self ->
  OrderBook.bids self <> [] ->
  Forall (fun k => (k =? k) = true) (PyDict.keys (OrderBook.bids self)) ->
  In (fst (OrderBook.best_bid self)) (PyDict.keys (OrderBook.bids self))
  /\ forall k, In k (PyDict.keys (OrderBook.bids self)) ->
               (k <=? fst (OrderBook.best_bid self)) = true.
Proof.
  intros Hreach Hne Hnan. pose proof (reachable_cache_ok Hreach) as Hok.
  pose proof (best_bid_in Hok Hne) as Hin. split; [exact Hin|].
  intros k Hk. rewrite Forall_forall in Hnan.
  apply fleb_of_not_ltb; [now apply Hnan | now apply Hnan|].
  revert Hin. rewrite (best_bid_spec Hok). cbn [fst].
  destruct (sorted_reverse PrimFloat.ltb (PyDict.keys (OrderBook.bids self)))
    as [|h t] eqn:E.
  - apply sorted_reverse_nil_inv in E. rewrite E in Hk. destruct Hk.
  - intros _. cbn [head_or_zero]. eapply sorted_reverse_head_greatest; eassumption.
Qed.

Lemma best_bid_is_highest_witness :
  let book0 :=
    OrderBook.load_snapshot (OrderBook.__init__ "BNBUSDT")
      (OrderBook.mkSnapshotData 100 [(99, 5); (98, 1)] [(101, 3)]) in
  let diff :=
    OrderBook.mkUpdate (Some 101%Z) 101 (Some [(99.5, 2); (97, 1)]) (Some []) in
  let book := snd (OrderBook.apply_update book0 diff) in
  fst (OrderBook.best_bid book) = 99.5
  /\ forall k, In k (PyDict.keys (OrderBook.bids book)) -> (k <=? 99.5) = true.
Proof.
  intros book0 diff book.
  assert (Hreach : reachable book) by (apply reach_apply, reach_load, reach_init).
  assert (Hne : OrderBook.bids book <> []) by discriminate.
  assert (Hnan : Forall (fun k => (k =? k) = true) (PyDict.keys (OrderBook.bids book)))
    by (repeat constructor).
  split; [reflexivity|].
  exact (proj2 (@best_bid_is_highest book Hreach Hne Hnan)).
Defined.

(** X6: on a reachable book with asks, none at a NaN price, [best_ask] is
    a price of the asks and no ask price is below it. *)
Theorem best_ask_is_lowest (self : OrderBook.t) :
  reachable self ->
  OrderBook.asks self <> [] ->
  Forall (fun k => (k =? k) = true) (PyDict.keys (OrderBook.asks self)) ->
  In (fst (OrderBook.best_ask self)) (PyDict.keys (OrderBook.asks self))
  /\ forall k, In k (PyDict.keys (OrderBook.asks self)) ->
               (fst (OrderBook.best_ask self) <=? k) = true.
Proof.
  intros Hreach Hne Hnan. pose proof (reachable_cache_ok Hreach) as Hok.
  pose proof (best_ask_in Hok Hne) as Hin. split; [exact Hin|].
  intros k Hk. rewrite Forall_forall in Hnan.
  apply fleb_of_not_ltb; [now apply Hnan | now apply Hnan|].
  revert Hin. rewrite (best_ask_spec Hok). cbn [fst].
  destruct (sorted PrimFloat.ltb (PyDict.keys (OrderBook.asks self)))
    as [|h t] eqn:E.
  - apply sorted_nil_inv in E. rewrite E in Hk. destruct Hk.
  - intros _. cbn [head_or_zero]. eapply sorted_head_least; eassumption.
Qed.

Lemma best_ask_is_lowest_witness :
  let book0 :=
    OrderBook.load_snapshot (OrderBook.__init__ "BNBUSDT")
      (OrderBook.mkSnapshotData 100 [(99, 5)] [(101, 3); (102, 1)]) in
  let diff :=
    OrderBook.mkUpdate (Some 101%Z) 101 (Some []) (Some [(101, 0); (100.5, 2)]) in
  let book := snd (OrderBook.apply_update book0 diff) in
  fst (OrderBook.best_ask book) = 100.5
  /\ forall k, In k (PyDict.keys (OrderBook.asks book)) -> (100.5 <=? k) = true.
Proof.
  intros book0 diff book.
  assert (Hreach : reachable book) by (apply reach_apply, reach_load, reach_init).
  assert (Hne : OrderBook.asks book <> []) by discriminate.
  assert (Hnan : Forall (fun k => (k =? k) = true) (PyDict.keys (OrderBook.asks book)))
    by (repeat constructor).
  split; [reflexivity|].
  exact (proj2 (@best_ask_is_lowest book Hreach Hne Hnan)).
Defined.

(** ** The raw ladder *)

Lemma list_getitem_nth (A : Type) (l : list A) (k : nat) (x : A) :
  nth_error l k = Some x -> list_getitem l (Z.of_nat k) = inr x.
Proof.
  intros H. unfold list_getitem.
  destruct (Z.ltb_spec (Z.of_nat k) 0); [lia|].
  destruct (Z.ltb_spec (Z.of_nat k) 0); [lia|].
  now rewrite Nat2Z.id, H.
Qed.

Lemma nth_error_firstn_seq (A : Type) (l : list A) (n : nat) :
  (n <= List.length l)%nat ->
  map (nth_error l) (seq 0 n) = map Some (firstn n l).
Proof.
  revert n. induction l as [|x l IH]; intros n Hn; simpl in Hn.
  - replace n with 0%nat by lia. reflexivity.
  - destruct n as [|n]; [reflexivity|].
    cbn [seq map firstn nth_error]. f_equal.
    rewrite <- seq_shift, map_map. cbn [nth_error]. apply IH. lia.
Qed.

Lemma getitem_range (A : Type) (l : list A) (c : Z) :
  (c <= Z.of_nat (List.length l))%Z ->
  map (list_getitem l) (range 0 c) = map inr (firstn (Z.to_nat c) l).
Proof.
  intros Hc. unfold range. rewrite Z.sub_0_r, map_map.
  assert (Hn : (Z.to_nat c <= List.length l)%nat) by lia.
  pose proof (nth_error_firstn_seq l Hn) as H.
  revert H. generalize (firstn (Z.to_nat c) l) as ps.
  generalize (Z.to_nat c) as n. intros n. generalize 0%nat as a.
  induction n as [|n IH]; intros a ps H; destruct ps as [|p ps]; try discriminate;
    [reflexivity|].
  cbn [seq map] in *. injection H as Hp Hrest. f_equal.
  - rewrite Z.add_0_l. now apply list_getitem_nth.
  - now apply IH.
Qed.

Lemma range_down_rev_nat (n : nat) :
  map (fun k => (Z.of_nat n - 1 - Z.of_nat k)%Z) (seq 0 n)
  = rev (map (fun k => (0 + Z.of_nat k)%Z) (seq 0 n)).
Proof.
  induction n as [|n IH]; [reflexivity|].
  assert (HL : map (fun k => (Z.of_nat (S n) - 1 - Z.of_nat k)%Z) (seq 0 (S n))
               = (Z.of_nat (S n) - 1 - Z.of_nat 0)%Z
                 :: map (fun k => (Z.of_nat (S n) - 1 - Z.of_nat (S k))%Z) (seq 0 n)).
  { cbn [seq map]. f_equal. now rewrite <- seq_shift, map_map. }
  assert (HR : rev (map (fun k => (0 + Z.of_nat k)%Z) (seq 0 (S n)))
               = (0 + Z.of_nat n)%Z :: rev (map (fun k => (0 + Z.of_nat k)%Z) (seq 0 n))).
  { rewrite seq_S, map_app, rev_app_distr. reflexivity. }
  rewrite HL, HR. f_equal; [lia|].
  rewrite <- IH. apply map_ext. intros k. lia.
Qed.

Lemma range_down_rev (c : Z) :
  range_down (c - 1) (-1) = rev (range 0 c).
Proof.
  unfold range_down, range.
  replace (c - 1 - -1)%Z with c by lia. rewrite Z.sub_0_r.
  destruct (Z.le_gt_cases c 0) as [Hc | Hc].
  - replace (Z.to_nat c) with 0%nat by lia. reflexivity.
  - rewrite <- range_down_rev_nat. apply map_ext. intros k. lia.
Qed.

Lemma getitem_range_down (A : Type) (l : list A) (c : Z) :
  (c <= Z.of_nat (List.length l))%Z ->
  map (list_getitem l) (range_down (c - 1) (-1))
  = map inr (rev (firstn (Z.to_nat c) l)).
Proof.
  intros Hc. now rewrite range_down_rev, !map_rev, getitem_range.
Qed.

Lemma fgetitem_in (side : fdict float) (p : float) :
  uniq PrimFloat.eqb (PyDict.keys side) ->
  In p (PyDict.keys side) -> (p =? p) = true ->
  exists q, fgetitem side p = inr q /\ fget_default side p 0 = q /\ In (p, q) side.
Proof.
  intros Hu Hin Hp. unfold PyDict.keys in Hin. apply in_map_iff in Hin.
  destruct Hin as ([p' q] & Hfst & Hin). cbn [fst] in Hfst. subst p'.
  exists q. unfold fgetitem, fget_default, PyDict.get_default, fget.
  now rewrite (@get_in _ _ _ side p q Hu Hin Hp).
Qed.

(** One loop of [get_ladder] over indices that select the prices [ps],
    all of them keys of the side. *)
Lemma ladder_rows_spec (row : float -> float -> PriceLevel) (cache : list float)
    (side : fdict float) (indices : list Z) (ps : list float) (result : list PriceLevel) :
  uniq PrimFloat.eqb (PyDict.keys side) ->
  map (list_getitem cache) indices = map inr ps ->
  Forall (fun p => In p (PyDict.keys side) /\ (p =? p) = true) ps ->
  OrderBook.ladder_rows row cache side indices result
  = inr (result ++ map (fun p => row p (fget_default side p 0)) ps).
Proof.
  intros Hu. revert ps result.
  induction indices as [|i indices IH]; intros ps result Hidx Hps;
    destruct ps as [|p ps]; try discriminate.
  - simpl. now rewrite app_nil_r.
  - cbn [map] in Hidx. injection Hidx as Hi Hidx.
    inversion Hps as [|? ? [Hin Hp] Hps']; subst.
    cbn [OrderBook.ladder_rows]. rewrite Hi.
    destruct (@fgetitem_in side p Hu Hin Hp) as (q & Hq & Hd & _). rewrite Hq.
    rewrite (IH ps _ Hidx Hps'). cbn [map]. rewrite Hd, <- app_assoc. reflexivity.
Qed.

Lemma firstn_min_length (A : Type) (l : list A) (n : Z) :
  firstn (Z.to_nat (Z.min n (Z.of_nat (List.length l)))) l = firstn (Z.to_nat n) l.
Proof.
  destruct (Z.le_gt_cases n (Z.of_nat (List.length l))) as [H | H].
  - now rewrite Z.min_l.
  - rewrite Z.min_r by lia. rewrite Nat2Z.id, firstn_all.
    symmetry. apply firstn_all2. lia.
Qed.

Lemma Forall_firstn (A : Type) (P : A -> Prop) (n : nat) (l : list A) :
  Forall P l -> Forall P (firstn n l).
Proof.
  intros H. rewrite Forall_forall in *. intros x Hx. apply H.
  rewrite <- (firstn_skipn n l). apply in_or_app. now left.
Qed.

(** What [get_ladder] returns on a book whose cache is sound. *)
Lemma get_ladder_spec (self : OrderBook.t) (levels : Z) :
  cache_ok self ->
  uniq PrimFloat.eqb (PyDict.keys (OrderBook.bids self)) ->
  uniq PrimFloat.eqb (PyDict.keys (OrderBook.asks self)) ->
  Forall (fun k => (k =? k) = true) (PyDict.keys (OrderBook.bids self)) ->
  Forall (fun k => (k =? k) = true) (PyDict.keys (OrderBook.asks self)) ->
  fst (OrderBook.get_ladder self levels)
  = inr (map (fun p => mkPriceLevel p 0 (fget_default (OrderBook.asks self) p 0))
           (rev (firstn (Z.to_nat levels)
                   (sorted PrimFloat.ltb (PyDict.keys (OrderBook.asks self)))))
         ++ map (fun p => mkPriceLevel p (fget_default (OrderBook.bids self) p 0) 0)
              (firstn (Z.to_nat levels)
                 (sorted_reverse PrimFloat.ltb (PyDict.keys (OrderBook.bids self))))).
Proof.
  intros Hok Hub Hua Hnb Hna. unfold OrderBook.get_ladder. cbn [fst].
  destruct (ensure_sorted_spec Hok) as (Hb & Ha & Hbs & Has).
  rewrite Hb, Ha, Hbs, Has.
  set (acache := sorted PrimFloat.ltb (PyDict.keys (OrderBook.asks self))).
  set (bcache := sorted_reverse PrimFloat.ltb (PyDict.keys (OrderBook.bids self))).
  assert (Hain : Forall (fun p => In p (PyDict.keys (OrderBook.asks self))
                                  /\ (p =? p) = true) acache).
  { apply Forall_forall. intros p Hp.
    apply (Permutation_in p (sorted_perm PrimFloat.ltb _)) in Hp.
    rewrite Forall_forall in Hna. auto. }
  assert (Hbin : Forall (fun p => In p (PyDict.keys (OrderBook.bids self))
                                  /\ (p =? p) = true) bcache).
  { apply Forall_forall. intros p Hp.
    apply (Permutation_in p (sorted_reverse_perm PrimFloat.ltb _)) in Hp.
    rewrite Forall_forall in Hnb. auto. }
  rewrite (@ladder_rows_spec _ acache (OrderBook.asks self) _
             (rev (firstn (Z.to_nat levels) acache)) [] Hua).
  - rewrite (@ladder_rows_spec _ bcache (OrderBook.bids self) _
               (firstn (Z.to_nat levels) bcache) _ Hub).
    + reflexivity.
    + rewrite getitem_range by lia. now rewrite firstn_min_length.
    + now apply Forall_firstn.
  - rewrite getitem_range_down by lia. now rewrite firstn_min_length.
  - apply Forall_rev. now apply Forall_firstn.
Qed.

(** X7: on a reachable book with no NaN price, [get_ladder] raises
    neither [KeyError] nor [IndexError]; it returns the lowest asks, at
    most [levels] of them, from the highest down to the best ask, followed
    by the highest bids, at most [levels] of them, from the best bid down:
    one row a price, and none at all when [levels <= 0]. *)
Theorem get_ladder_prices (self : OrderBook.t) (levels : Z) :
  reachable self ->
  Forall (fun k => (k =? k) = true) (PyDict.keys (OrderBook.bids self)) ->
  Forall (fun k => (k =? k) = true) (PyDict.keys (OrderBook.asks self)) ->
  exists rows,
    fst (OrderBook.get_ladder self levels) = inr rows
    /\ map pl_price rows
       = rev (firstn (Z.to_nat levels)
                (sorted PrimFloat.ltb (PyDict.keys (OrderBook.asks self))))
         ++ firstn (Z.to_nat levels)
              (sorted_reverse PrimFloat.ltb (PyDict.keys (OrderBook.bids self)))
    /\ List.length rows
       = (Nat.min (Z.to_nat levels) (List.length (OrderBook.asks self))
          + Nat.min (Z.to_nat levels) (List.length (OrderBook.bids self)))%nat
    /\ ((levels <= 0)%Z -> rows = []).
Proof.
  intros Hreach Hnb Hna.
  destruct (reachable_uniq Hreach) as [Hub Hua].
  rewrite (get_ladder_spec levels (reachable_cache_ok Hreach) Hub Hua Hnb Hna).
  eexists. split; [reflexivity|]. split; [|split].
  - rewrite map_app, !map_map. cbn [pl_price]. now rewrite !map_id.
  - rewrite length_app, !length_map, length_rev, !length_firstn.
    rewrite (Permutation_length (sorted_perm PrimFloat.ltb _)).
    rewrite (Permutation_length (sorted_reverse_perm PrimFloat.ltb _)).
    unfold PyDict.keys. now rewrite !length_map.
  - intros Hl. replace (Z.to_nat levels) with 0%nat by lia. reflexivity.
Qed.

Lemma get_ladder_prices_witness :
  let book :=
    OrderBook.load_snapshot (OrderBook.__init__ "BNBUSDT")
      (OrderBook.mkSnapshotData 100 [(98, 1); (99, 5); (97, 2)]
         [(102, 1); (101, 3); (103, 4)]) in
  exists rows,
    fst (OrderBook.get_ladder book 2) = inr rows
    /\ map pl_price rows = [102; 101; 99; 98].
Proof.
  intros book.
  assert (Hreach : reachable book) by (apply reach_load, reach_init).
  assert (Hnb : Forall (fun k => (k =? k) = true) (PyDict.keys (OrderBook.bids book)))
    by (repeat constructor).
  assert (Hna : Forall (fun k => (k =? k) = true) (PyDict.keys (OrderBook.asks book)))
    by (repeat constructor).
  destruct (@get_ladder_prices book 2 Hreach Hnb Hna) as (rows & Hrows & Hprices & _).
  exists rows. split; [exact Hrows | exact Hprices].
Defined.

(** X8: on a reachable book with no NaN price, every row of [get_ladder]
    carries the quantity the book holds at the row's price: the rows split
    into ask rows, with [bid_qty = 0.0] and the resting ask quantity, and
    bid rows after them, with [ask_qty = 0.0] and the resting bid
    quantity. *)
Theorem get_ladder_quantities (self : OrderBook.t) (levels : Z) :
  reachable self ->
  Forall (fun k => (k =? k) = true) (PyDict.keys (OrderBook.bids self)) ->
  Forall (fun k => (k =? k) = true) (PyDict.keys (OrderBook.asks self)) ->
  exists ask_rows bid_rows,
    fst (OrderBook.get_ladder self levels) = inr (ask_rows ++ bid_rows)
    /\ Forall (fun r => pl_bid_qty r = 0
                        /\ In (pl_price r, pl_ask_qty r) (OrderBook.asks self)) ask_rows
    /\ Forall (fun r => pl_ask_qty r = 0
                        /\ In (pl_price r, pl_bid_qty r) (OrderBook.bids self)) bid_rows.
Proof.
  intros Hreach Hnb Hna.
  destruct (reachable_uniq Hreach) as [Hub Hua].
  rewrite (get_ladder_spec levels (reachable_cache_ok Hreach) Hub Hua Hnb Hna).
  eexists. eexists. split; [reflexivity|]. split.
  - apply Forall_map, Forall_rev, Forall_firstn, Forall_forall. intros p Hp.
    cbn [pl_bid_qty pl_price pl_ask_qty]. split; [reflexivity|].
    apply (Permutation_in p (sorted_perm PrimFloat.ltb _)) in Hp.
    rewrite Forall_forall in Hna.
    destruct (@fgetitem_in (OrderBook.asks self) p Hua Hp (Hna p Hp)) as (q & _ & -> & Hin).
    exact Hin.
  - apply Forall_map, Forall_firstn, Forall_forall. intros p Hp.
    cbn [pl_bid_qty pl_price pl_ask_qty]. split; [reflexivity|].
    apply (Permutation_in p (sorted_reverse_perm PrimFloat.ltb _)) in Hp.
    rewrite Forall_forall in Hnb.
    destruct (@fgetitem_in (OrderBook.bids self) p Hub Hp (Hnb p Hp)) as (q & _ & -> & Hin).
    exact Hin.
Qed.

Lemma get_ladder_quantities_witness :
  let book :=
    OrderBook.load_snapshot (OrderBook.__init__ "BNBUSDT")
      (OrderBook.mkSnapshotData 100 [(98, 1); (99, 5)] [(102, 1); (101, 3)]) in
  exists ask_rows bid_rows,
    fst (OrderBook.get_ladder book 1) = inr (ask_rows ++ bid_rows)
    /\ Forall (fun r => pl_bid_qty r = 0) ask_rows
    /\ Forall (fun r => pl_ask_qty r = 0) bid_rows.
Proof.
  intros book.
  assert (Hreach : reachable book) by (apply reach_load, reach_init).
  assert (Hnb : Forall (fun k => (k =? k) = true) (PyDict.keys (OrderBook.bids book)))
    by (repeat constructor).
  assert (Hna : Forall (fun k => (k =? k) = true) (PyDict.keys (OrderBook.asks book)))
    by (repeat constructor).
  destruct (@get_ladder_quantities book 1 Hreach Hnb Hna)
    as (ask_rows & bid_rows & Hrows & Hask & Hbid).
  exists ask_rows, bid_rows. split; [exact Hrows|]. split.
  - eapply Forall_impl; [|exact Hask]. intros r Hr. exact (proj1 Hr).
  - eapply Forall_impl; [|exact Hbid]. intros r Hr. exact (proj1 Hr).
Defined.

(** ** Reading the book *)

Lemma ensure_sorted_contents (self : OrderBook.t) :
  OrderBook.bids (OrderBook._ensure_sorted self) = OrderBook.bids self
  /\ OrderBook.asks (OrderBook._ensure_sorted self) = OrderBook.asks self
  /\ OrderBook.last_update_id (OrderBook._ensure_sorted self)
     = OrderBook.last_update_id self
  /\ OrderBook._update_count (OrderBook._ensure_sorted self)
     = OrderBook._update_count self.
Proof.
  unfold OrderBook._ensure_sorted. destruct (negb _); repeat split.
Qed.

Lemma best_bid_leaves (self : OrderBook.t) :
  snd (OrderBook.best_bid self) = OrderBook._ensure_sorted self.
Proof. reflexivity. Qed.

Lemma best_ask_leaves (self : OrderBook.t) :
  snd (OrderBook.best_ask self) = OrderBook._ensure_sorted self.
Proof. reflexivity. Qed.

Lemma mid_price_leaves (self : OrderBook.t) :
  snd (OrderBook.mid_price self) = OrderBook._ensure_sorted self.
Proof.
  unfold OrderBook.mid_price, OrderBook.best_bid, OrderBook.best_ask. cbn [snd].
  apply ensure_sorted_idem.
Qed.

Lemma get_binned_ladder_leaves (self : OrderBook.t) (bin_size : float) (levels : Z) :
  snd (OrderBook.get_binned_ladder self bin_size levels) = OrderBook._ensure_sorted self.
Proof.
  unfold OrderBook.get_binned_ladder.
  pose proof (mid_price_leaves (OrderBook._ensure_sorted self)) as H.
  destruct (OrderBook.mid_price (OrderBook._ensure_sorted self)) as [mid self'].
  cbn [snd] in *. rewrite H. apply ensure_sorted_idem.
Qed.

(** X9: reading does not change what is read.  On a reachable book a
    call of [get_binned_ladder] leaves the bids, the asks and
    [last_update_id] as they were, and the book it leaves gives the same
    ladder, the same best prices and the same mid price as the book it
    was given. *)
Theorem queries_are_repeatable (self : OrderBook.t) (bin_size : float) (levels : Z) :
  reachable self ->
  let self' := snd (OrderBook.get_binned_ladder self bin_size levels) in
  OrderBook.bids self' = OrderBook.bids self
  /\ OrderBook.asks self' = OrderBook.asks self
  /\ OrderBook.last_update_id self' = OrderBook.last_update_id self
  /\ fst (OrderBook.get_binned_ladder self' bin_size levels)
     = fst (OrderBook.get_binned_ladder self bin_size levels)
  /\ fst (OrderBook.best_bid self') = fst (OrderBook.best_bid self)
  /\ fst (OrderBook.best_ask self') = fst (OrderBook.best_ask self)
  /\ fst (OrderBook.mid_price self') = fst (OrderBook.mid_price self).
Proof.
  intros Hreach self'. subst self'. rewrite get_binned_ladder_leaves.
  pose proof (reachable_cache_ok Hreach) as Hok.
  pose proof (ensure_sorted_cache_ok Hok) as Hok'.
  destruct (ensure_sorted_contents self) as (Hb & Ha & Hid & _).
  split; [exact Hb|]. split; [exact Ha|]. split; [exact Hid|].
  split; [|split; [|split]].
  - rewrite (get_binned_ladder_spec _ _ Hok'), (get_binned_ladder_spec _ _ Hok).
    now rewrite (mid_price_ensure_sorted Hok), Hb, Ha.
  - now rewrite (best_bid_spec Hok'), (best_bid_spec Hok), Hb.
  - now rewrite (best_ask_spec Hok'), (best_ask_spec Hok), Ha.
  - now rewrite (mid_price_ensure_sorted Hok).
Qed.

Lemma queries_are_repeatable_witness :
  let book0 :=
    OrderBook.load_snapshot (OrderBook.__init__ "BNBUSDT")
      (OrderBook.mkSnapshotData 100 [(99, 5)] [(101, 3)]) in
  let diff := OrderBook.mkUpdate (Some 101%Z) 101 (Some [(99.5, 2)]) (Some []) in
  let book := snd (OrderBook.apply_update book0 diff) in
  let book' := snd (OrderBook.get_binned_ladder book 1 2) in
  fst (OrderBook.get_binned_ladder book' 1 2) = fst (OrderBook.get_binned_ladder book 1 2)
  /\ fst (OrderBook.best_bid book') = 99.5.
Proof.
  intros book0 diff book book'.
  assert (Hreach : reachable book) by (apply reach_apply, reach_load, reach_init).
  destruct (@queries_are_repeatable book 1 2 Hreach) as (_ & _ & _ & Hl & Hb & _).
  split; [exact Hl | exact Hb].
Defined.

(** ** Division by zero *)

Lemma centers_of_raises (center_bin bin_size : float) (indices : list Z) (e : exn) :
  centers_of center_bin bin_size indices = Raise e -> e = OverflowError.
Proof.
  induction indices as [|i rest IH]; simpl; [discriminate|].
  unfold PyFloat.of_int.
  destruct (binary_normalize prec emax i 0 false); cbn [bind];
    try (intros H; now injection H);
    (destruct (centers_of center_bin bin_size rest); cbn [bind];
     [discriminate | assumption]).
Qed.

Lemma allocate_bins_raises (center_bin bin_size : float) (levels : Z) (e : exn) :
  OrderBook.allocate_bins center_bin bin_size levels = Raise e -> e = OverflowError.
Proof.
  unfold OrderBook.allocate_bins. rewrite allocate_centers.
  destruct (centers_of center_bin bin_size _) as [cs|e'] eqn:E; cbn [bind];
    [discriminate|].
  intros H. injection H as <-. eapply centers_of_raises; eassumption.
Qed.

(** X10: on a reachable book, [get_binned_ladder] raises
    [ZeroDivisionError] exactly when the bin size equals zero and the mid
    price does not: a book with a price cannot be binned with a zero bin
    size, and an empty book is answered [[]] whatever the bin size. *)
Theorem get_binned_ladder_zero_division
    (self : OrderBook.t) (bin_size : float) (levels : Z) :
  reachable self ->
  fst (OrderBook.get_binned_ladder self bin_size levels) = Raise ZeroDivisionError
  <-> (fst (OrderBook.mid_price self) =? 0) = false /\ (bin_size =? 0) = true.
Proof.
  intros Hreach. rewrite (get_binned_ladder_spec _ _ (reachable_cache_ok Hreach)).
  cbv zeta. destruct (fst (OrderBook.mid_price self) =? 0) eqn:Hmid.
  - split; [discriminate | intros [H _]; discriminate].
  - destruct (bin_size =? 0) eqn:Hbs.
    + unfold OrderBook.bin_center_of, PyFloat.floordiv. rewrite Hbs. cbn [bind].
      split; auto.
    + destruct (bin_center_of_ok (fst (OrderBook.mid_price self)) Hbs) as [c Hc].
      rewrite Hc.
      destruct (OrderBook.allocate_bins c bin_size levels) as [bins|e] eqn:Halloc.
      * split; [discriminate | intros [_ H]; discriminate].
      * apply allocate_bins_raises in Halloc. subst e.
        split; [discriminate | intros [_ H]; discriminate].
Qed.

Lemma get_binned_ladder_zero_division_witness :
  let book :=
    OrderBook.load_snapshot (OrderBook.__init__ "BNBUSDT")
      (OrderBook.mkSnapshotData 100 [(99, 5)] [(101, 3)]) in
  fst (OrderBook.get_binned_ladder book 0 25) = Raise ZeroDivisionError
  /\ fst (OrderBook.get_binned_ladder book (-0) 25) = Raise ZeroDivisionError.
Proof.
  intros book.
  assert (Hreach : reachable book) by (apply reach_load, reach_init).
  split.
  - apply (proj2 (@get_binned_ladder_zero_division book 0 25 Hreach)).
    split; reflexivity.
  - apply (proj2 (@get_binned_ladder_zero_division book (-0) 25 Hreach)).
    split; reflexivity.
Defined.

Lemma zero_below_millisecond (x : float) : (x =? 0) = true -> (x <? 0.001) = true.
Proof.
  intros H. apply feqb_key in H. destruct H as (k & Hx & H0).
  apply fltb_key. exists k. eexists. split; [exact Hx|]. split; [reflexivity|].
  vm_compute in H0. injection H0 as <-. vm_compute. left. reflexivity.
Qed.

(** X11: [get_updates_per_sec] never divides by zero: it answers [0.0]
    while less than a millisecond has elapsed, and past that guard the
    divisor cannot equal zero, so the call returns a rate, or raises
    [OverflowError] when the count is beyond the floats. *)
Theorem get_updates_per_sec_safe (self : OrderBook.t) (elapsed : float) :
  ((elapsed <? 0.001) = true -> OrderBook.get_updates_per_sec self elapsed = Ok 0)
  /\ ((exists rate, OrderBook.get_updates_per_sec self elapsed = Ok rate)
      \/ OrderBook.get_updates_per_sec self elapsed = Raise OverflowError).
Proof.
  unfold OrderBook.get_updates_per_sec.
  destruct (elapsed <? 0.001) eqn:Hguard.
  - split; [reflexivity | left; eauto].
  - split; [discriminate|].
    unfold PyFloat.of_int.
    destruct (binary_normalize prec emax (OrderBook._update_count self) 0 false);
      cbn [bind]; try (now right);
      unfold PyFloat.truediv;
      (destruct (elapsed =? 0) eqn:Hz;
       [apply zero_below_millisecond in Hz; congruence | left; eauto]).
Qed.

(** ** The traded volumes *)

(** A lookup does not tell apart two probes that compare equal. *)
Lemma fget_equiv (V : Type) (d : fdict V) (k k' : float) :
  (k =? k') = true -> fget d k = fget d k'.
Proof.
  intros E. unfold fget. induction d as [|[k0 v0] d IH]; simpl; [reflexivity|].
  rewrite IH. replace (k0 =? k') with (k0 =? k); [reflexivity|].
  rewrite (feqb_sym k0 k), (feqb_sym k0 k').
  exact (@keq_left float PrimFloat.eqb feqb_sym feqb_trans k k' k0 E).
Qed.

Lemma fget_default_equiv (V : Type) (d : fdict V) (k k' : float) (dflt : V) :
  (k =? k') = true -> fget_default d k dflt = fget_default d k' dflt.
Proof.
  intros E. unfold fget_default, PyDict.get_default.
  fold (fget d k). fold (fget d k'). now rewrite (fget_equiv d E).
Qed.

Lemma fget_default_setitem (V : Type) (d : fdict V) (k0 k : float) (v dflt : V) :
  fget_default (fsetitem d k0 v) k dflt
  = if k0 =? k then v else fget_default d k dflt.
Proof.
  unfold fget_default, PyDict.get_default, fsetitem.
  rewrite (@get_setitem _ _ _ feqb_sym feqb_trans). now destruct (k0 =? k).
Qed.

Lemma subtract_uniq (vol : fdict float) (bin qty : float) :
  uniq PrimFloat.eqb (PyDict.keys vol) ->
  uniq PrimFloat.eqb (PyDict.keys (FlowEngine.subtract vol bin qty)).
Proof.
  intros Hu. unfold FlowEngine.subtract.
  destruct (_ =? 0); [apply uniq_keys_pop|]; now apply uniq_keys_setitem.
Qed.

(** What the subtraction of an expired entry leaves at every bin: at the
    entry's bin the clamped difference, and no key when that equals zero;
    elsewhere what was there. *)
Lemma subtract_get (vol : fdict float) (bin qty p : float) :
  uniq PrimFloat.eqb (PyDict.keys vol) ->
  fget (FlowEngine.subtract vol bin qty) p
  = if bin =? p
    then
      let v := PyFloat.max 0 (fget_default vol bin 0 - qty) in
      if v =? 0 then None else Some v
    else fget vol p.
Proof.
  intros Hu. unfold FlowEngine.subtract. cbv zeta.
  set (v := PyFloat.max 0 (fget_default vol bin 0 - qty)).
  unfold fget, fpop, fsetitem. destruct (v =? 0).
  - rewrite (@get_pop _ _ _ feqb_sym feqb_trans) by now apply uniq_keys_setitem.
    rewrite (@get_setitem _ _ _ feqb_sym feqb_trans). now destruct (bin =? p).
  - now rewrite (@get_setitem _ _ _ feqb_sym feqb_trans).
Qed.

Lemma expire_uniq (cutoff_ms : Z) (trades : list FlowEngine.entry)
    (bv av : fdict float) :
  uniq PrimFloat.eqb (PyDict.keys bv) -> uniq PrimFloat.eqb (PyDict.keys av) ->
  uniq PrimFloat.eqb (PyDict.keys (snd (fst (FlowEngine.expire cutoff_ms trades bv av))))
  /\ uniq PrimFloat.eqb (PyDict.keys (snd (FlowEngine.expire cutoff_ms trades bv av))).
Proof.
  revert bv av. induction trades as [|[[[ts bin] qty] is_bid] rest IH];
    intros bv av Hb Ha; simpl; [now split|].
  destruct (ts <? cutoff_ms)%Z; [|now split].
  destruct is_bid; apply IH; auto using subtract_uniq.
Qed.

Lemma cleanup_expired_fields (self self' : FlowEngine.t) (now_ms : Z) :
  FlowEngine._cleanup_expired self now_ms = Ok self' ->
  exists w,
    PyFloat.to_int (FlowEngine.window_sec self * 1000) = Ok w
    /\ self' =
       FlowEngine.mk (FlowEngine.window_sec self) (FlowEngine.bin_size self)
         (fst (fst (FlowEngine.expire (now_ms - w) (FlowEngine._trades self)
                      (FlowEngine._bid_volume self) (FlowEngine._ask_volume self))))
         (snd (fst (FlowEngine.expire (now_ms - w) (FlowEngine._trades self)
                      (FlowEngine._bid_volume self) (FlowEngine._ask_volume self))))
         (snd (FlowEngine.expire (now_ms - w) (FlowEngine._trades self)
                 (FlowEngine._bid_volume self) (FlowEngine._ask_volume self)))
         (FlowEngine._last_cleanup_time self) (FlowEngine._cleanup_interval self).
Proof.
  unfold FlowEngine._cleanup_expired.
  destruct (PyFloat.to_int _) as [w|e]; cbn [bind]; [|discriminate].
  destruct (FlowEngine.expire _ _ _ _) as [[trades bv] av] eqn:E.
  intros H. injection H as <-. exists w. rewrite E. split; reflexivity.
Qed.

Lemma cleanup_expired_uniq (self self' : FlowEngine.t) (now_ms : Z) :
  FlowEngine._cleanup_expired self now_ms = Ok self' ->
  uniq PrimFloat.eqb (PyDict.keys (FlowEngine._bid_volume self)) ->
  uniq PrimFloat.eqb (PyDict.keys (FlowEngine._ask_volume self)) ->
  uniq PrimFloat.eqb (PyDict.keys (FlowEngine._bid_volume self'))
  /\ uniq PrimFloat.eqb (PyDict.keys (FlowEngine._ask_volume self')).
Proof.
  intros H Hb Ha. apply cleanup_expired_fields in H. destruct H as (w & _ & ->).
  cbn [FlowEngine._bid_volume FlowEngine._ask_volume]. now apply expire_uniq.
Qed.

(** What [process_trade] does before its clean-up. *)
Lemma process_trade_steps (self : FlowEngine.t) (trade : Trade) (now : float)
    (bin : float) :
  FlowEngine._price_to_bin self (trade_price trade) = Ok bin ->
  let is_bid := negb (is_buyer_maker trade) in
  let recorded :=
    FlowEngine.mk (FlowEngine.window_sec self) (FlowEngine.bin_size self)
      (FlowEngine._trades self ++ [(timestamp_ms trade, bin, trade_qty trade, is_bid)])
      (if is_bid
       then fsetitem (FlowEngine._bid_volume self) bin
              (fget_default (FlowEngine._bid_volume self) bin 0 + trade_qty trade)
       else FlowEngine._bid_volume self)
      (if is_bid
       then FlowEngine._ask_volume self
       else fsetitem (FlowEngine._ask_volume self) bin
              (fget_default (FlowEngine._ask_volume self) bin 0 + trade_qty trade))
      (FlowEngine._last_cleanup_time self) (FlowEngine._cleanup_interval self) in
  FlowEngine.process_trade self trade now
  = if FlowEngine._cleanup_interval self <? now - FlowEngine._last_cleanup_time self
    then
      cleaned <- FlowEngine._cleanup_expired recorded (timestamp_ms trade) ;;
      Ok (FlowEngine.set_last_cleanup_time cleaned now)
    else Ok recorded.
Proof.
  intros Hbin is_bid recorded. unfold FlowEngine.process_trade. rewrite Hbin.
  reflexivity.
Qed.

Lemma flow_reachable_uniq (self : FlowEngine.t) :
  flow_reachable self ->
  uniq PrimFloat.eqb (PyDict.keys (FlowEngine._bid_volume self))
  /\ uniq PrimFloat.eqb (PyDict.keys (FlowEngine._ask_volume self)).
Proof.
  induction 1 as [bin_size window_sec | self trade now self' _ IH Htrade
                 | self now_ms self' _ IH Hclean | self _ _].
  - split; constructor.
  - destruct IH as [Hb Ha].
    destruct (FlowEngine._price_to_bin self (trade_price trade)) as [bin|e] eqn:Hbin;
      [|unfold FlowEngine.process_trade in Htrade; rewrite Hbin in Htrade; discriminate].
    rewrite (@process_trade_steps self trade now bin Hbin) in Htrade. cbv zeta in Htrade.
    set (recorded := FlowEngine.mk _ _ _ _ _ _ _) in Htrade.
    assert (Hrec : uniq PrimFloat.eqb (PyDict.keys (FlowEngine._bid_volume recorded))
                   /\ uniq PrimFloat.eqb (PyDict.keys (FlowEngine._ask_volume recorded))).
    { unfold recorded. cbn [FlowEngine._bid_volume FlowEngine._ask_volume].
      destruct (negb (is_buyer_maker trade)); split; trivial;
        now apply uniq_keys_setitem. }
    destruct (_ <? _).
    + destruct (FlowEngine._cleanup_expired recorded (timestamp_ms trade))
        as [cleaned|e] eqn:Hc; cbn [bind] in Htrade; [|discriminate].
      injection Htrade as <-.
      cbn [FlowEngine.set_last_cleanup_time FlowEngine._bid_volume
           FlowEngine._ask_volume].
      destruct Hrec. eapply cleanup_expired_uniq; eassumption.
    + injection Htrade as <-. exact Hrec.
  - destruct IH. eapply cleanup_expired_uniq; eassumption.
  - split; constructor.
Qed.

Lemma price_to_bin_zero (self : FlowEngine.t) (price : float) :
  (FlowEngine.bin_size self =? 0) = true ->
  FlowEngine._price_to_bin self price = Raise ZeroDivisionError.
Proof.
  intros H. unfold FlowEngine._price_to_bin, PyFloat.floordiv. now rewrite H.
Qed.

Lemma price_to_bin_ok (self : FlowEngine.t) (price : float) :
  (FlowEngine.bin_size self =? 0) = false ->
  exists bin, FlowEngine._price_to_bin self price = Ok bin.
Proof.
  intros H. unfold FlowEngine._price_to_bin, PyFloat.floordiv. rewrite H.
  destruct (PyFloat.truthy _); cbn [bind]; eauto.
Qed.

Lemma cleanup_expired_raises (self : FlowEngine.t) (now_ms : Z) (e : exn) :
  FlowEngine._cleanup_expired self now_ms = Raise e ->
  e = ValueError \/ e = OverflowError.
Proof.
  unfold FlowEngine._cleanup_expired, PyFloat.to_int.
  destruct (Prim2SF (FlowEngine.window_sec self * 1000)); cbn [bind];
    try (intros H; injection H as <-; auto);
    destruct (FlowEngine.expire _ _ _ _) as [[trades bv] av]; discriminate.
Qed.

(** X12: [process_trade] raises [ZeroDivisionError] exactly when the
    engine's bin size equals zero, and then for every trade. *)
Theorem process_trade_zero_division
    (self : FlowEngine.t) (trade : Trade) (now : float) :
  FlowEngine.process_trade self trade now = Raise ZeroDivisionError
  <-> (FlowEngine.bin_size self =? 0) = true.
Proof.
  destruct (FlowEngine.bin_size self =? 0) eqn:Hbs.
  - split; [reflexivity|]. intros _. unfold FlowEngine.process_trade.
    now rewrite price_to_bin_zero.
  - split; [|discriminate]. intros H. exfalso.
    destruct (price_to_bin_ok self (trade_price trade) Hbs) as [bin Hbin].
    rewrite (@process_trade_steps self trade now bin Hbin) in H. cbv zeta in H.
    destruct (_ <? _); [|discriminate].
    destruct (FlowEngine._cleanup_expired _ _) as [cleaned|e] eqn:Hc; cbn [bind] in H;
      [discriminate|].
    apply cleanup_expired_raises in Hc. injection H as ->.
    destruct Hc; discriminate.
Qed.

(** X13: a trade whose call runs no clean-up is recorded once.  The
    history grows by the entry of the trade, at the end; the volume of the
    trade's bin grows by the quantity on the aggressor's side (the bid
    side unless the buyer is the maker) and the other side is untouched;
    at every other bin both volumes are what they were. *)
Theorem process_trade_records
    (self : FlowEngine.t) (trade : Trade) (now : float) (bin : float) :
  FlowEngine._price_to_bin self (trade_price trade) = Ok bin ->
  (FlowEngine._cleanup_interval self <? now - FlowEngine._last_cleanup_time self)
  = false ->
  exists self',
    FlowEngine.process_trade self trade now = Ok self'
    /\ FlowEngine._trades self'
       = FlowEngine._trades self
         ++ [(timestamp_ms trade, bin, trade_qty trade, negb (is_buyer_maker trade))]
    /\ forall p,
         FlowEngine.get_flow_at_bin self' p
         = let '(bid, ask, _) := FlowEngine.get_flow_at_bin self p in
           if bin =? p
           then
             if is_buyer_maker trade
             then (bid, ask + trade_qty trade, bid - (ask + trade_qty trade))
             else (bid + trade_qty trade, ask, bid + trade_qty trade - ask)
           else (bid, ask, bid - ask).
Proof.
  intros Hbin Hdue. rewrite (@process_trade_steps self trade now bin Hbin).
  cbv zeta. rewrite Hdue. eexists. split; [reflexivity|].
  cbn [FlowEngine._trades]. split; [reflexivity|].
  intros p. unfold FlowEngine.get_flow_at_bin.
  cbn [FlowEngine._bid_volume FlowEngine._ask_volume].
  destruct (is_buyer_maker trade); cbn [negb];
    rewrite fget_default_setitem;
    destruct (bin =? p) eqn:E; try reflexivity;
    now rewrite (fget_default_equiv _ 0 E).
Qed.

Lemma process_trade_records_witness :
  let flows := FlowEngine.__init__ 1 60 in
  exists flows',
    FlowEngine.process_trade flows (mkTrade 100.25 2 true 1000) 0.5 = Ok flows'
    /\ FlowEngine._trades flows' = [(1000%Z, 100.5, 2, false)]
    /\ FlowEngine.get_flow_at_bin flows' 100.5 = (0, 2, -2).
Proof.
  intros flows.
  assert (Hbin : FlowEngine._price_to_bin flows (trade_price (mkTrade 100.25 2 true 1000))
                 = Ok 100.5) by (vm_compute; reflexivity).
  assert (Hdue : (FlowEngine._cleanup_interval flows
                  <? 0.5 - FlowEngine._last_cleanup_time flows) = false)
    by reflexivity.
  destruct (@process_trade_records flows (mkTrade 100.25 2 true 1000) 0.5 100.5 Hbin Hdue)
    as (flows' & Hok & Htrades & Hflow).
  exists flows'. split; [exact Hok|]. split; [exact Htrades|].
  rewrite (Hflow 100.5). vm_compute. reflexivity.
Defined.

(** ** The clean-up *)

(** The loop evicts from the front and stops at the first entry that is
    not older than the cut-off. *)
Lemma expire_prefix (cutoff_ms : Z) (trades : list FlowEngine.entry)
    (bv av : fdict float) :
  exists evicted,
    trades = evicted ++ fst (fst (FlowEngine.expire cutoff_ms trades bv av))
    /\ Forall (fun e => (entry_time e < cutoff_ms)%Z) evicted
    /\ match fst (fst (FlowEngine.expire cutoff_ms trades bv av)) with
       | [] => True
       | e :: _ => (cutoff_ms <= entry_time e)%Z
       end.
Proof.
  revert bv av. induction trades as [|[[[ts bin] qty] is_bid] rest IH]; intros bv av.
  - exists []. simpl. auto.
  - cbn [FlowEngine.expire]. destruct (Z.ltb_spec ts cutoff_ms) as [Hold | Hnew].
    + destruct is_bid;
        [destruct (IH (FlowEngine.subtract bv bin qty) av) as (ev & Heq & Hev & Hhd)
        |destruct (IH bv (FlowEngine.subtract av bin qty)) as (ev & Heq & Hev & Hhd)];
        (eexists (_ :: ev); split; [cbn [app]; f_equal; exact Heq|];
         split; [constructor; [exact Hold | exact Hev] | exact Hhd]).
    + exists []. cbn [fst app]. split; [reflexivity|]. split; [constructor|].
      exact Hnew.
Qed.

(** X14: the clean-up evicts a front part of the history and nothing
    else: every evicted entry is older than the cut-off
    [now_ms - int(window_sec * 1000)], the entries kept stay in order, and
    the first of them is not older than the cut-off.  On a history in
    non-decreasing time order no entry kept is older than the cut-off; an
    old entry behind a newer one stays until that one expires. *)
Theorem cleanup_evicts_old_front
    (self self' : FlowEngine.t) (now_ms w : Z) :
  PyFloat.to_int (FlowEngine.window_sec self * 1000) = Ok w ->
  FlowEngine._cleanup_expired self now_ms = Ok self' ->
  (exists evicted,
     FlowEngine._trades self = evicted ++ FlowEngine._trades self'
     /\ Forall (fun e => (entry_time e < now_ms - w)%Z) evicted
     /\ match FlowEngine._trades self' with
        | [] => True
        | e :: _ => (now_ms - w <= entry_time e)%Z
        end)
  /\ (StronglySorted (fun a b => (entry_time a <= entry_time b)%Z)
        (FlowEngine._trades self) ->
      Forall (fun e => (now_ms - w <= entry_time e)%Z) (FlowEngine._trades self')).
Proof.
  intros Hw Hclean. split.
  - destruct (cleanup_expired_fields _ _ Hclean) as (w' & Hw' & ->).
    rewrite Hw in Hw'. injection Hw' as <-. cbn [FlowEngine._trades].
    apply expire_prefix.
  - intros Hs. rewrite (@cleanup_expired_history self self' now_ms w Hs Hw Hclean).
    apply Forall_forall. intros e He. apply filter_In in He.
    destruct He as [_ He]. now apply Z.leb_le.
Qed.

Lemma cleanup_evicts_old_front_witness :
  let flows :=
    FlowEngine.mk 60 1 [(1000%Z, 100.5, 1, true); (70000%Z, 100.5, 2, true);
                        (2000%Z, 101.5, 3, false)]
      [(100.5, 3)] [(101.5, 3)] 0 1 in
  let flows' :=
    FlowEngine.mk 60 1 [(70000%Z, 100.5, 2, true); (2000%Z, 101.5, 3, false)]
      [(100.5, 2)] [(101.5, 3)] 0 1 in
  FlowEngine._cleanup_expired flows 70000 = Ok flows'
  /\ exists evicted,
       FlowEngine._trades flows = evicted ++ FlowEngine._trades flows'
       /\ Forall (fun e => (entry_time e < 10000)%Z) evicted.
Proof.
  intros flows flows'.
  assert (Hw : PyFloat.to_int (FlowEngine.window_sec flows * 1000) = Ok 60000%Z)
    by (vm_compute; reflexivity).
  assert (Hclean : FlowEngine._cleanup_expired flows 70000 = Ok flows')
    by (vm_compute; reflexivity).
  split; [exact Hclean|].
  destruct (proj1 (@cleanup_evicts_old_front flows flows' 70000 60000 Hw Hclean))
    as (evicted & Heq & Hev & _).
  exists evicted. split; [exact Heq | exact Hev].
Defined.

Lemma in_pop_setitem (K V : Type) (keq : K -> K -> bool) (d : PyDict.dict K V)
    (k : K) (v : V) (e : K * V) :
  keq k k = true -> In e (PyDict.pop keq (PyDict.setitem keq d k v) k) -> In e d.
Proof.
  intros Hk. induction d as [|[k' v'] d IH]; cbn [PyDict.setitem PyDict.pop].
  - now rewrite Hk.
  - destruct (keq k' k) eqn:E; cbn [PyDict.pop]; rewrite E.
    + intros H. now right.
    + intros [<- | H]; [now left | right; now apply IH].
Qed.

(** The clamp is zero or above zero. *)
Lemma max_zero_positive (x : float) :
  (PyFloat.max 0 x =? 0) = false -> (0 <? PyFloat.max 0 x) = true.
Proof.
  unfold PyFloat.max. destruct (0 <? x) eqn:Hpos; [intros _; exact Hpos|].
  intros H. vm_compute in H. discriminate H.
Qed.

(** An entry the subtraction leaves in the map was there before, or holds
    a volume above zero. *)
Lemma subtract_in (vol : fdict float) (bin qty : float) (e : float * float) :
  (bin =? bin) = true ->
  In e (FlowEngine.subtract vol bin qty) -> In e vol \/ (0 <? snd e) = true.
Proof.
  intros Hbin. unfold FlowEngine.subtract. cbv zeta.
  destruct (PyFloat.max 0 (fget_default vol bin 0 - qty) =? 0) eqn:Hv.
  - intros H. left. exact (@in_pop_setitem _ _ _ _ _ _ _ Hbin H).
  - intros H. destruct (@in_setitem _ _ _ _ _ _ _ H) as [H' | H']; [|now left].
    right. rewrite H'. now apply max_zero_positive.
Qed.

(** What the loop leaves in the two maps. *)
Lemma expire_stored (cutoff_ms : Z) (trades : list FlowEngine.entry)
    (bv av : fdict float) :
  uniq PrimFloat.eqb (PyDict.keys bv) -> uniq PrimFloat.eqb (PyDict.keys av) ->
  Forall (fun e => (entry_bin e =? entry_bin e) = true) trades ->
  let rest := fst (fst (FlowEngine.expire cutoff_ms trades bv av)) in
  let bv' := snd (fst (FlowEngine.expire cutoff_ms trades bv av)) in
  let av' := snd (FlowEngine.expire cutoff_ms trades bv av) in
  exists evicted,
    trades = evicted ++ rest
    /\ (forall p,
          (if touches true p evicted
           then fget bv' p = None
                \/ exists v, fget bv' p = Some v /\ (0 <? v) = true
           else fget bv' p = fget bv p)
          /\ (if touches false p evicted
              then fget av' p = None
                   \/ exists v, fget av' p = Some v /\ (0 <? v) = true
              else fget av' p = fget av p))
    /\ Forall (fun e => In e bv \/ (0 <? snd e) = true) bv'
    /\ Forall (fun e => In e av \/ (0 <? snd e) = true) av'.
Proof.
  revert bv av. induction trades as [|[[[ts bin] qty] is_bid] trades IH];
    intros bv av Hb Ha Hbins; cbv zeta.
  - exists []. cbn [FlowEngine.expire fst snd app touches existsb].
    split; [reflexivity|]. split; [intros p; split; reflexivity|].
    split; apply Forall_forall; intros e He; now left.
  - cbn [FlowEngine.expire]. destruct (ts <? cutoff_ms)%Z.
    2:{ exists []. cbn [fst snd app touches existsb].
        split; [reflexivity|]. split; [intros p; split; reflexivity|].
        split; apply Forall_forall; intros e He; now left. }
    inversion Hbins as [|e0 l0 Hbin Hrest]; subst.
    unfold entry_bin in Hbin. cbn [fst snd] in Hbin.
    destruct is_bid.
    + destruct (IH (FlowEngine.subtract bv bin qty) av
                  (@subtract_uniq bv bin qty Hb) Ha Hrest)
        as (evicted & Heq & Hp & Hfb & Hfa).
      exists ((ts, bin, qty, true) :: evicted).
      split; [cbn [app]; f_equal; exact Heq|].
      split; [|split; [|exact Hfa]].
      * intros p. destruct (Hp p) as [Hpb Hpa].
        cbn [touches existsb]. fold (touches true p evicted).
        fold (touches false p evicted).
        unfold entry_is_bid, entry_bin. cbn [fst snd Bool.eqb andb orb].
        split; [|exact Hpa].
        destruct (touches true p evicted); [rewrite orb_true_r; exact Hpb|].
        rewrite orb_false_r, Hpb, (@subtract_get bv bin qty p Hb). cbv zeta.
        destruct (bin =? p); [|reflexivity].
        destruct (PyFloat.max 0 (fget_default bv bin 0 - qty) =? 0) eqn:Hv;
          [now left|].
        right. eexists. split; [reflexivity|]. now apply max_zero_positive.
      * apply Forall_forall. intros e He.
        destruct (proj1 (Forall_forall _ _) Hfb e He) as [H | H]; [|now right].
        exact (@subtract_in bv bin qty e Hbin H).
    + destruct (IH bv (FlowEngine.subtract av bin qty) Hb
                  (@subtract_uniq av bin qty Ha) Hrest)
        as (evicted & Heq & Hp & Hfb & Hfa).
      exists ((ts, bin, qty, false) :: evicted).
      split; [cbn [app]; f_equal; exact Heq|].
      split; [|split; [exact Hfb|]].
      * intros p. destruct (Hp p) as [Hpb Hpa].
        cbn [touches existsb]. fold (touches true p evicted).
        fold (touches false p evicted).
        unfold entry_is_bid, entry_bin. cbn [fst snd Bool.eqb andb orb].
        split; [exact Hpb|].
        destruct (touches false p evicted); [rewrite orb_true_r; exact Hpa|].
        rewrite orb_false_r, Hpa, (@subtract_get av bin qty p Ha). cbv zeta.
        destruct (bin =? p); [|reflexivity].
        destruct (PyFloat.max 0 (fget_default av bin 0 - qty) =? 0) eqn:Hv;
          [now left|].
        right. eexists. split; [reflexivity|]. now apply max_zero_positive.
      * apply Forall_forall. intros e He.
        destruct (proj1 (Forall_forall _ _) Hfa e He) as [H | H]; [|now right].
        exact (@subtract_in av bin qty e Hbin H).
Qed.

(** X15: the clean-up never stores a zero or a negative volume.  On a
    reachable engine whose history holds no NaN bin, [_cleanup_expired]
    evicts a front part of the history, and in the two dictionaries it
    leaves: a bin of an evicted entry of the side has no key, or holds a
    volume above zero; at every other bin the side's dictionary answers as
    before; and every stored item was stored before the clean-up or holds a
    volume above zero.  So the clamp [max(0.0, ...)] keeps what the clean-up
    writes from going below zero, and a key whose volume comes to zero is
    removed, not kept with [0.0]. *)
Theorem cleanup_volume_sign (self self' : FlowEngine.t) (now_ms : Z) :
  flow_reachable self ->
  Forall (fun e => (entry_bin e =? entry_bin e) = true) (FlowEngine._trades self) ->
  FlowEngine._cleanup_expired self now_ms = Ok self' ->
  exists evicted,
    FlowEngine._trades self = evicted ++ FlowEngine._trades self'
    /\ (forall p,
          (if touches true p evicted
           then fget (FlowEngine._bid_volume self') p = None
                \/ exists v, fget (FlowEngine._bid_volume self') p = Some v
                             /\ (0 <? v) = true
           else fget (FlowEngine._bid_volume self') p
                = fget (FlowEngine._bid_volume self) p)
          /\ (if touches false p evicted
              then fget (FlowEngine._ask_volume self') p = None
                   \/ exists v, fget (FlowEngine._ask_volume self') p = Some v
                                /\ (0 <? v) = true
              else fget (FlowEngine._ask_volume self') p
                   = fget (FlowEngine._ask_volume self) p))
    /\ Forall (fun item => In item (FlowEngine._bid_volume self)
                           \/ (0 <? snd item) = true)
         (FlowEngine._bid_volume self')
    /\ Forall (fun item => In item (FlowEngine._ask_volume self)
                           \/ (0 <? snd item) = true)
         (FlowEngine._ask_volume self').
Proof.
  intros Hreach Hbins Hclean. destruct (flow_reachable_uniq Hreach) as [Hb Ha].
  destruct (cleanup_expired_fields _ _ Hclean) as (w & _ & ->).
  cbn [FlowEngine._trades FlowEngine._bid_volume FlowEngine._ask_volume].
  exact (@expire_stored (now_ms - w) (FlowEngine._trades self) _ _ Hb Ha Hbins).
Qed.

Lemma cleanup_volume_sign_witness :
  let flows :=
    FlowEngine.mk 60 1
      [(0%Z, 100.5, 0.1, true); (0%Z, 100.5, 0.2, true); (0%Z, 101.5, 1, false)]
      [(100.5, 0.1 + 0.2)] [(101.5, 1)] 0 1 in
  flow_reachable flows
  /\ FlowEngine._cleanup_expired flows 60001
     = Ok (FlowEngine.mk 60 1 [] [(100.5, 0x1p-55)] [] 0 1)
  /\ exists flows',
       FlowEngine._cleanup_expired flows 60001 = Ok flows'
       /\ (exists v, fget (FlowEngine._bid_volume flows') 100.5 = Some v
                     /\ (0 <? v) = true)
       /\ fget (FlowEngine._ask_volume flows') 101.5 = None
       /\ Forall (fun item => (0 <? snd item) = true) (FlowEngine._bid_volume flows').
Proof.
  intros flows.
  assert (Hreach : flow_reachable flows).
  { apply flow_trade with
      (self := FlowEngine.mk 60 1 [(0%Z, 100.5, 0.1, true); (0%Z, 100.5, 0.2, true)]
                 [(100.5, 0.1 + 0.2)] [] 0 1)
      (trade := mkTrade 101 1 true 0) (now := 0.7); [|vm_compute; reflexivity].
    apply flow_trade with
      (self := FlowEngine.mk 60 1 [(0%Z, 100.5, 0.1, true)] [(100.5, 0.1)] [] 0 1)
      (trade := mkTrade 100 0.2 false 0) (now := 0.6); [|vm_compute; reflexivity].
    apply flow_trade with (self := FlowEngine.__init__ 1 60)
      (trade := mkTrade 100 0.1 false 0) (now := 0.5); [|vm_compute; reflexivity].
    apply flow_init. }
  assert (Hbins : Forall (fun e => (entry_bin e =? entry_bin e) = true)
                    (FlowEngine._trades flows)).
  { repeat constructor. }
  assert (Hclean : FlowEngine._cleanup_expired flows 60001
                   = Ok (FlowEngine.mk 60 1 [] [(100.5, 0x1p-55)] [] 0 1))
    by (vm_compute; reflexivity).
  split; [exact Hreach|]. split; [exact Hclean|].
  eexists. split; [exact Hclean|].
  destruct (@cleanup_volume_sign flows _ 60001 Hreach Hbins Hclean)
    as (evicted & Heq & Hp & Hfb & _).
  cbn [FlowEngine._trades FlowEngine._bid_volume FlowEngine._ask_volume] in *.
  rewrite app_nil_r in Heq. subst evicted.
  destruct (Hp 100.5) as [Hbid _]. destruct (Hp 101.5) as [_ Hask].
  assert (Htb : touches true 100.5 (FlowEngine._trades flows) = true)
    by (vm_compute; reflexivity).
  assert (Hta : touches false 101.5 (FlowEngine._trades flows) = true)
    by (vm_compute; reflexivity).
  rewrite Htb in Hbid. rewrite Hta in Hask.
  split; [|split].
  - destruct Hbid as [Hnone | Hsome]; [vm_compute in Hnone; discriminate Hnone|].
    exact Hsome.
  - destruct Hask as [Hnone | (v & Hsome & _)]; [exact Hnone|].
    vm_compute in Hsome. discriminate Hsome.
  - apply Forall_forall. intros item Hin.
    destruct (proj1 (Forall_forall _ _) Hfb item Hin) as [Hold | Hpos]; [|exact Hpos].
    destruct Hin as [<- | []]. destruct Hold as [Hold | []].
    apply (f_equal (fun item => snd item =? 0x1p-55)) in Hold.
    vm_compute in Hold. discriminate Hold.
Defined.

(** ** Merging the flows into the ladder *)

(** X16: [merge_with_book] returns one row a level, in the order of the
    levels, with the level's price and resting quantities untouched; the
    traded volumes and the delta of a row are those [get_flow_at_bin]
    reports for its price, the delta being the bid-traded less the
    ask-traded volume. *)
Theorem merge_with_book_rows (self : FlowEngine.t) (binned : list BinnedLevel) :
  let rows := FlowEngine.merge_with_book self binned in
  List.length rows = List.length binned
  /\ map price rows = map bin_price binned
  /\ map bid_resting_qty rows = map bid_qty binned
  /\ map ask_resting_qty rows = map ask_qty binned
  /\ Forall (fun row =>
               (bid_traded_qty row, ask_traded_qty row, delta_qty row)
               = FlowEngine.get_flow_at_bin self (price row)
               /\ delta_qty row = bid_traded_qty row - ask_traded_qty row) rows.
Proof.
  intros rows. subst rows. unfold FlowEngine.merge_with_book.
  split; [apply length_map|].
  rewrite !map_map. cbn [price bid_resting_qty ask_resting_qty].
  split; [reflexivity|]. split; [reflexivity|]. split; [reflexivity|].
  apply Forall_map, Forall_forall. intros level _. split; reflexivity.
Qed.

(** ** The client *)

Lemma replay_reachable (us : list OrderBook.update_data) (ob : OrderBook.t) :
  reachable ob ->
  reachable (fold_left (fun ob u => snd (OrderBook.apply_update ob u)) us ob).
Proof.
  revert ob. induction us as [|u us IH]; intros ob Hob; simpl; [assumption|].
  apply IH. now apply reach_apply.
Qed.

Lemma build_snapshot_leaves (self : BinanceClient.t) (wall_ms : Z) :
  snd (BinanceClient.build_snapshot self wall_ms)
  = OrderBook._ensure_sorted (BinanceClient.orderbook self).
Proof.
  unfold BinanceClient.build_snapshot.
  pose proof (get_binned_ladder_leaves (BinanceClient.orderbook self)
                (BinanceClient.bin_size self) (BinanceClient.levels self)) as H.
  destruct (OrderBook.get_binned_ladder _ _ _) as [[binned|e] ob]; cbn [snd] in *;
    [|exact H].
  subst ob.
  unfold OrderBook.mid_price, OrderBook.best_bid, OrderBook.best_ask. cbn [snd].
  now rewrite !ensure_sorted_idem.
Qed.

(** What a call of [_maybe_push_snapshot] can change. *)
Lemma maybe_push_snapshot_fields (self : BinanceClient.t) (now : float) (wall_ms : Z)
    (k1 k2 : nat) :
  let self' := fst (BinanceClient._maybe_push_snapshot self now wall_ms k1 k2) in
  BinanceClient.symbol self' = BinanceClient.symbol self
  /\ BinanceClient.bin_size self' = BinanceClient.bin_size self
  /\ BinanceClient.levels self' = BinanceClient.levels self
  /\ BinanceClient.snapshot_interval_ms self' = BinanceClient.snapshot_interval_ms self
  /\ BinanceClient.flows self' = BinanceClient.flows self
  /\ BinanceClient._snapshot_loaded self' = BinanceClient._snapshot_loaded self
  /\ BinanceClient._buffered_updates self' = BinanceClient._buffered_updates self
  /\ BinanceClient._update_count self' = BinanceClient._update_count self
  /\ (BinanceClient.orderbook self' = BinanceClient.orderbook self
      \/ BinanceClient.orderbook self'
         = OrderBook._ensure_sorted (BinanceClient.orderbook self))
  /\ (BinanceClient._update_count_last self' = BinanceClient._update_count_last self
      \/ BinanceClient._update_count_last self' = BinanceClient._update_count self)
  /\ (PyFloat.lt_int ((now - BinanceClient._last_snapshot_time self) * 1000)
        (BinanceClient.snapshot_interval_ms self) = true -> self' = self)
  /\ (PyFloat.lt_int ((now - BinanceClient._last_snapshot_time self) * 1000)
        (BinanceClient.snapshot_interval_ms self) = false ->
      BinanceClient._last_snapshot_time self' = now).
Proof.
  intros self'. subst self'. unfold BinanceClient._maybe_push_snapshot.
  destruct (PyFloat.lt_int _ (BinanceClient.snapshot_interval_ms self)).
  { cbn [fst]. repeat split; auto; discriminate. }
  destruct (1 <=? now - BinanceClient._rate_calc_time self);
    destruct (PyFloat.of_int
                (BinanceClient._update_count self
                 - BinanceClient._update_count_last self)%Z);
    cbn [fst];
    try match goal with
    | |- context [BinanceClient.build_snapshot ?c ?w] =>
        pose proof (build_snapshot_leaves c w) as Hob;
        destruct (BinanceClient.build_snapshot c w) as [[snapshot|err] ob];
        cbn [snd BinanceClient.orderbook BinanceClient.with_push] in Hob; subst ob
    end;
    cbn [fst BinanceClient.with_push BinanceClient.symbol BinanceClient.bin_size
         BinanceClient.levels BinanceClient.snapshot_interval_ms BinanceClient.flows
         BinanceClient._snapshot_loaded BinanceClient._buffered_updates
         BinanceClient._update_count BinanceClient.orderbook
         BinanceClient._update_count_last BinanceClient._last_snapshot_time];
    repeat split; auto; discriminate.
Qed.

Lemma process_trade_bin_size (self self' : FlowEngine.t) (trade : Trade) (now : float) :
  FlowEngine.process_trade self trade now = Ok self' ->
  FlowEngine.bin_size self' = FlowEngine.bin_size self.
Proof.
  intros H.
  destruct (FlowEngine._price_to_bin self (trade_price trade)) as [bin|e] eqn:Hbin;
    [|unfold FlowEngine.process_trade in H; rewrite Hbin in H; discriminate].
  rewrite (@process_trade_steps self trade now bin Hbin) in H. cbv zeta in H.
  destruct (_ <? _).
  - destruct (FlowEngine._cleanup_expired _ _) as [cleaned|e] eqn:Hc; cbn [bind] in H;
      [|discriminate].
    injection H as <-. apply cleanup_expired_fields in Hc. destruct Hc as (w & _ & ->).
    reflexivity.
  - injection H as <-. reflexivity.
Qed.

Lemma taken_bound (A : Type) (q : Queue.t A) (k : nat) :
  Queue.maxsize (Queue.taken k q) = Queue.maxsize q
  /\ (Queue.qsize (Queue.taken k q) <= Queue.qsize q)%Z.
Proof.
  unfold Queue.taken, Queue.qsize. cbn [Queue.maxsize Queue.items].
  split; [reflexivity|]. rewrite length_skipn. lia.
Qed.

(** X17: what holds of a client all along.  From the constructor on,
    through the start of [run], every message, every publication and every
    take of the renderer: the queue has capacity 5 and never holds more
    than 5 artifacts; the book and the flow engine are reachable ones, so
    that what is proved of those holds of the client's; the flow engine
    bins prices with the client's bin size, by the formula the ladder
    uses; and the count the rate is measured from is never ahead of the
    count of updates. *)
Theorem client_invariants (self : BinanceClient.t) :
  client_reachable self ->
  Queue.maxsize (BinanceClient.snapshot_queue self) = 5%Z
  /\ (Queue.qsize (BinanceClient.snapshot_queue self) <= 5)%Z
  /\ reachable (BinanceClient.orderbook self)
  /\ flow_reachable (BinanceClient.flows self)
  /\ (forall p, FlowEngine._price_to_bin (BinanceClient.flows self) p
                = OrderBook.bin_center_of p (BinanceClient.bin_size self))
  /\ (BinanceClient._update_count_last self <= BinanceClient._update_count self)%Z.
Proof.
  assert (Hbin : forall fl bs, FlowEngine.bin_size fl = bs ->
                   forall p, FlowEngine._price_to_bin fl p = OrderBook.bin_center_of p bs).
  { intros fl bs <- p. reflexivity. }
  assert (Hinv : client_reachable self ->
            Queue.maxsize (BinanceClient.snapshot_queue self) = 5%Z
            /\ (Queue.qsize (BinanceClient.snapshot_queue self) <= 5)%Z
            /\ reachable (BinanceClient.orderbook self)
            /\ flow_reachable (BinanceClient.flows self)
            /\ FlowEngine.bin_size (BinanceClient.flows self) = BinanceClient.bin_size self
            /\ (BinanceClient._update_count_last self
                <= BinanceClient._update_count self)%Z).
  { induction 1 as [sym bs lv fw si rt | self data now _ IH | self data _ IH
                   | self data now self' _ IH Htrade | self now wall_ms k1 k2 _ IH
                   | self k _ IH].
    - repeat split; try reflexivity; try (vm_compute; discriminate).
      + apply reach_init.
      + apply flow_init.
    - destruct IH as (Hmax & Hsize & Hob & Hfl & Hbs & Hcnt).
      cbn [BinanceClient.run_start BinanceClient.snapshot_queue BinanceClient.orderbook
           BinanceClient.flows BinanceClient.bin_size BinanceClient._update_count
           BinanceClient._update_count_last].
      repeat split; trivial. apply replay_reachable. now apply reach_load.
    - destruct IH as (Hmax & Hsize & Hob & Hfl & Hbs & Hcnt).
      unfold BinanceClient._process_depth_update.
      destruct (negb (BinanceClient._snapshot_loaded self)).
      + repeat split; trivial.
      + pose proof (reach_apply data Hob) as Hob'.
        destruct (OrderBook.apply_update (BinanceClient.orderbook self) data)
          as [applied ob].
        cbn [BinanceClient.snapshot_queue BinanceClient.orderbook
             BinanceClient.flows BinanceClient.bin_size BinanceClient._update_count
             BinanceClient._update_count_last snd] in *.
        repeat split; trivial. destruct applied; lia.
    - destruct IH as (Hmax & Hsize & Hob & Hfl & Hbs & Hcnt).
      unfold BinanceClient._process_trade in Htrade.
      destruct (FlowEngine.process_trade _ _ _) as [fl|e] eqn:Hpt; cbn [bind] in Htrade;
        [|discriminate].
      injection Htrade as <-.
      cbn [BinanceClient.with_flows BinanceClient.snapshot_queue BinanceClient.orderbook
           BinanceClient.flows BinanceClient.bin_size BinanceClient._update_count
           BinanceClient._update_count_last].
      repeat split; trivial.
      + eapply flow_trade; eassumption.
      + now rewrite (process_trade_bin_size _ _ _ Hpt).
    - destruct IH as (Hmax & Hsize & Hob & Hfl & Hbs & Hcnt).
      destruct (maybe_push_snapshot_fields self now wall_ms k1 k2)
        as (_ & Hb & _ & _ & Hf & _ & _ & Hc & Hbook & Hlast & _).
      rewrite Hf, Hb, Hc.
      assert (Hq : Queue.maxsize
                     (BinanceClient.snapshot_queue
                        (fst (BinanceClient._maybe_push_snapshot self now wall_ms k1 k2)))
                   = 5%Z
                   /\ (Queue.qsize
                         (BinanceClient.snapshot_queue
                            (fst (BinanceClient._maybe_push_snapshot self now wall_ms
                                    k1 k2))) <= 5)%Z).
      { destruct (maybe_push_snapshot_queue self now wall_ms k1 k2) as [-> | [s ->]];
          [now split|].
        destruct (@put_drop_oldest_bound (BinanceClient.snapshot_queue self) s k1 k2)
          as [H1 H2]; [lia | lia |].
        rewrite Hmax in H1, H2. now split. }
      destruct Hq as [Hq1 Hq2].
      repeat split; trivial.
      + destruct Hbook as [-> | ->]; [assumption | now apply reach_query].
      + destruct Hlast as [-> | ->]; lia.
    - destruct IH as (Hmax & Hsize & Hob & Hfl & Hbs & Hcnt).
      cbn [BinanceClient.with_taken BinanceClient.snapshot_queue BinanceClient.orderbook
           BinanceClient.flows BinanceClient.bin_size BinanceClient._update_count
           BinanceClient._update_count_last].
      destruct (taken_bound (BinanceClient.snapshot_queue self) k) as [H1 H2].
      repeat split; trivial; try congruence; lia. }
  intros Hreach. destruct (Hinv Hreach) as (Hmax & Hsize & Hob & Hfl & Hbs & Hcnt).
  repeat split; trivial. now apply Hbin.
Qed.

Lemma client_invariants_witness :
  let client0 := BinanceClient.__init__ "BNBUSDT" 1 25 60 100 0 in
  let client1 :=
    BinanceClient.run_start client0
      (OrderBook.mkSnapshotData 1000 [(99, 5)] [(101, 3)]) 10 in
  let client2 :=
    BinanceClient._process_depth_update client1
      (OrderBook.mkUpdate (Some 1001%Z) 1001 (Some [(99.5, 2)]) (Some [])) in
  let client3 :=
    fst (BinanceClient._maybe_push_snapshot client2 11 1700000000000 0 0) in
  client_reachable client3
  /\ Queue.qsize (BinanceClient.snapshot_queue client3) = 1%Z
  /\ reachable (BinanceClient.orderbook client3).
Proof.
  intros client0 client1 client2 client3.
  assert (Hreach : client_reachable client3).
  { apply client_push, client_depth, client_start, client_init. }
  destruct (@client_invariants client3 Hreach) as (_ & _ & Hob & _).
  split; [exact Hreach|]. split; [vm_compute; reflexivity | exact Hob].
Defined.

(** ** Depth messages *)

(** X18: what a depth message counts.  Once the snapshot is loaded, a
    message that leaves a gap changes nothing in the client; any other
    message adds one to [_update_count], the count the published rate is
    measured from, also when the update is a stale one that leaves the
    book as it was. *)
Theorem depth_update_counts (self : BinanceClient.t) (data : OrderBook.update_data) :
  BinanceClient._snapshot_loaded self = true ->
  let last := OrderBook.last_update_id (BinanceClient.orderbook self) in
  let self' := BinanceClient._process_depth_update self data in
  ((last + 1 < OrderBook.first_id data)%Z -> self' = self)
  /\ ((OrderBook.first_id data <= last + 1)%Z ->
      BinanceClient._update_count self' = (BinanceClient._update_count self + 1)%Z
      /\ BinanceClient.orderbook self'
         = snd (OrderBook.apply_update (BinanceClient.orderbook self) data))
  /\ ((OrderBook.first_id data <= last + 1)%Z -> (OrderBook.upd_u data <= last)%Z ->
      BinanceClient.orderbook self' = BinanceClient.orderbook self).
Proof.
  intros Hloaded last self'. subst last self'.
  unfold BinanceClient._process_depth_update. rewrite Hloaded. cbn [negb].
  split; [|split].
  - intros Hgap. rewrite (apply_update_gap _ _ Hgap).
    destruct self. cbn in *. now subst.
  - intros Hseq.
    assert (Happ : fst (OrderBook.apply_update (BinanceClient.orderbook self) data) = true).
    { unfold OrderBook.apply_update.
      destruct (Z.ltb_spec (OrderBook.last_update_id (BinanceClient.orderbook self) + 1)
                  (OrderBook.first_id data)); [lia|].
      now destruct (_ <=? _)%Z. }
    destruct (OrderBook.apply_update (BinanceClient.orderbook self) data)
      as [applied ob]. cbn [fst snd] in *. subst applied.
    cbn [BinanceClient._update_count BinanceClient.orderbook]. now split.
  - intros Hseq Hstale. rewrite (apply_update_stale _ _ Hstale Hseq). reflexivity.
Qed.

Lemma depth_update_counts_witness :
  let client :=
    BinanceClient.run_start (BinanceClient.__init__ "BNBUSDT" 1 25 60 100 0)
      (OrderBook.mkSnapshotData 1000 [(99, 5)] [(101, 3)]) 10 in
  let stale := OrderBook.mkUpdate (Some 990%Z) 995 (Some [(99, 0)]) (Some []) in
  let client' := BinanceClient._process_depth_update client stale in
  BinanceClient._update_count client' = 1%Z
  /\ BinanceClient.orderbook client' = BinanceClient.orderbook client.
Proof.
  intros client stale client'.
  assert (Hloaded : BinanceClient._snapshot_loaded client = true) by reflexivity.
  destruct (@depth_update_counts client stale Hloaded) as (_ & Hcount & Hsame).
  split.
  - apply Hcount. vm_compute. discriminate.
  - apply Hsame; vm_compute; discriminate.
Defined.

Lemma process_depth_update_buffers (self : BinanceClient.t)
    (data : OrderBook.update_data) :
  BinanceClient._snapshot_loaded self = false ->
  let self' := BinanceClient._process_depth_update self data in
  BinanceClient._snapshot_loaded self' = false
  /\ BinanceClient._buffered_updates self' = BinanceClient._buffered_updates self ++ [data]
  /\ BinanceClient.orderbook self' = BinanceClient.orderbook self
  /\ BinanceClient._update_count self' = BinanceClient._update_count self
  /\ BinanceClient.snapshot_queue self' = BinanceClient.snapshot_queue self.
Proof.
  intros Hloaded self'. subst self'. unfold BinanceClient._process_depth_update.
  rewrite Hloaded. cbn [negb]. repeat split.
Qed.

(** X19: before the snapshot is loaded, depth messages are kept and
    nothing else happens: after any number of them the buffer holds them
    behind what it held, in arrival order, the book and the update count
    are untouched and the client is still waiting for its snapshot. *)
Theorem depth_updates_buffered
    (self : BinanceClient.t) (updates : list OrderBook.update_data) :
  BinanceClient._snapshot_loaded self = false ->
  let self' := fold_left BinanceClient._process_depth_update updates self in
  BinanceClient._snapshot_loaded self' = false
  /\ BinanceClient._buffered_updates self' = BinanceClient._buffered_updates self ++ updates
  /\ BinanceClient.orderbook self' = BinanceClient.orderbook self
  /\ BinanceClient._update_count self' = BinanceClient._update_count self.
Proof.
  revert self. induction updates as [|u updates IH]; intros self Hloaded; cbv zeta.
  - simpl. rewrite app_nil_r. repeat split. exact Hloaded.
  - cbn [fold_left].
    destruct (process_depth_update_buffers self u Hloaded) as (Hl & Hbuf & Hob & Hcnt & _).
    destruct (IH _ Hl) as (Hl' & Hbuf' & Hob' & Hcnt').
    rewrite Hbuf', Hob', Hcnt', Hbuf, Hob, Hcnt, <- app_assoc. now repeat split.
Qed.

Lemma depth_updates_buffered_witness :
  let client := BinanceClient.__init__ "BNBUSDT" 1 25 60 100 0 in
  let u1 := OrderBook.mkUpdate (Some 1%Z) 2 (Some [(99, 1)]) (Some []) in
  let u2 := OrderBook.mkUpdate (Some 3%Z) 4 (Some [(98, 1)]) (Some []) in
  BinanceClient._buffered_updates
    (fold_left BinanceClient._process_depth_update [u1; u2] client) = [u1; u2].
Proof.
  intros client u1 u2.
  assert (Hloaded : BinanceClient._snapshot_loaded client = false) by reflexivity.
  destruct (@depth_updates_buffered client [u1; u2] Hloaded) as (_ & Hbuf & _).
  exact Hbuf.
Defined.

(** ** The start of [run] *)

Lemma apply_update_covered (ob : OrderBook.t) (u : OrderBook.update_data) :
  (OrderBook.upd_u u <= OrderBook.last_update_id ob)%Z ->
  snd (OrderBook.apply_update ob u) = ob.
Proof.
  intros H. unfold OrderBook.apply_update.
  destruct (_ <? _)%Z; [reflexivity|].
  destruct (Z.leb_spec (OrderBook.upd_u u) (OrderBook.last_update_id ob));
    [reflexivity | lia].
Qed.

Lemma apply_update_id (ob : OrderBook.t) (u : OrderBook.update_data) :
  (OrderBook.last_update_id ob
   <= OrderBook.last_update_id (snd (OrderBook.apply_update ob u)))%Z.
Proof.
  unfold OrderBook.apply_update.
  destruct (_ <? _)%Z; cbn [snd]; [lia|].
  destruct (Z.leb_spec (OrderBook.upd_u u) (OrderBook.last_update_id ob));
    cbn [snd OrderBook.last_update_id]; lia.
Qed.

Lemma replay_id (us : list OrderBook.update_data) (ob : OrderBook.t) :
  (OrderBook.last_update_id ob
   <= OrderBook.last_update_id
        (fold_left (fun ob u => snd (OrderBook.apply_update ob u)) us ob))%Z.
Proof.
  revert ob. induction us as [|u us IH]; intros ob; simpl; [lia|].
  pose proof (apply_update_id ob u). pose proof (IH (snd (OrderBook.apply_update ob u))).
  lia.
Qed.

Lemma replay_covered (us : list OrderBook.update_data) (ob : OrderBook.t) :
  Forall (fun u => (OrderBook.upd_u u <= OrderBook.last_update_id ob)%Z) us ->
  fold_left (fun ob u => snd (OrderBook.apply_update ob u)) us ob = ob.
Proof.
  induction 1 as [|u us Hu _ IH]; simpl; [reflexivity|].
  now rewrite apply_update_covered.
Qed.

(** X20: the start of [run].  It leaves the client loaded with an empty
    buffer; the book is the snapshot with the buffered updates applied in
    arrival order, a reachable book not behind the snapshot's
    [lastUpdateId]; buffered updates that the snapshot already covers
    change nothing; and the replayed updates are not counted in the
    client's [_update_count]. *)
Theorem run_start_replays
    (self : BinanceClient.t) (data : OrderBook.snapshot_data) (now : float) :
  let self' := BinanceClient.run_start self data now in
  let loaded := OrderBook.load_snapshot (BinanceClient.orderbook self) data in
  BinanceClient._snapshot_loaded self' = true
  /\ BinanceClient._buffered_updates self' = []
  /\ BinanceClient.orderbook self'
     = fold_left (fun ob u => snd (OrderBook.apply_update ob u))
         (BinanceClient._buffered_updates self) loaded
  /\ (OrderBook.lastUpdateId data
      <= OrderBook.last_update_id (BinanceClient.orderbook self'))%Z
  /\ (Forall (fun u => (OrderBook.upd_u u <= OrderBook.lastUpdateId data)%Z)
        (BinanceClient._buffered_updates self) ->
      BinanceClient.orderbook self' = loaded)
  /\ BinanceClient._update_count self' = BinanceClient._update_count self
  /\ (reachable (BinanceClient.orderbook self) ->
      reachable (BinanceClient.orderbook self')).
Proof.
  intros self' loaded. subst self'.
  cbn [BinanceClient.run_start BinanceClient._snapshot_loaded
       BinanceClient._buffered_updates BinanceClient.orderbook
       BinanceClient._update_count].
  fold loaded.
  assert (Hid : OrderBook.last_update_id loaded = OrderBook.lastUpdateId data).
  { unfold loaded, OrderBook.load_snapshot, OrderBook._ensure_sorted. reflexivity. }
  split; [reflexivity|]. split; [reflexivity|]. split; [reflexivity|].
  split; [|split; [|split]].
  - rewrite <- Hid. apply replay_id.
  - intros Hcov. apply replay_covered. now rewrite Hid.
  - reflexivity.
  - intros Hob. apply replay_reachable. now apply reach_load.
Qed.

(** ** Publications *)

(** What [build_snapshot] builds on a book whose cache is sound. *)
Lemma build_snapshot_spec (self : BinanceClient.t) (wall_ms : Z) :
  cache_ok (BinanceClient.orderbook self) ->
  fst (BinanceClient.build_snapshot self wall_ms)
  = match fst (OrderBook.get_binned_ladder (BinanceClient.orderbook self)
                 (BinanceClient.bin_size self) (BinanceClient.levels self)) with
    | Raise e => Raise e
    | Ok binned => Ok (artifact self binned wall_ms (BinanceClient._updates_per_sec self))
    end.
Proof.
  intros Hok. unfold BinanceClient.build_snapshot, artifact.
  pose proof (get_binned_ladder_leaves (BinanceClient.orderbook self)
                (BinanceClient.bin_size self) (BinanceClient.levels self)) as Hleaves.
  destruct (OrderBook.get_binned_ladder _ _ _) as [[binned|e] ob]; cbn [fst snd] in *;
    [|reflexivity].
  subst ob.
  pose proof (ensure_sorted_cache_ok Hok) as Hok'.
  destruct (ensure_sorted_spec Hok) as (Hb & Ha & _).
  rewrite (best_bid_spec Hok'), Hb, ensure_sorted_idem.
  rewrite (best_ask_spec Hok'), Ha, ensure_sorted_idem.
  rewrite (mid_price_ensure_sorted Hok).
  rewrite (best_bid_spec Hok), (best_ask_spec Hok).
  destruct (OrderBook.mid_price (BinanceClient.orderbook self)) as [mid ob].
  reflexivity.
Qed.

(** What a call of [_maybe_push_snapshot] publishes. *)
Lemma maybe_push_snapshot_publishes (self : BinanceClient.t) (now : float)
    (wall_ms : Z) (k1 k2 : nat) :
  reachable (BinanceClient.orderbook self) ->
  let r := BinanceClient._maybe_push_snapshot self now wall_ms k1 k2 in
  let early :=
    PyFloat.lt_int ((now - BinanceClient._last_snapshot_time self) * 1000)
      (BinanceClient.snapshot_interval_ms self) in
  let ladder :=
    fst (OrderBook.get_binned_ladder (BinanceClient.orderbook self)
           (BinanceClient.bin_size self) (BinanceClient.levels self)) in
  (early = true -> r = (self, None))
  /\ (early = false -> snd r = None ->
      exists binned,
        ladder = Ok binned
        /\ BinanceClient.snapshot_queue (fst r)
           = BinanceClient.put_drop_oldest (BinanceClient.snapshot_queue self)
               (artifact self binned wall_ms (BinanceClient._updates_per_sec (fst r)))
               k1 k2)
  /\ (early = false -> (1 <=? now - BinanceClient._rate_calc_time self) = false ->
      forall binned, ladder = Ok binned ->
      snd r = None
      /\ BinanceClient.snapshot_queue (fst r)
         = BinanceClient.put_drop_oldest (BinanceClient.snapshot_queue self)
             (artifact self binned wall_ms (BinanceClient._updates_per_sec self))
             k1 k2)
  /\ (early = false -> (1 <=? now - BinanceClient._rate_calc_time self) = true ->
      forall n binned,
      PyFloat.of_int (BinanceClient._update_count self
                      - BinanceClient._update_count_last self) = Ok n ->
      ladder = Ok binned ->
      snd r = None
      /\ BinanceClient.snapshot_queue (fst r)
         = BinanceClient.put_drop_oldest (BinanceClient.snapshot_queue self)
             (artifact self binned wall_ms
                (n / (now - BinanceClient._rate_calc_time self)))
             k1 k2).
Proof.
  intros Hreach r early ladder. subst r early ladder.
  pose proof (reachable_cache_ok Hreach) as Hok.
  unfold BinanceClient._maybe_push_snapshot.
  destruct (PyFloat.lt_int _ (BinanceClient.snapshot_interval_ms self)).
  { split; [reflexivity|]. repeat split; discriminate. }
  split; [discriminate|].
  assert (Hbuild : forall c,
            BinanceClient.orderbook c = BinanceClient.orderbook self ->
            BinanceClient.bin_size c = BinanceClient.bin_size self ->
            BinanceClient.levels c = BinanceClient.levels self ->
            BinanceClient.symbol c = BinanceClient.symbol self ->
            BinanceClient.flows c = BinanceClient.flows self ->
            fst (BinanceClient.build_snapshot c wall_ms)
            = match fst (OrderBook.get_binned_ladder (BinanceClient.orderbook self)
                           (BinanceClient.bin_size self) (BinanceClient.levels self)) with
              | Raise e => Raise e
              | Ok binned =>
                  Ok (artifact self binned wall_ms (BinanceClient._updates_per_sec c))
              end).
  { intros c Hc Hbs Hlv Hsym Hfl. rewrite build_snapshot_spec by now rewrite Hc.
    rewrite Hc, Hbs, Hlv. unfold artifact. now rewrite Hc, Hsym, Hfl. }
  destruct (1 <=? now - BinanceClient._rate_calc_time self) eqn:Hrefresh;
    destruct (PyFloat.of_int
                (BinanceClient._update_count self
                 - BinanceClient._update_count_last self)%Z) as [n|e] eqn:Hcount.
  all: try (cbn [fst snd]; split; [intros _ H; discriminate H|];
            split; [discriminate|]; intros _ _ n' binned H; discriminate H).
  all: match goal with
       | |- context [BinanceClient.build_snapshot ?c ?w] =>
           pose proof (Hbuild c eq_refl eq_refl eq_refl eq_refl eq_refl) as Hb;
           destruct (BinanceClient.build_snapshot c w) as [snapshot ob];
           cbn [fst] in Hb; subst snapshot
       end.
  all: destruct (fst (OrderBook.get_binned_ladder _ _ _)) as [binned|e'].
  all: cbn [fst snd BinanceClient.with_push BinanceClient.snapshot_queue
            BinanceClient._updates_per_sec].
  all: split; [intros _ Hnone; try discriminate Hnone; exists binned; split; reflexivity|].
  all: split; [intros _ Hr; try discriminate Hr; intros b Hl; try discriminate Hl;
                injection Hl as <-; split; reflexivity|].
  all: intros _ Hr; try discriminate Hr; intros n' b Hn Hl; try discriminate Hl;
       injection Hl as <-; injection Hn as <-; split; reflexivity.
Qed.

(** The publishing step on a channel of capacity 5. *)
Lemma put_drop_oldest_spec (q : Queue.t DOMSnapshot) (snapshot : DOMSnapshot)
    (k1 k2 : nat) :
  Queue.maxsize q = 5%Z ->
  (Queue.qsize q <= 5)%Z ->
  let q' := BinanceClient.put_drop_oldest q snapshot k1 k2 in
  Queue.maxsize q' = 5%Z
  /\ (Queue.qsize q' <= 5)%Z
  /\ ((Queue.qsize q < 5)%Z -> Queue.items q' = Queue.items q ++ [snapshot])
  /\ (Queue.qsize q = 5%Z ->
      Queue.items (BinanceClient.put_drop_oldest q snapshot 0 0)
      = tl (Queue.items q) ++ [snapshot])
  /\ (Queue.qsize q = 5%Z -> (k1 < 5)%nat ->
      Queue.items q' = skipn k2 (tl (skipn k1 (Queue.items q))) ++ [snapshot])
  /\ ((exists older, Queue.items q' = older ++ [snapshot])
      \/ (Queue.items q' = [] /\ Queue.qsize q = 5%Z /\ (5 <= k1)%nat)).
Proof.
  intros Hmax Hbound q'.
  assert (Hpos : (0 < Queue.maxsize q)%Z) by lia.
  assert (Hany : Queue.maxsize q' = 5%Z /\ (Queue.qsize q' <= 5)%Z).
  { destruct (put_drop_oldest_bound q snapshot k1 k2 Hpos) as [H1 H2]; [lia|].
    rewrite Hmax in H1, H2. now split. }
  split; [apply Hany|]. split; [apply Hany|].
  destruct (Z.ltb_spec (Queue.qsize q) 5) as [Hroom | Hfull].
  - assert (Hq' : q' = {| Queue.maxsize := Queue.maxsize q;
                          Queue.items := Queue.items q ++ [snapshot] |}).
    { apply put_drop_oldest_room. lia. }
    rewrite Hq'. cbn [Queue.maxsize Queue.items].
    split; [reflexivity|]. split; [lia|]. split; [lia|].
    left. now exists (Queue.items q).
  - assert (Hexact : Queue.qsize q = Queue.maxsize q) by lia.
    assert (Hlen : List.length (Queue.items q) = 5%nat).
    { unfold Queue.qsize in *. lia. }
    assert (Hq' := put_drop_oldest_full q snapshot k1 k2 Hpos Hexact).
    fold q' in Hq'.
    assert (H00 := put_drop_oldest_full q snapshot 0 0 Hpos Hexact).
    simpl skipn in H00.
    assert (Htl : Queue.items (BinanceClient.put_drop_oldest q snapshot 0 0)
                  = tl (Queue.items q) ++ [snapshot]).
    { rewrite H00. destruct (Queue.items q); [discriminate | reflexivity]. }
    destruct (skipn k1 (Queue.items q)) as [|oldest rest] eqn:Hskip.
    + assert (Hk1 : (5 <= k1)%nat).
      { pose proof (length_skipn k1 (Queue.items q)) as Hs.
        rewrite Hskip in Hs. simpl in Hs. lia. }
      rewrite Hq'. cbn [Queue.maxsize Queue.items].
      split; [lia|]. split; [intros _; exact Htl|].
      split; [lia|]. right. repeat split; [lia | assumption].
    + rewrite Hq'. cbn [Queue.maxsize Queue.items].
      split; [lia|]. split; [intros _; exact Htl|].
      split; [reflexivity|]. left. now exists (skipn k2 rest).
Qed.

(** C9: the channel of capacity 5.  Publishing never waits: it is made of
    the non-blocking calls only and always returns a channel.  The channel
    never holds more than 5 artifacts, after the publishing step and after
    any call of [_maybe_push_snapshot].  With room left the artifact is
    enqueued; on a full channel the oldest artifact still queued is removed
    and the new one enqueued behind the others (with no renderer step in
    between: the tail of the old contents, then the new artifact).  When the
    artifact is enqueued it is the newest element; it is dropped only if the
    renderer emptied the full channel between the failed put and the get.
    The publishing step is what [_maybe_push_snapshot] does to the channel
    of a client with a reachable book: before the interval has elapsed it
    changes nothing; past it, a call that returns without an exception has
    built the artifact of the ladder, the flows, the best prices and the
    rate it has just set, and has published that artifact, so that with
    room left it is the last element behind the old contents and on a full
    channel it stands behind what is left of them without the oldest.  The
    call returns without an exception whenever the ladder is built and the
    rate needs no refresh or the counted updates convert to a float; the
    rate is then the old one, respectively the count over the elapsed
    time. *)
Theorem publish_drop_oldest (q : Queue.t DOMSnapshot) (snapshot : DOMSnapshot)
    (k1 k2 : nat) :
  Queue.maxsize q = 5%Z ->
  (Queue.qsize q <= 5)%Z ->
  let q' := BinanceClient.put_drop_oldest q snapshot k1 k2 in
  Queue.maxsize q' = 5%Z
  /\ (Queue.qsize q' <= 5)%Z
  /\ (forall self now wall_ms,
        BinanceClient.snapshot_queue self = q ->
        let left :=
          BinanceClient.snapshot_queue
            (fst (BinanceClient._maybe_push_snapshot self now wall_ms k1 k2)) in
        Queue.maxsize left = 5%Z /\ (Queue.qsize left <= 5)%Z)
  /\ ((Queue.qsize q < 5)%Z -> Queue.items q' = Queue.items q ++ [snapshot])
  /\ (Queue.qsize q = 5%Z ->
      Queue.items (BinanceClient.put_drop_oldest q snapshot 0 0)
      = tl (Queue.items q) ++ [snapshot])
  /\ (Queue.qsize q = 5%Z -> (k1 < 5)%nat ->
      Queue.items q' = skipn k2 (tl (skipn k1 (Queue.items q))) ++ [snapshot])
  /\ ((exists older, Queue.items q' = older ++ [snapshot])
      \/ (Queue.items q' = [] /\ Queue.qsize q = 5%Z /\ (5 <= k1)%nat))
  /\ (forall self now wall_ms,
        BinanceClient.snapshot_queue self = q ->
        reachable (BinanceClient.orderbook self) ->
        let r := BinanceClient._maybe_push_snapshot self now wall_ms k1 k2 in
        let left := BinanceClient.snapshot_queue (fst r) in
        let early :=
          PyFloat.lt_int ((now - BinanceClient._last_snapshot_time self) * 1000)
            (BinanceClient.snapshot_interval_ms self) in
        let refresh := 1 <=? now - BinanceClient._rate_calc_time self in
        let ladder :=
          fst (OrderBook.get_binned_ladder (BinanceClient.orderbook self)
                 (BinanceClient.bin_size self) (BinanceClient.levels self)) in
        (early = true -> r = (self, None))
        /\ (early = false -> snd r = None ->
            exists binned,
              ladder = Ok binned
              /\ let built :=
                   artifact self binned wall_ms
                     (BinanceClient._updates_per_sec (fst r)) in
                 left = BinanceClient.put_drop_oldest q built k1 k2
                 /\ ((Queue.qsize q < 5)%Z ->
                     Queue.items left = Queue.items q ++ [built])
                 /\ (Queue.qsize q = 5%Z -> (k1 < 5)%nat ->
                     Queue.items left
                     = skipn k2 (tl (skipn k1 (Queue.items q))) ++ [built])
                 /\ ((exists older, Queue.items left = older ++ [built])
                     \/ (Queue.items left = []
                         /\ Queue.qsize q = 5%Z /\ (5 <= k1)%nat)))
        /\ (early = false -> refresh = false ->
            forall binned, ladder = Ok binned ->
            snd r = None
            /\ BinanceClient._updates_per_sec (fst r)
               = BinanceClient._updates_per_sec self)
        /\ (early = false -> refresh = true ->
            forall n binned,
            PyFloat.of_int (BinanceClient._update_count self
                            - BinanceClient._update_count_last self) = Ok n ->
            ladder = Ok binned ->
            snd r = None
            /\ BinanceClient._updates_per_sec (fst r)
               = n / (now - BinanceClient._rate_calc_time self))).
Proof.
  intros Hmax Hbound q'.
  destruct (@put_drop_oldest_spec q snapshot k1 k2 Hmax Hbound)
    as (Hcap & Hlen & Hroom & Htail & Hfull & Hnewest).
  assert (Hany : forall s, Queue.maxsize (BinanceClient.put_drop_oldest q s k1 k2) = 5%Z
                           /\ (Queue.qsize (BinanceClient.put_drop_oldest q s k1 k2) <= 5)%Z).
  { intros s. destruct (@put_drop_oldest_spec q s k1 k2 Hmax Hbound) as (H1 & H2 & _).
    now split. }
  split; [exact Hcap|]. split; [exact Hlen|]. split.
  { intros self now wall_ms Hq left.
    destruct (maybe_push_snapshot_queue self now wall_ms k1 k2) as [Hsame | [s Hs]];
      unfold left.
    - rewrite Hsame, Hq. now split.
    - rewrite Hs, Hq. apply Hany. }
  split; [exact Hroom|]. split; [exact Htail|]. split; [exact Hfull|].
  split; [exact Hnewest|].
  intros self now wall_ms Hq Hreach r left early refresh ladder.
  destruct (@maybe_push_snapshot_publishes self now wall_ms k1 k2 Hreach)
    as (Hearly & Hdone & Hkeep & Hnew).
  fold r early ladder in Hearly, Hdone, Hkeep, Hnew.
  split; [exact Hearly|]. split.
  - intros Hpast Hnone. destruct (Hdone Hpast Hnone) as (binned & Hladder & Hleft).
    exists binned. split; [exact Hladder|]. intros built.
    fold left built in Hleft. rewrite Hq in Hleft.
    destruct (@put_drop_oldest_spec q built k1 k2 Hmax Hbound)
      as (_ & _ & Hroom' & _ & Hfull' & Hnewest').
    rewrite <- Hleft in Hroom', Hfull', Hnewest'.
    repeat split; assumption.
  - split.
    + intros Hpast Hrefresh binned Hladder.
      destruct (Hkeep Hpast Hrefresh binned Hladder) as [Hnone Hleft].
      split; [exact Hnone|].
      unfold r, BinanceClient._maybe_push_snapshot. fold early. rewrite Hpast.
      fold refresh. rewrite Hrefresh.
      destruct (PyFloat.of_int _);
        match goal with
        | |- context [BinanceClient.build_snapshot ?c ?w] =>
            destruct (BinanceClient.build_snapshot c w) as [[s|e'] ob]
        end; reflexivity.
    + intros Hpast Hrefresh n binned Hcount Hladder.
      destruct (Hnew Hpast Hrefresh n binned Hcount Hladder) as [Hnone Hleft].
      split; [exact Hnone|].
      unfold r, BinanceClient._maybe_push_snapshot. fold early. rewrite Hpast.
      fold refresh. rewrite Hrefresh, Hcount.
      match goal with
      | |- context [BinanceClient.build_snapshot ?c ?w] =>
          destruct (BinanceClient.build_snapshot c w) as [[s|e'] ob]
      end; reflexivity.
Qed.

Lemma publish_drop_oldest_witness :
  let old i := mkDOMSnapshot "BNBUSDT" 0 0 0 0 [] i 0 in
  let q := {| Queue.maxsize := 5;
              Queue.items := [old 1%Z; old 2%Z; old 3%Z; old 4%Z; old 5%Z] |} in
  let started :=
    BinanceClient.run_start (BinanceClient.__init__ "BNBUSDT" 1 25 60 100 10)
      (OrderBook.mkSnapshotData 1000 [(99, 5)] [(101, 3)]) 10 in
  let client :=
    BinanceClient.with_push started 10 0 0 10 (BinanceClient.orderbook started) q in
  let r := BinanceClient._maybe_push_snapshot client 10.5 1700000000000 0 0 in
  Queue.items (BinanceClient.put_drop_oldest q (old 6%Z) 0 0)
  = [old 2%Z; old 3%Z; old 4%Z; old 5%Z; old 6%Z]
  /\ exists binned,
       fst (OrderBook.get_binned_ladder (BinanceClient.orderbook client) 1 25)
       = Ok binned
       /\ List.length binned = 51%nat
       /\ snap_best_bid (artifact client binned 1700000000000 0) = 99
       /\ snap_best_ask (artifact client binned 1700000000000 0) = 101
       /\ Queue.items (BinanceClient.snapshot_queue (fst r))
          = [old 2%Z; old 3%Z; old 4%Z; old 5%Z;
             artifact client binned 1700000000000 0].
Proof.
  intros old q started client r.
  assert (Hmax : Queue.maxsize q = 5%Z) by reflexivity.
  assert (Hbound : (Queue.qsize q <= 5)%Z) by (vm_compute; discriminate).
  destruct (@publish_drop_oldest q (old 6%Z) 0 0 Hmax Hbound)
    as (_ & _ & _ & _ & Hfull & _ & _ & Hpush).
  split; [exact (Hfull eq_refl)|].
  assert (Hreach : reachable (BinanceClient.orderbook client)).
  { change (BinanceClient.orderbook client)
      with (OrderBook.load_snapshot (OrderBook.__init__ "BNBUSDT")
              (OrderBook.mkSnapshotData 1000 [(99, 5)] [(101, 3)])).
    apply reach_load, reach_init. }
  destruct (Hpush client 10.5 1700000000000%Z eq_refl Hreach)
    as (_ & Hdone & _ & _).
  assert (Hpast : PyFloat.lt_int
                    ((10.5 - BinanceClient._last_snapshot_time client) * 1000)
                    (BinanceClient.snapshot_interval_ms client) = false)
    by (vm_compute; reflexivity).
  assert (Hnone : snd r = None) by (vm_compute; reflexivity).
  destruct (Hdone Hpast Hnone) as (binned & Hladder & _ & _ & Hitems & _).
  assert (Hrate : BinanceClient._updates_per_sec (fst r) = 0)
    by (vm_compute; reflexivity).
  exists binned. split; [exact Hladder|].
  split; [vm_compute in Hladder; injection Hladder as <-; reflexivity|].
  split; [vm_compute; reflexivity|]. split; [vm_compute; reflexivity|].
  fold r in Hitems. rewrite Hrate in Hitems. exact (Hitems eq_refl (Nat.lt_0_succ 4)).
Defined.

(** X21: at most one publication an interval.  A call of
    [_maybe_push_snapshot] that passes its guard at the clock reading [now]
    stamps the client with [now], also when an exception escapes it; a
    later call, at a reading less than the interval after [now], changes
    nothing and publishes nothing. *)
Theorem push_once_per_interval
    (self : BinanceClient.t) (now now' : float) (wall_ms wall_ms' : Z)
    (k1 k2 k1' k2' : nat) :
  PyFloat.lt_int ((now - BinanceClient._last_snapshot_time self) * 1000)
    (BinanceClient.snapshot_interval_ms self) = false ->
  PyFloat.lt_int ((now' - now) * 1000) (BinanceClient.snapshot_interval_ms self) = true ->
  let self1 := fst (BinanceClient._maybe_push_snapshot self now wall_ms k1 k2) in
  BinanceClient._last_snapshot_time self1 = now
  /\ BinanceClient._maybe_push_snapshot self1 now' wall_ms' k1' k2' = (self1, None).
Proof.
  intros Hpast Hearly self1.
  destruct (maybe_push_snapshot_fields self now wall_ms k1 k2)
    as (_ & _ & _ & Hint & _ & _ & _ & _ & _ & _ & _ & Hstamp).
  fold self1 in Hint, Hstamp. specialize (Hstamp Hpast).
  split; [exact Hstamp|].
  unfold BinanceClient._maybe_push_snapshot at 1. now rewrite Hstamp, Hint, Hearly.
Qed.

Lemma push_once_per_interval_witness :
  let client :=
    BinanceClient.run_start (BinanceClient.__init__ "BNBUSDT" 1 25 60 100 0)
      (OrderBook.mkSnapshotData 1000 [(99, 5)] [(101, 3)]) 10 in
  let client1 := fst (BinanceClient._maybe_push_snapshot client 10.5 1700000000000 0 0) in
  Queue.qsize (BinanceClient.snapshot_queue client1) = 1%Z
  /\ BinanceClient._maybe_push_snapshot client1 10.55 1700000000050 0 0
     = (client1, None).
Proof.
  intros client client1.
  assert (Hpast : PyFloat.lt_int
                    ((10.5 - BinanceClient._last_snapshot_time client) * 1000)
                    (BinanceClient.snapshot_interval_ms client) = false)
    by (vm_compute; reflexivity).
  assert (Hearly : PyFloat.lt_int ((10.55 - 10.5) * 1000)
                     (BinanceClient.snapshot_interval_ms client) = true)
    by (vm_compute; reflexivity).
  split; [vm_compute; reflexivity|].
  exact (proj2 (@push_once_per_interval client 10.5 10.55 1700000000000
                  1700000000050 0 0 0 0 Hpast Hearly)).
Defined.

Lemma of_int_raises (i : Z) (e : exn) : PyFloat.of_int i = Raise e -> e = OverflowError.
Proof.
  unfold PyFloat.of_int.
  destruct (binary_normalize prec emax i 0 false); try discriminate.
  intros H. now injection H.
Qed.

Lemma binned_ladder_zero_bin (self : OrderBook.t) (bin_size : float) (levels : Z) :
  cache_ok self ->
  (fst (OrderBook.mid_price self) =? 0) = false -> (bin_size =? 0) = true ->
  fst (OrderBook.get_binned_ladder self bin_size levels) = Raise ZeroDivisionError.
Proof.
  intros Hok Hmid Hbs. rewrite (get_binned_ladder_spec _ _ Hok). cbv zeta.
  rewrite Hmid. unfold OrderBook.bin_center_of, PyFloat.floordiv. now rewrite Hbs.
Qed.

(** X22: a client whose bin size equals zero publishes nothing once its
    book has a price.  When the book is reachable and its mid price does
    not equal zero, every call of [_maybe_push_snapshot] that passes its
    guard lets an exception escape, [ZeroDivisionError] from the ladder or
    [OverflowError] from the rate before it, and leaves the queue as it
    was. *)
Theorem push_zero_bin_size
    (self : BinanceClient.t) (now : float) (wall_ms : Z) (k1 k2 : nat) :
  reachable (BinanceClient.orderbook self) ->
  (fst (OrderBook.mid_price (BinanceClient.orderbook self)) =? 0) = false ->
  (BinanceClient.bin_size self =? 0) = true ->
  PyFloat.lt_int ((now - BinanceClient._last_snapshot_time self) * 1000)
    (BinanceClient.snapshot_interval_ms self) = false ->
  let r := BinanceClient._maybe_push_snapshot self now wall_ms k1 k2 in
  (snd r = Some ZeroDivisionError \/ snd r = Some OverflowError)
  /\ BinanceClient.snapshot_queue (fst r) = BinanceClient.snapshot_queue self
  /\ ((1 <=? now - BinanceClient._rate_calc_time self) = false ->
      snd r = Some ZeroDivisionError).
Proof.
  intros Hreach Hmid Hbs Hpast r. subst r.
  pose proof (reachable_cache_ok Hreach) as Hok.
  unfold BinanceClient._maybe_push_snapshot. rewrite Hpast.
  assert (Hbuild : forall c, BinanceClient.orderbook c = BinanceClient.orderbook self ->
                     BinanceClient.bin_size c = BinanceClient.bin_size self ->
                     fst (BinanceClient.build_snapshot c wall_ms)
                     = Raise ZeroDivisionError).
  { intros c Hc Hb. unfold BinanceClient.build_snapshot. rewrite Hc, Hb.
    pose proof (binned_ladder_zero_bin (BinanceClient.levels c) Hok Hmid Hbs) as H.
    destruct (OrderBook.get_binned_ladder _ _ _) as [binned ob]. cbn [fst] in H.
    now rewrite H. }
  destruct (1 <=? now - BinanceClient._rate_calc_time self);
    destruct (PyFloat.of_int
                (BinanceClient._update_count self
                 - BinanceClient._update_count_last self)%Z) as [n|e] eqn:Hcount;
    try (apply of_int_raises in Hcount; subst e; cbn [fst snd];
         split; [now right|]; split; [reflexivity | discriminate]);
    match goal with
    | |- context [BinanceClient.build_snapshot ?c ?w] =>
        pose proof (Hbuild c eq_refl eq_refl) as Hb;
        destruct (BinanceClient.build_snapshot c w) as [snapshot ob];
        cbn [fst] in Hb; subst snapshot
    end;
    cbn [fst snd BinanceClient.with_push BinanceClient.snapshot_queue];
    (split; [now left|]); (split; [reflexivity|]); reflexivity.
Qed.

Lemma push_zero_bin_size_witness :
  let client :=
    BinanceClient.run_start (BinanceClient.__init__ "BNBUSDT" 0 25 60 100 10)
      (OrderBook.mkSnapshotData 1000 [(99, 5)] [(101, 3)]) 10 in
  snd (BinanceClient._maybe_push_snapshot client 10.5 1700000000000 0 0)
  = Some ZeroDivisionError
  /\ Queue.items
       (BinanceClient.snapshot_queue
          (fst (BinanceClient._maybe_push_snapshot client 10.5 1700000000000 0 0)))
     = [].
Proof.
  intros client.
  assert (Hreach : reachable (BinanceClient.orderbook client))
    by (apply reach_load, reach_init).
  assert (Hmid : (fst (OrderBook.mid_price (BinanceClient.orderbook client)) =? 0) = false)
    by reflexivity.
  assert (Hbs : (BinanceClient.bin_size client =? 0) = true) by reflexivity.
  assert (Hpast : PyFloat.lt_int
                    ((10.5 - BinanceClient._last_snapshot_time client) * 1000)
                    (BinanceClient.snapshot_interval_ms client) = false)
    by (vm_compute; reflexivity).
  destruct (@push_zero_bin_size client 10.5 1700000000000 0 0 Hreach Hmid Hbs Hpast)
    as (_ & Hq & Hz).
  split.
  - apply Hz. vm_compute. reflexivity.
  - rewrite Hq. reflexivity.
Defined.

(** ** The window's poll *)

Lemma drain_all (items : list DOMSnapshot) (maxsize : Z) (latest : option DOMSnapshot)
    (rounds : nat) :
  (List.length items < rounds)%nat ->
  DOMWindow.drain rounds {| Queue.maxsize := maxsize; Queue.items := items |} latest
  = ({| Queue.maxsize := maxsize; Queue.items := [] |},
     match rev items with
     | newest :: _ => Some newest
     | [] => latest
     end).
Proof.
  revert latest rounds. induction items as [|x items IH]; intros latest rounds Hlen;
    (destruct rounds as [|rounds]; [simpl in Hlen; lia|]).
  - reflexivity.
  - cbn [DOMWindow.drain Queue.get_nowait Queue.items Queue.maxsize].
    rewrite IH by (simpl in Hlen; lia).
    f_equal. cbn [rev]. destruct (rev items) as [|y r]; reflexivity.
Qed.

Lemma poll_snapshots_spec (self : DOMWindow.t) (q : Queue.t DOMSnapshot) :
  DOMWindow._poll_snapshots self q
  = (match rev (Queue.items q) with
     | newest :: _ => {| DOMWindow._last_snapshot := Some newest |}
     | [] => self
     end,
     {| Queue.maxsize := Queue.maxsize q; Queue.items := [] |}).
Proof.
  unfold DOMWindow._poll_snapshots. destruct q as [maxsize items].
  cbn [Queue.items Queue.maxsize]. rewrite drain_all by lia.
  destruct (rev items); reflexivity.
Qed.

(** X23: a poll empties the queue and keeps the newest artifact only.
    Whatever the queue holds, [_poll_snapshots] leaves it empty, with its
    capacity; the window then holds the artifact that was enqueued last,
    the others are skipped, and when the queue was empty the window keeps
    what it had. *)
Theorem poll_keeps_newest (self : DOMWindow.t) (q : Queue.t DOMSnapshot) :
  let r := DOMWindow._poll_snapshots self q in
  Queue.items (snd r) = []
  /\ Queue.maxsize (snd r) = Queue.maxsize q
  /\ (forall older newest,
        Queue.items q = older ++ [newest] ->
        DOMWindow._last_snapshot (fst r) = Some newest)
  /\ (Queue.items q = [] -> fst r = self).
Proof.
  intros r. subst r. rewrite poll_snapshots_spec. cbn [fst snd Queue.items Queue.maxsize].
  split; [reflexivity|]. split; [reflexivity|]. split.
  - intros older newest ->. rewrite rev_app_distr. reflexivity.
  - intros ->. reflexivity.
Qed.

Lemma put_drop_oldest_newest (q : Queue.t DOMSnapshot) (snapshot : DOMSnapshot)
    (k1 k2 : nat) :
  Queue.maxsize q = 5%Z -> (Queue.qsize q <= 5)%Z ->
  (exists older,
     Queue.items (BinanceClient.put_drop_oldest q snapshot k1 k2) = older ++ [snapshot])
  \/ (Queue.items (BinanceClient.put_drop_oldest q snapshot k1 k2) = []
      /\ Queue.qsize q = 5%Z /\ (5 <= k1)%nat).
Proof.
  intros Hmax Hbound.
  destruct (Z.ltb_spec (Queue.qsize q) 5) as [Hroom | Hfull].
  - left. rewrite put_drop_oldest_room by lia. now exists (Queue.items q).
  - assert (Hexact : Queue.qsize q = Queue.maxsize q) by lia.
    rewrite (@put_drop_oldest_full q snapshot k1 k2) by lia.
    destruct (skipn k1 (Queue.items q)) as [|oldest rest] eqn:Hskip.
    + right. cbn [Queue.items]. split; [reflexivity|]. split; [lia|].
      pose proof (length_skipn k1 (Queue.items q)) as Hs. rewrite Hskip in Hs.
      unfold Queue.qsize in *. simpl in Hs. lia.
    + left. now exists (skipn k2 rest).
Qed.

(** X24: what is published is what the window shows next.  After the
    publishing step on a queue of capacity 5, a poll leaves the queue empty
    and the window holding the artifact just published, whatever was
    queued before it; the one exception is the race in which the renderer
    emptied the full queue between the failed put and the get, and then
    the poll finds nothing and the window keeps what it had. *)
Theorem published_is_shown
    (self : DOMWindow.t) (q : Queue.t DOMSnapshot) (snapshot : DOMSnapshot)
    (k1 k2 : nat) :
  Queue.maxsize q = 5%Z ->
  (Queue.qsize q <= 5)%Z ->
  let r := DOMWindow._poll_snapshots self
             (BinanceClient.put_drop_oldest q snapshot k1 k2) in
  Queue.items (snd r) = []
  /\ (DOMWindow._last_snapshot (fst r) = Some snapshot
      \/ (fst r = self /\ Queue.qsize q = 5%Z /\ (5 <= k1)%nat))
  /\ ((k1 < 5)%nat -> DOMWindow._last_snapshot (fst r) = Some snapshot).
Proof.
  intros Hmax Hbound r. subst r. rewrite poll_snapshots_spec.
  cbn [fst snd Queue.items]. split; [reflexivity|].
  destruct (@put_drop_oldest_newest q snapshot k1 k2 Hmax Hbound)
    as [[older ->] | (-> & Hfull & Hk1)].
  - rewrite rev_app_distr. cbn [rev app DOMWindow._last_snapshot]. auto.
  - cbn [rev]. split; [now right | lia].
Qed.

Lemma published_is_shown_witness :
  let old i := mkDOMSnapshot "BNBUSDT" 0 0 0 0 [] i 0 in
  let q := {| Queue.maxsize := 5;
              Queue.items := [old 1%Z; old 2%Z; old 3%Z; old 4%Z; old 5%Z] |} in
  let window := {| DOMWindow._last_snapshot := None |} in
  DOMWindow._last_snapshot
    (fst (DOMWindow._poll_snapshots window
            (BinanceClient.put_drop_oldest q (old 6%Z) 0 0)))
  = Some (old 6%Z).
Proof.
  intros old q window.
  assert (Hmax : Queue.maxsize q = 5%Z) by reflexivity.
  assert (Hbound : (Queue.qsize q <= 5)%Z) by (vm_compute; discriminate).
  destruct (@published_is_shown window q (old 6%Z) 0 0 Hmax Hbound) as (_ & _ & Hshown).
  apply Hshown. lia.
Defined.

(** ** A trade and its own clean-up *)

Lemma expire_keeps_last (cutoff_ms : Z) (trades : list FlowEngine.entry)
    (newest : FlowEngine.entry) (bv av : fdict float) :
  (cutoff_ms <= entry_time newest)%Z ->
  exists older,
    fst (fst (FlowEngine.expire cutoff_ms (trades ++ [newest]) bv av))
    = older ++ [newest].
Proof.
  intros Hnew. revert bv av.
  induction trades as [|[[[ts bin] qty] is_bid] rest IH]; intros bv av.
  - exists []. destruct newest as [[[ts bin] qty] is_bid].
    unfold entry_time in Hnew. cbn [fst] in Hnew.
    cbn [app FlowEngine.expire].
    destruct (Z.ltb_spec ts cutoff_ms); [lia | reflexivity].
  - cbn [app FlowEngine.expire]. destruct (ts <? cutoff_ms)%Z.
    + destruct is_bid; apply IH.
    + now exists ((ts, bin, qty, is_bid) :: rest).
Qed.

(** X25: a trade outlives its own call.  Whether or not [process_trade]
    runs the clean-up, when it returns the entry of the trade is the
    last of the history, provided the window is not negative: the clean-up
    measures age from the trade's own timestamp. *)
Theorem own_trade_is_kept
    (self self' : FlowEngine.t) (trade : Trade) (now : float) (bin : float) (w : Z) :
  FlowEngine._price_to_bin self (trade_price trade) = Ok bin ->
  PyFloat.to_int (FlowEngine.window_sec self * 1000) = Ok w ->
  (0 <= w)%Z ->
  FlowEngine.process_trade self trade now = Ok self' ->
  exists older,
    FlowEngine._trades self'
    = older ++ [(timestamp_ms trade, bin, trade_qty trade, negb (is_buyer_maker trade))].
Proof.
  intros Hbin Hw Hpos H.
  rewrite (@process_trade_steps self trade now bin Hbin) in H. cbv zeta in H.
  destruct (_ <? _).
  - destruct (FlowEngine._cleanup_expired _ _) as [cleaned|e] eqn:Hc; cbn [bind] in H;
      [|discriminate].
    injection H as <-. apply cleanup_expired_fields in Hc.
    destruct Hc as (w' & Hw' & ->).
    cbn [FlowEngine.window_sec] in Hw'. rewrite Hw in Hw'. injection Hw' as <-.
    cbn [FlowEngine.set_last_cleanup_time FlowEngine._trades].
    apply expire_keeps_last. unfold entry_time. cbn [fst]. lia.
  - injection H as <-. cbn [FlowEngine._trades]. now exists (FlowEngine._trades self).
Qed.

Lemma own_trade_is_kept_witness :
  let flows :=
    FlowEngine.mk 60 1 [(1000%Z, 100.5, 1, true)] [(100.5, 1)] [] 0 1 in
  exists flows' older,
    FlowEngine.process_trade flows (mkTrade 101.25 2 false 70000) 5 = Ok flows'
    /\ FlowEngine._trades flows' = older ++ [(70000%Z, 101.5, 2, true)].
Proof.
  intros flows.
  assert (Hbin : FlowEngine._price_to_bin flows
                   (trade_price (mkTrade 101.25 2 false 70000)) = Ok 101.5)
    by (vm_compute; reflexivity).
  assert (Hw : PyFloat.to_int (FlowEngine.window_sec flows * 1000) = Ok 60000%Z)
    by (vm_compute; reflexivity).
  assert (Hpos : (0 <= 60000)%Z) by lia.
  assert (Hok : FlowEngine.process_trade flows (mkTrade 101.25 2 false 70000) 5
                = Ok (FlowEngine.mk 60 1 [(70000%Z, 101.5, 2, true)] [(101.5, 2)] [] 5 1))
    by (vm_compute; reflexivity).
  destruct (@own_trade_is_kept flows _ (mkTrade 101.25 2 false 70000) 5 101.5 60000
              Hbin Hw Hpos Hok) as (older & Holder).
  eexists. exists older. split; [exact Hok | exact Holder].
Defined.

(** ** What the window writes *)

Lemma append_empty (a b : string) :
  (a ++ b)%string = EmptyString -> a = EmptyString /\ b = EmptyString.
Proof. destruct a; simpl; [auto | discriminate]. Qed.

Lemma decimal_point_written (digits : nat) (n : Z) :
  PyFloat.decimal_point (S digits) n <> EmptyString.
Proof.
  unfold PyFloat.decimal_point. intros H.
  apply append_empty in H. destruct H as [_ H]. discriminate H.
Qed.

(** With at least one decimal, the conversion writes something. *)
Lemma format_fixed_written (digits : nat) (x : float) :
  PyFloat.format_fixed (S digits) x <> EmptyString.
Proof.
  unfold PyFloat.format_fixed.
  destruct (Prim2SF x) as [s|s| |s m e]; try discriminate;
    try (destruct s; discriminate);
    intros H; apply append_empty in H; destruct H as [_ H];
    now apply decimal_point_written in H.
Qed.

(** A float that is at least a float above zero is above zero. *)
Lemma fltb_fleb_trans x y z : (x <? y) = true -> (y <=? z) = true -> (x <? z) = true.
Proof.
  rewrite !fltb_key, fleb_key.
  intros (a & b & Ha & Hb & Hab) (b' & c & Hb' & Hc & Hbc).
  rewrite Hb in Hb'. injection Hb' as <-. exists a, c. repeat split; trivial.
  destruct Hbc as [Hbc | <-]; [|assumption].
  destruct a as [[a1 a2] a3], b as [[b1 b2] b3], c as [[c1 c2] c3]; simpl in *. lia.
Qed.

Lemma format_qty_not_positive (qty : float) :
  (0 <? qty) = false -> DOMWindow.format_qty qty = EmptyString.
Proof.
  intros H. unfold DOMWindow.format_qty.
  destruct (1000 <=? qty) eqn:H1000.
  { rewrite (@fltb_fleb_trans 0 1000 qty eq_refl H1000) in H. discriminate. }
  destruct (1 <=? qty) eqn:H1.
  { rewrite (@fltb_fleb_trans 0 1 qty eq_refl H1) in H. discriminate. }
  now rewrite H.
Qed.

(** X26: the window's [format_qty] writes nothing exactly for the
    quantities that are not greater than zero: zero, every negative
    quantity and NaN give the empty string, every other quantity a
    number. *)
Theorem format_qty_blank (qty : float) :
  DOMWindow.format_qty qty = EmptyString <-> (0 <? qty) = false.
Proof.
  split; [|apply format_qty_not_positive].
  unfold DOMWindow.format_qty.
  destruct (1000 <=? qty).
  { intros H. apply append_empty in H. destruct H as [_ H]. discriminate H. }
  destruct (1 <=? qty).
  { intros H. now apply format_fixed_written in H. }
  destruct (0 <? qty); [|reflexivity].
  intros H. now apply format_fixed_written in H.
Qed.

(** X27: the delta cell of the window is blank for every delta that is
    not greater than zero.  A positive delta is written with a plus sign;
    a negative delta is handed to [format_qty], which writes nothing for
    it, so a row whose ask-traded volume exceeds its bid-traded volume
    shows no delta at all. *)
Theorem delta_text_blank (delta_qty : float) :
  (DOMWindow.delta_text delta_qty = EmptyString <-> (0 <? delta_qty) = false)
  /\ ((delta_qty <? 0) = true -> DOMWindow.delta_text delta_qty = EmptyString).
Proof.
  assert (Hblank : (0 <? delta_qty) = false ->
                   DOMWindow.delta_text delta_qty = EmptyString).
  { intros H. unfold DOMWindow.delta_text. rewrite H.
    destruct (delta_qty <? 0); [now apply format_qty_not_positive | reflexivity]. }
  split; [split; [|exact Hblank]|].
  - unfold DOMWindow.delta_text. destruct (0 <? delta_qty); [discriminate | reflexivity].
  - intros Hneg. apply Hblank. now apply fltb_asym.
Qed.
